(** * The installation process of thus (thus/installation/process.py)

    A shallow embedding of the installation pipeline controller: the event
    channel ([queue_event], [queue_fatal_event]), the rsync progress tracker
    ([FileCopyThread]), the chroot special-directory lifecycle
    ([chroot_mount_special_dirs], [chroot_umount_special_dirs]), the fstab
    builder ([auto_fstab]) and the pipeline itself ([install_system],
    [run_installation]).

    Every interaction with the outside world (external commands, the file
    system, the callback queue, collaborators defined in other modules) is
    an operation answered by an environment that sees the whole history of
    the run, and is recorded, with its answer, in a trace.  A computation
    returns, raises an exception, or ends the process ([os._exit]).

    Conventions of the model:
    - a dictionary that is iterated is the list of its items, in iteration
      order; a dictionary that is only looked up is a finite map;
    - the progress ratio [float(n) / float(total)] is kept as the exact
      quotient of the two integers;
    - strings are sequences of one-byte characters, and [\d] is an ASCII
      digit;
    - a copy job runs between [start] and [join] of its thread, while the
      pipeline waits: its events are in the trace in the order in which it
      emits them;
    - the collaborators of other modules ([auto_partition], [misc],
      [chroot], [fs]) are external calls, answered by the environment;
    - a name that the module uses and neither defines nor imports raises
      where it is looked up: NameError for the global names
      [chroot_run_umount_special_dirs] and [pyalpm], AttributeError for the
      methods [self.enable_targets] and [self.install_bootloader], which the
      class does not have. *)

From Stdlib Require Import ZArith QArith Ascii String List Lia Bool.
From stdpp Require Import base option strings pretty sorting gmap.
Import ListNotations.

#[local] Open Scope string_scope.
#[local] Open Scope list_scope.

(** ** Python strings *)

Module PyStr.

(** [needle in hay] on Python strings. *)
Fixpoint contains (needle hay : string) : bool :=
  String.prefix needle hay ||
  match hay with
  | EmptyString => false
  | String _ rest => contains needle rest
  end.

(** [s.startswith(lit)], returning what follows the literal. *)
Fixpoint strip_prefix (lit s : string) : option string :=
  match lit, s with
  | EmptyString, _ => Some s
  | String a lit', String b s' =>
      if Ascii.eqb a b then strip_prefix lit' s' else None
  | String _ _, EmptyString => None
  end.

Definition is_digit (c : ascii) : bool :=
  let n := nat_of_ascii c in (48 <=? n)%nat && (n <=? 57)%nat.

(** The longest run of decimal digits at the head of [s] (the greedy
    [\d*]) and what follows it. *)
Fixpoint span_digits (s : string) : string * string :=
  match s with
  | EmptyString => (EmptyString, EmptyString)
  | String c rest =>
      if is_digit c
      then let '(ds, tl) := span_digits rest in (String c ds, tl)
      else (EmptyString, s)
  end.

(** The regular expression group [(\d+)]: at least one digit.  What follows
    a group in the patterns below is a literal that starts with a character
    that is no digit (or the end of the pattern), so the greedy run is the
    only candidate and no backtracking is needed. *)
Definition digits1 (s : string) : option (string * string) :=
  match span_digits s with
  | (EmptyString, _) => None
  | (ds, tl) => Some (ds, tl)
  end.

Definition digit_val (c : ascii) : Z := Z.of_nat (nat_of_ascii c) - 48.

Fixpoint int_acc (acc : Z) (s : string) : Z :=
  match s with
  | EmptyString => acc
  | String c rest => int_acc (10 * acc + digit_val c) rest
  end.

(** [int(s)] for a string of decimal digits. *)
Definition int (s : string) : Z := int_acc 0 s.

(** [fmt % arg] for a format with one [%s]: the first [%s] is replaced;
    a format without one is returned unchanged. *)
Fixpoint pct (fmt arg : string) : string :=
  match fmt with
  | EmptyString => EmptyString
  | String "%" (String "s" rest) => arg +:+ rest
  | String c rest => String c (pct rest arg)
  end.

(** [sep.join(l)]. *)
Fixpoint join (sep : string) (l : list string) : string :=
  match l with
  | [] => EmptyString
  | [x] => x
  | x :: rest => x +:+ sep +:+ join sep rest
  end.

End PyStr.

(** ** The rsync progress line

    [re.findall(r'xfr#(\d+), ir-chk=(\d+)/(\d+)', line)]: the list of the
    non-overlapping matches, leftmost first, each a triple of the three
    groups.  The code looks at [m[0]] only, and at whether [m] is empty. *)

Module Rsync.
Import PyStr.

(** A match of the pattern anchored at the head of [s]. *)
Definition match_here (s : string) : option (string * string * string) :=
  match strip_prefix "xfr#" s with
  | None => None
  | Some s1 =>
      match digits1 s1 with
      | None => None
      | Some (xfr, s2) =>
          match strip_prefix ", ir-chk=" s2 with
          | None => None
          | Some s3 =>
              match digits1 s3 with
              | None => None
              | Some (remaining, s4) =>
                  match strip_prefix "/" s4 with
                  | None => None
                  | Some s5 =>
                      match digits1 s5 with
                      | None => None
                      | Some (total, _) => Some (xfr, remaining, total)
                      end
                  end
              end
          end
      end
  end.

(** [m[0]] when [m] is not empty: the leftmost match in the line. *)
Fixpoint first_match (line : string) : option (string * string * string) :=
  match match_here line with
  | Some g => Some g
  | None =>
      match line with
      | EmptyString => None
      | String _ rest => first_match rest
      end
  end.

End Rsync.

(** ** Values, events and exceptions *)

(** The values a setting can hold, as far as the pipeline looks at them. *)
Inductive pyval :=
| PyNone
| PyBool (b : bool)
| PyStr (s : string).

(** Python truthiness: [if v:]. *)
Definition truthy (v : pyval) : bool :=
  match v with
  | PyNone => false
  | PyBool b => b
  | PyStr s => negb (String.eqb s "")
  end.

(** The exceptions the pipeline tells apart.  [OtherException] stands for
    every other subclass of [Exception] (OSError, NameError, AttributeError,
    ValueError, ZeroDivisionError, ...), named by its class. *)
Inductive exn :=
| CalledProcessError (cmd : list string) (output : string)
| InstallError (value : string)
| OtherException (class : string).

(** Event kinds of the callback queue. *)
Inductive kind :=
| info | debug | warning | error_ev | action | pulse
| percent | progress_info | finished.

(** What an event or a log record carries: a text, a progress ratio (the
    float [num_files / total_files], kept as the exact quotient), or an
    exception object. *)
Inductive payload :=
| Text (s : string)
| Ratio (q : Q)
| Exc (e : exn).

Inductive level := LDebug | LWarning | LError.

(** ** Operations on the outside world and their answers *)

Inductive op :=
| CheckCall (argv : list string)          (* subprocess.check_call(argv) *)
| PathExists (path : string)              (* os.path.exists(path) *)
| Mkdir (path : string)                   (* os.mkdir(path) *)
| Makedirs (path : string)                (* os.makedirs(path) *)
| Remove (path : string)                  (* os.remove(path) *)
| Chmod (path : string) (mode : string)   (* os.chmod(path, mode) *)
| AppendFile (path : string) (text : string)
| WriteFile (path : string) (text : string)
| CopyFile (src dst : string)             (* shutil.copy(src, dst) *)
| PutNowait (k : kind) (p : payload)      (* callback_queue.put_nowait((k, p)) *)
| PrintEvent (k : kind) (p : payload)     (* print("{0}: {1}".format(k, p)) *)
| QueueJoin                               (* callback_queue.join() *)
| Logging (l : level) (msg : payload)     (* logging.debug / warning / error *)
| PrintTraceback                          (* traceback.print_tb *)
| MountInfo (path : string)               (* misc.mount_info(path)[0] *)
| ProcMounts (mount_point : string)       (* the device of a line of /proc/mounts *)
| CountFiles (image : string)             (* unsquashfs -l image | wc -l *)
| RsyncStart (argv : list string)         (* subprocess.Popen(argv, stdout=PIPE) *)
| RsyncLines                              (* the lines read from its stdout *)
| GetInfoUUID (partition : string)        (* fs.get_info(partition)['UUID'] *)
| Configuration (section key : string)    (* configuration[section][key] *)
| Strftime                                (* time.strftime, twice *)
| Uname                                   (* os.uname()[-1] *)
| HashOrder                               (* the iteration order of a set of two strings *)
| Extern (name : string) (args : list string).
                                          (* a callable defined outside this module *)

Inductive answer :=
| Done                                    (* returned None *)
| Truth (b : bool)
| Str (s : string)
| NoneVal
| Lines (l : list string)
| Pairs (l : list (string * string))
| Raised (e : exn).

(** One step of the history of a run. *)
Definition step : Type := op * answer.

(** The environment: what the outside world answers to an operation, given
    everything that happened before (most recent step last). *)
Definition World : Type := list step -> op -> answer.

(** ** The installer object *)

Record Installer := mkInstaller {
  callback_queue : bool;                  (* callback_queue is not None *)
  settings : gmap string pyval;
  method : string;
  ssd : list string;                      (* the keys of the ssd dictionary *)
  mount_devices : list (string * string); (* items, in iteration order *)
  fs_devices : gmap string string;
  running : bool;
  error : bool;
  special_dirs_mounted : bool;
  auto_device : pyval;
  arch : string;
  kernel : string;
  vmlinuz : string;
  initramfs : string;
  dest_dir : string;
  media : string;
  media_desktop : string;
  media_type : string
}.

Record St := mkSt {
  self : Installer;
  trace : list step
}.

(** How a computation ends: it returns, it raises, or the process is gone
    ([os._exit]). *)
Inductive res (A : Type) :=
| Ret (a : A)
| Raise (e : exn)
| Exit (code : Z).
Arguments Ret {A} a.
Arguments Raise {A} e.
Arguments Exit {A} code.

Definition M (A : Type) : Type := St -> res A * St.

Definition ret {A} (a : A) : M A := fun st => (Ret a, st).

Definition bind {A B} (m : M A) (f : A -> M B) : M B :=
  fun st =>
    match m st with
    | (Ret a, st') => f a st'
    | (Raise e, st') => (Raise e, st')
    | (Exit c, st') => (Exit c, st')
    end.

Definition raise {A} (e : exn) : M A := fun st => (Raise e, st).

(** [os._exit(code)]. *)
Definition os_exit {A} (code : Z) : M A := fun st => (Exit code, st).

(** [try: m except <filter> as e: handler e]: an exception the filter does
    not accept goes on; the end of the process is never caught. *)
Definition try_except {A} (m : M A) (accepts : exn -> bool) (handler : exn -> M A) : M A :=
  fun st =>
    match m st with
    | (Raise e, st') => if accepts e then handler e st' else (Raise e, st')
    | r => r
    end.

Declare Scope py_scope.
Delimit Scope py_scope with py.
Notation "x <- m ;; k" := (bind m (fun x => k))
  (at level 100, m at next level, k at level 200, right associativity) : py_scope.
Notation "m ;; k" := (bind m (fun _ => k))
  (at level 100, k at level 200, right associativity) : py_scope.
#[local] Open Scope py_scope.

Definition is_CalledProcessError (e : exn) : bool :=
  match e with CalledProcessError _ _ => true | _ => false end.
(** [except Exception]: everything modelled is an [Exception]. *)
Definition is_Exception (e : exn) : bool := true.

Definition get_self : M Installer := fun st => (Ret (self st), st).
Definition set_self (f : Installer -> Installer) : M unit :=
  fun st => (Ret tt, mkSt (f (self st)) (trace st)).

(** [for x in l: body x]. *)
Fixpoint for_each {A} (l : list A) (body : A -> M unit) : M unit :=
  match l with
  | [] => ret tt
  | x :: rest => body x ;; for_each rest body
  end.

Definition when (b : bool) (m : M unit) : M unit := if b then m else ret tt.

(** Assignments to the attributes of [self]. *)
Definition set_running (b : bool) (s : Installer) : Installer :=
  mkInstaller (callback_queue s) (settings s) (method s) (ssd s) (mount_devices s)
    (fs_devices s) b (error s) (special_dirs_mounted s) (auto_device s) (arch s)
    (kernel s) (vmlinuz s) (initramfs s) (dest_dir s) (media s) (media_desktop s)
    (media_type s).

Definition set_error (b : bool) (s : Installer) : Installer :=
  mkInstaller (callback_queue s) (settings s) (method s) (ssd s) (mount_devices s)
    (fs_devices s) (running s) b (special_dirs_mounted s) (auto_device s) (arch s)
    (kernel s) (vmlinuz s) (initramfs s) (dest_dir s) (media s) (media_desktop s)
    (media_type s).

Definition set_special_dirs_mounted (b : bool) (s : Installer) : Installer :=
  mkInstaller (callback_queue s) (settings s) (method s) (ssd s) (mount_devices s)
    (fs_devices s) (running s) (error s) b (auto_device s) (arch s)
    (kernel s) (vmlinuz s) (initramfs s) (dest_dir s) (media s) (media_desktop s)
    (media_type s).

Definition set_settings (m : gmap string pyval) (s : Installer) : Installer :=
  mkInstaller (callback_queue s) m (method s) (ssd s) (mount_devices s)
    (fs_devices s) (running s) (error s) (special_dirs_mounted s) (auto_device s)
    (arch s) (kernel s) (vmlinuz s) (initramfs s) (dest_dir s) (media s)
    (media_desktop s) (media_type s).

Definition set_devices (md : list (string * string)) (fd : gmap string string)
    (s : Installer) : Installer :=
  mkInstaller (callback_queue s) (settings s) (method s) (ssd s) md
    fd (running s) (error s) (special_dirs_mounted s) (auto_device s)
    (arch s) (kernel s) (vmlinuz s) (initramfs s) (dest_dir s) (media s)
    (media_desktop s) (media_type s).

Definition set_auto_device (v : pyval) (s : Installer) : Installer :=
  mkInstaller (callback_queue s) (settings s) (method s) (ssd s) (mount_devices s)
    (fs_devices s) (running s) (error s) (special_dirs_mounted s) v
    (arch s) (kernel s) (vmlinuz s) (initramfs s) (dest_dir s) (media s)
    (media_desktop s) (media_type s).

(** The assignments of [run_installation] from the configuration file. *)
Definition set_media (m md mt k a : string) (s : Installer) : Installer :=
  mkInstaller (callback_queue s) (settings s) (method s) (ssd s) (mount_devices s)
    (fs_devices s) (running s) (error s) (special_dirs_mounted s) (auto_device s)
    a k ("vmlinuz-" +:+ k) ("initramfs-" +:+ k) (dest_dir s) m md mt.

(** [os.path.join(a, b)]. *)
Definition ends_with_slash (a : string) : bool :=
  match String.get (String.length a - 1) a with
  | Some "/"%char => true
  | _ => false
  end.

Definition path_join (a b : string) : string :=
  if String.prefix "/" b then b
  else if String.eqb a "" then b
  else if ends_with_slash a then a +:+ b
  else a +:+ "/" +:+ b.

(** [str(argv)] for a list of strings without quotes in them. *)
Definition repr_list (l : list string) : string :=
  "[" +:+ PyStr.join ", " (map (fun s => "'" +:+ s +:+ "'") l) +:+ "]".

(** [str(err)]. *)
Definition str_exn (e : exn) : string :=
  match e with
  | CalledProcessError cmd _ =>
      "Command '" +:+ repr_list cmd +:+ "' returned non-zero exit status"
  | InstallError value => "'" +:+ value +:+ "'"
  | OtherException class => class
  end.

(** [str(d)] for a dictionary of strings. *)
Definition repr_dict (items : list (string * string)) : string :=
  "{" +:+ PyStr.join ", " (map (fun kv => "'" +:+ kv.1 +:+ "': '" +:+ kv.2 +:+ "'") items)
  +:+ "}".

Definition DEST_DIR : string := "/install".
Definition newline : string := String "010" EmptyString.

(** [d[key]] on the items of a dictionary; [None] is a KeyError. *)
Fixpoint dict_get (key : string) (items : list (string * string)) : option string :=
  match items with
  | [] => None
  | (k, v) :: rest => if String.eqb k key then Some v else dict_get key rest
  end.

(** [float(s)] and [int(s)] on the count printed by [wc -l]. *)
Definition all_digits (s : string) : bool :=
  forallb PyStr.is_digit (list_ascii_of_string s).

Definition parse_count (s : string) : option Z :=
  if negb (String.eqb s "") && all_digits s then Some (PyStr.int s) else None.
(** [(CMD % {'source': source, 'dest': dest}).split()]. *)
Definition CMD_rsync (source dest : string) : list string :=
  ["rsync"; "-ar"; "--progress"; source; dest].

(** [_]: no translation catalogue is installed, the message is returned as
    it is. *)
Definition tr (msg : string) : string := msg.

Section Model.

Variable world : World.

(** Ask the world, and record the question and the answer. *)
Definition perform (o : op) : M answer :=
  fun st =>
    let a := world (trace st) o in
    (Ret a, mkSt (self st) (trace st ++ [(o, a)])).

(** An operation that returns nothing of interest, or raises. *)
Definition call (o : op) : M unit :=
  a <- perform o ;;
  match a with
  | Raised e => raise e
  | _ => ret tt
  end.

(** An operation whose result is tested. *)
Definition ask (o : op) : M bool :=
  a <- perform o ;;
  match a with
  | Raised e => raise e
  | Truth b => ret b
  | Str s => ret (negb (String.eqb s ""))
  | Lines l => ret (negb (Nat.eqb (length l) 0))
  | Pairs l => ret (negb (Nat.eqb (length l) 0))
  | _ => ret false
  end.

(** An operation that cannot fail and yields a text. *)
Definition ask_text (o : op) : M string :=
  a <- perform o ;;
  ret (match a with Str s => s | _ => "" end).

(** An operation that yields a string. *)
Definition ask_str (o : op) : M string :=
  a <- perform o ;;
  match a with
  | Raised e => raise e
  | Str s => ret s
  | _ => raise (OtherException "TypeError")
  end.

Definition check_call (argv : list string) : M unit := call (CheckCall argv).
Definition path_exists (p : string) : M bool := ask (PathExists p).

(** The logging module swallows its own failures. *)
Definition logging (l : level) (msg : payload) : M unit :=
  perform (Logging l msg) ;; ret tt.

Definition settings_get (key : string) : M pyval :=
  s <- get_self ;;
  ret (default PyNone (settings s !! key)).

Definition settings_set (key : string) (v : pyval) : M unit :=
  set_self (fun s => set_settings (<[key := v]> (settings s)) s).

(** *** The event channel *)

(** [put_nowait] enqueues or raises [queue.Full], which is passed over:
    whatever the queue answers, [queue_event] returns.  Without a queue
    the event is printed. *)
Definition queue_event (event_type : kind) (event_text : payload) : M unit :=
  s <- get_self ;;
  if callback_queue s
  then perform (PutNowait event_type event_text) ;; ret tt
  else perform (PrintEvent event_type event_text) ;; ret tt.

(** [self.callback_queue.join()]: it waits for the consumer and returns;
    without a queue it is an attribute of [None]. *)
Definition callback_queue_join : M unit :=
  s <- get_self ;;
  if callback_queue s
  then perform QueueJoin ;; ret tt
  else raise (OtherException "AttributeError").

Definition queue_fatal_event (txt : payload) : M unit :=
  set_self (set_error true) ;;
  set_self (set_running false) ;;
  queue_event error_ev txt ;;
  callback_queue_join ;;
  os_exit 0.

(** *** The copy progress tracker *)

Record FileCopyThread := mkThread {
  our_current : Z;
  total_files : Z;
  offset : Z
}.

Definition FileCopyThread_init (current_file total : Z) (source dest : string)
    (off : Z) : M FileCopyThread :=
  call (RsyncStart (CMD_rsync source dest)) ;;
  ret (mkThread current_file total off).

(** [float(num_files) / float(self.total_files)]. *)
Definition update_progress (t : FileCopyThread) (num_files : Z) : M unit :=
  if (total_files t =? 0)%Z
  then raise (OtherException "ZeroDivisionError")
  else queue_event percent (Ratio (inject_Z num_files / inject_Z (total_files t))).

(** The body of the loop of [run], for one line; it yields the new value of
    [num_files_copied]. *)
Definition run_line (t : FileCopyThread) (num_files_copied : Z) (line : string) : M Z :=
  match Rsync.first_match line with
  | Some (_, m1, m2) =>
      let num_files_remaining := PyStr.int m1 in
      let num_files_total_local := PyStr.int m2 in
      let num_files_copied :=
        (num_files_total_local - num_files_remaining + offset t)%Z in
      (if (num_files_copied mod 100 =? 0)%Z
       then update_progress t num_files_copied
       else ret tt) ;;
      ret num_files_copied
  | None => ret num_files_copied
  end.

Fixpoint run_lines (t : FileCopyThread) (num_files_copied : Z) (lines : list string) : M Z :=
  match lines with
  | [] => ret num_files_copied
  | line :: rest =>
      n <- run_line t num_files_copied line ;;
      run_lines t n rest
  end.

Definition stdout_lines : M (list string) :=
  a <- perform RsyncLines ;;
  match a with
  | Lines l => ret l
  | Raised e => raise e
  | _ => ret []
  end.

(** [FileCopyThread.run]: the thread after the run, [offset] updated. *)
Definition FileCopyThread_run (t : FileCopyThread) : M FileCopyThread :=
  lines <- stdout_lines ;;
  n <- run_lines t 0 lines ;;
  ret (mkThread (our_current t) (total_files t) n).

(** [t.start(); t.join()]: an exception in [run] ends the thread only (its
    traceback is printed), [join] returns and [t.offset] keeps its value. *)
Definition start_join (t : FileCopyThread) : M FileCopyThread :=
  try_except (FileCopyThread_run t) is_Exception
    (fun _ => perform PrintTraceback ;; ret t).

(** *** The chroot special directories *)

Definition chroot_mount_special_dirs : M unit :=
  s <- get_self ;;
  if special_dirs_mounted s
  then queue_event debug (Text (tr "Special dirs already mounted."))
  else
    let special_dirs := ["sys"; "proc"; "dev"; "dev/pts"; "sys/firmware/efi"] in
    for_each special_dirs (fun s_dir =>
      let mydir := path_join (dest_dir s) s_dir in
      e <- path_exists mydir ;;
      when (negb e) (call (Makedirs mydir))) ;;
    (let mydir := path_join (dest_dir s) "sys" in
     check_call ["mount"; "-t"; "sysfs"; "/sys"; mydir] ;;
     check_call ["chmod"; "555"; mydir]) ;;
    (let mydir := path_join (dest_dir s) "proc" in
     check_call ["mount"; "-t"; "proc"; "/proc"; mydir] ;;
     check_call ["chmod"; "555"; mydir]) ;;
    (let mydir := path_join (dest_dir s) "dev" in
     check_call ["mount"; "-o"; "bind"; "/dev"; mydir]) ;;
    (let mydir := path_join (dest_dir s) "dev/pts" in
     check_call ["mount"; "-t"; "devpts"; "/dev/pts"; mydir] ;;
     check_call ["chmod"; "555"; mydir]) ;;
    efi <- settings_get "efi" ;;
    when (truthy efi)
      (let mydir := path_join (dest_dir s) "sys/firmware/efi" in
       check_call ["mount"; "-o"; "bind"; "/sys/firmware/efi"; mydir]) ;;
    set_self (set_special_dirs_mounted true).

(** The directories [chroot_umount_special_dirs] goes through. *)
Definition umount_special_list (efi : bool) : list string :=
  if efi
  then ["dev/pts"; "sys/firmware/efi"; "sys"; "proc"; "dev"]
  else ["dev/pts"; "sys"; "proc"; "dev"].

Definition cmd_of (e : exn) : list string :=
  match e with CalledProcessError cmd _ => cmd | _ => [] end.
Definition output_of (e : exn) : string :=
  match e with CalledProcessError _ out => out | _ => "" end.

Definition umount_special_dir (mydir : string) : M unit :=
  try_except (check_call ["umount"; mydir]) is_Exception
    (fun err =>
       if is_CalledProcessError err
       then
         logging LError (Exc err) ;;
         try_except (check_call ["umount"; "-l"; mydir]) is_CalledProcessError
           (fun err =>
              queue_event warning (Text (PyStr.pct (tr "Unable to umount %s") mydir)) ;;
              logging LWarning
                (Text (PyStr.pct (tr "Command %s has failed.") (repr_list (cmd_of err)))) ;;
              logging LWarning
                (Text (PyStr.pct (tr "Output : %s") (output_of err))))
       else
         queue_event warning (Text (PyStr.pct (tr "Unable to umount %s") mydir)) ;;
         logging LError (Exc err)).

Definition chroot_umount_special_dirs : M unit :=
  s <- get_self ;;
  if negb (special_dirs_mounted s)
  then queue_event debug (Text (tr "Special dirs are not mounted. Skipping."))
  else
    efi <- settings_get "efi" ;;
    for_each (umount_special_list (truthy efi)) (fun s_dir =>
      umount_special_dir (path_join (dest_dir s) s_dir)) ;;
    set_self (set_special_dirs_mounted false).

(** [if not os.path.exists(path): os.makedirs(path)]. *)
Definition ensure_dir (path : string) : M unit :=
  e <- path_exists path ;;
  when (negb e) (call (Makedirs path)).

(** *** The fstab builder *)

Definition fstab_header : list string :=
  ["# /etc/fstab: static file system information.";
   "#";
   "# Use 'blkid' to print the universally unique identifier for a";
   "# device; this may be used with UUID= as a more robust way to name devices";
   "# that works even if disks are added and removed. See fstab(5).";
   "#";
   "# <file system> <mount point>   <type>  <options>       <dump>  <pass>";
   "#"].

Definition tmpfs_line : string :=
  "tmpfs /tmp tmpfs defaults,noatime,mode=1777 0 0".

(** [for ssd_device in self.ssd: if ssd_device in partition_path: is_ssd = True]. *)
Definition is_ssd_of (ssd_keys : list string) (partition_path : string) : bool :=
  fold_left
    (fun is_ssd ssd_device =>
       if PyStr.contains ssd_device partition_path then true else is_ssd)
    ssd_keys false.

(** The mount options table. *)
Definition mount_opts (is_ssd : bool) (myfmt : string) : string :=
  if negb is_ssd then
    if PyStr.contains "btrfs" myfmt
    then "defaults,rw,relatime,space_cache,autodefrag,inode_cache"
    else if PyStr.contains "f2fs" myfmt
    then "defaults,rw,noatime"
    else if PyStr.contains "ext3" myfmt || PyStr.contains "ext4" myfmt
    then "defaults,rw,relatime,data=ordered"
    else "defaults,rw,relatime"
  else
    if String.eqb myfmt "ext4" || String.eqb myfmt "jfs" || String.eqb myfmt "xfs"
    then "defaults,rw,noatime,discard"
    else if String.eqb myfmt "btrfs"
    then "defaults,rw,noatime,compress=lzo,ssd,discard,space_cache,autodefrag,inode_cache"
    else "defaults,rw,noatime".

(** The options of a swap line. *)
Definition swap_opts (ssd_keys : list string) (partition_path : string) : string :=
  if bool_decide (partition_path ∈ ssd_keys) then "defaults,discard" else "defaults".

Definition no_check : list string := ["btrfs"; "f2fs"].

Definition added_to_fstab (all_lines : list string) (txt : string) : M (list string) :=
  logging LDebug (Text (PyStr.pct (tr "Added to fstab : %s") txt)) ;;
  ret (all_lines ++ [txt]).

Definition append_crypttab (crypttab_path line : string) : M unit :=
  call (Chmod crypttab_path "0o666") ;;
  call (AppendFile crypttab_path line) ;;
  logging LDebug (Text (PyStr.pct (tr "Added to crypttab : %s") line)) ;;
  call (Chmod crypttab_path "0o600").

(** [partition_path[len("/dev/mapper/"):]]. *)
Definition drop_mapper (partition_path : string) : string :=
  String.substring 12 (String.length partition_path - 12) partition_path.

(** Home on LUKS without LVM, from the automatic installation. *)
Definition home_on_luks (s : Installer) (use_luks use_lvm : pyval)
    (mount_point : string) : bool :=
  PyStr.contains "/home" mount_point && String.eqb (method s) "automatic"
  && truthy use_luks && negb (truthy use_lvm).

(** A LUKS partition of the advanced installation, except root.
    ([mount_point is not "/"]: strings of one character are shared objects,
    the identity test is the equality test.) *)
Definition advanced_luks (s : Installer) (use_luks : pyval)
    (mount_point partition_path : string) : bool :=
  String.eqb (method s) "advanced" && negb (String.eqb mount_point "/")
  && truthy use_luks && PyStr.contains "/dev/mapper" partition_path.

(** fstab uses vfat to mount fat16 and fat32 partitions. *)
Definition fstab_type (myfmt : string) : string :=
  if PyStr.contains "fat" myfmt then "vfat" else myfmt.

Definition check_flag (mount_point myfmt : string) : string :=
  if String.eqb mount_point "/" && negb (bool_decide (myfmt ∈ no_check))
  then "1" else "0".

Definition swap_line (uuid opts : string) : string :=
  "UUID=" +:+ uuid +:+ " swap swap " +:+ opts +:+ " 0 0".

Definition mapped_line (device mount_point myfmt : string) : string :=
  device +:+ " " +:+ mount_point +:+ " " +:+ myfmt +:+ " defaults 0 0".

Definition uuid_line (uuid mount_point myfmt opts chk : string) : string :=
  "UUID=" +:+ uuid +:+ " " +:+ mount_point +:+ " " +:+ myfmt +:+ " "
  +:+ opts +:+ " 0 " +:+ chk.

(** One turn of the loop over [self.mount_devices]: the lines so far go in,
    the lines after this mount point come out ([continue] returns them as
    they are). *)
Definition fstab_entry (use_luks use_lvm : pyval) (all_lines : list string)
    (item : string * string) : M (list string) :=
  let '(mount_point, partition_path) := item in
  uuid <- ask_str (GetInfoUUID partition_path) ;;
  s <- get_self ;;
  match fs_devices s !! partition_path with
  | None =>
      (* It hasn't any filesystem defined, skip it. *)
      ret all_lines
  | Some myfmt =>
      if PyStr.contains "swap" myfmt then
        (* Take care of swap partitions *)
        added_to_fstab all_lines (swap_line uuid (swap_opts (ssd s) partition_path))
      else
        let crypttab_path := path_join DEST_DIR "etc/crypttab" in
        if home_on_luks s use_luks use_lvm mount_point
        then
          luks_root_password <- settings_get "luks_root_password" ;;
          let home_keyfile :=
            if truthy luks_root_password then "none" else "/etc/luks-keys/home" in
          append_crypttab crypttab_path
            ("cryptAntergosHome /dev/disk/by-uuid/" +:+ uuid +:+ " " +:+ home_keyfile
             +:+ " luks" +:+ newline) ;;
          added_to_fstab all_lines
            (mapped_line "/dev/mapper/cryptAntergosHome" mount_point myfmt)
        else if advanced_luks s use_luks mount_point partition_path
        then
          let vol_name := drop_mapper partition_path in
          append_crypttab crypttab_path
            (vol_name +:+ " /dev/disk/by-uuid/" +:+ uuid +:+ " none luks"
             +:+ newline) ;;
          added_to_fstab all_lines (mapped_line partition_path mount_point myfmt)
        else
          let myfmt := fstab_type myfmt in
          when (PyStr.contains "btrfs" myfmt) (settings_set "btrfs" (PyBool true)) ;;
          (* Avoid adding a partition to fstab when it has no mount point *)
          if String.eqb mount_point "" then ret all_lines
          else
            (* Create mount point on destination system *)
            ensure_dir (path_join DEST_DIR mount_point) ;;
            (* Is ssd ? *)
            let is_ssd := is_ssd_of (ssd s) partition_path in
            let opts := mount_opts is_ssd myfmt in
            let chk := check_flag mount_point myfmt in
            when (String.eqb mount_point "/") (settings_set "ruuid" (PyStr uuid)) ;;
            added_to_fstab all_lines (uuid_line uuid mount_point myfmt opts chk)
  end.

Fixpoint fstab_loop (use_luks use_lvm : pyval) (all_lines : list string)
    (items : list (string * string)) : M (list string) :=
  match items with
  | [] => ret all_lines
  | item :: rest =>
      all_lines <- fstab_entry use_luks use_lvm all_lines item ;;
      fstab_loop use_luks use_lvm all_lines rest
  end.

(** The lines of the fstab, before they are written. *)
Definition fstab_lines : M (list string) :=
  use_luks <- settings_get "use_luks" ;;
  use_lvm <- settings_get "use_lvm" ;;
  s <- get_self ;;
  all_lines <- fstab_loop use_luks use_lvm fstab_header (mount_devices s) ;;
  (* Create tmpfs line in fstab *)
  added_to_fstab all_lines tmpfs_line.

Definition auto_fstab : M unit :=
  all_lines <- fstab_lines ;;
  let full_text := PyStr.join newline all_lines +:+ newline in
  let fstab_path := path_join DEST_DIR "etc/fstab" in
  call (WriteFile fstab_path full_text) ;;
  logging LDebug (Text (tr "fstab written.")).

(** *** Copying the system: [install_system] *)

(** [check_source_folder]: the device mounted at [mount_point] according to
    /proc/mounts, if any. *)
Definition check_source_folder (mount_point : string) : M (option string) :=
  a <- perform (ProcMounts mount_point) ;;
  match a with
  | Str device => ret (Some device)
  | Raised e => raise e
  | _ => ret None
  end.

Definition mount_media (image mount_point : string) : M unit :=
  s <- get_self ;;
  device <- check_source_folder mount_point ;;
  match device with
  | None =>
      check_call ["mount"; image; mount_point; "-t"; media_type s; "-o"; "loop"]
  | Some device =>
      logging LWarning
        (Text (image +:+ " is already mounted at " +:+ mount_point +:+ " as " +:+ device))
  end.

(** The output of [unsquashfs -l image | wc -l]. *)
Definition count_files (image : string) : M string := ask_str (CountFiles image).

Definition to_number (s : string) : M Z :=
  match parse_count s with
  | Some n => ret n
  | None => raise (OtherException "ValueError")
  end.

Definition PERCENTAGE_FORMAT (a b : Z) : string :=
  pretty a +:+ "/" +:+ pretty b +:+ " ( 100.00 % )".

(** The body of the [try] of [install_system]. *)
Definition install_system_body : M unit :=
  s <- get_self ;;
  (e <- path_exists (dest_dir s) ;; when (negb e) (call (Mkdir (dest_dir s)))) ;;
  (e <- path_exists "/source" ;; when (negb e) (call (Mkdir "/source"))) ;;
  (e <- path_exists "/source_desktop" ;; when (negb e) (call (Mkdir "/source_desktop"))) ;;
  (* find the squashfs.. *)
  (e <- path_exists (media s) ;;
   when (negb e)
     (let txt := tr "Base filesystem does not exist! Critical error (exiting)." in
      logging LError (Text txt) ;;
      queue_fatal_event (Text txt))) ;;
  (e <- path_exists (media_desktop s) ;;
   when (negb e)
     (let txt := tr "Desktop filesystem does not exist! Critical error (exiting)." in
      logging LError (Text txt) ;;
      queue_fatal_event (Text txt))) ;;
  (* Mount the installation media *)
  mount_media (media s) "/source" ;;
  mount_media (media_desktop s) "/source_desktop" ;;
  (* index the files *)
  queue_event info (Text "Indexing files to be copied...") ;;
  output1 <- count_files (media s) ;;
  queue_event info (Text (tr "Indexing files to be copied ...")) ;;
  output2 <- count_files (media_desktop s) ;;
  n1 <- to_number output1 ;;
  n2 <- to_number output2 ;;
  let our_total := (n1 + n2)%Z in
  queue_event info (Text (tr "Extracting root-image ...")) ;;
  t <- FileCopyThread_init 0 our_total "/source/" (dest_dir s) 0 ;;
  t <- start_join t ;;
  (* walk desktop filesystem *)
  queue_event info (Text (tr "Extracting desktop-image ...")) ;;
  our_current <- to_number output1 ;;
  t <- FileCopyThread_init our_current our_total "/source_desktop/" (dest_dir s) (offset t) ;;
  _ <- start_join t ;;
  (* this is purely out of aesthetic reasons: show 100% to the user *)
  queue_event percent (Ratio 1) ;;
  queue_event progress_info (Text (PERCENTAGE_FORMAT our_total our_total)).

Definition install_system : M unit :=
  try_except install_system_body is_Exception
    (fun err =>
       logging LError (Exc err) ;;
       queue_fatal_event (Exc err) ;;
       perform PrintTraceback ;; ret tt).

(** *** The pipeline: [run_installation] *)

(** A callable of another module ([auto_partition], [chroot], [os], ...). *)
Definition extern (name : string) (args : list string) : M unit :=
  call (Extern name args).

Definition extern_items (name : string) : M (list (string * string)) :=
  a <- perform (Extern name []) ;;
  match a with
  | Pairs l => ret l
  | Raised e => raise e
  | _ => ret []
  end.

Definition warn_failed (what : string) (err : exn) : M unit :=
  logging LWarning (Text what) ;;
  logging LWarning
    (Text (PyStr.pct (tr "Command %s has failed.") (repr_list (cmd_of err)))) ;;
  logging LWarning (Text (PyStr.pct (tr "Output : %s") (output_of err))).

(** The stage before the partitions: the target directory and the settings
    of the configuration file. *)
Definition init_target : M unit :=
  e <- path_exists DEST_DIR ;;
  (if negb e
   then call (Makedirs DEST_DIR)
   else
     (* recovering from a failed/stopped install: unmount what is left *)
     extern "auto_partition.unmount_all" [DEST_DIR]) ;;
  _ <- ask_str (Configuration "distribution" "DISTRIBUTION_NAME") ;;
  _ <- ask_str (Configuration "distribution" "DISTRIBUTION_VERSION") ;;
  _ <- ask_str (Configuration "install" "LIVE_USER_NAME") ;;
  m <- ask_str (Configuration "install" "LIVE_MEDIA_SOURCE") ;;
  md <- ask_str (Configuration "install" "LIVE_MEDIA_DESKTOP") ;;
  mt <- ask_str (Configuration "install" "LIVE_MEDIA_TYPE") ;;
  k <- ask_str (Configuration "install" "KERNEL") ;;
  a <- ask_text Uname ;;
  set_self (set_media m md mt k a).

(** Create and format partitions (automatic mode). *)
Definition partition : M unit :=
  ad <- settings_get "auto_device" ;;
  set_self (set_auto_device ad) ;;
  logging LDebug (Text (tr "Creating partitions and their filesystems")) ;;
  extern "auto_partition.AutoPartition.run" [DEST_DIR] ;;
  md <- extern_items "auto_partition.AutoPartition.get_mount_devices" ;;
  fd <- extern_items "auto_partition.AutoPartition.get_fs_devices" ;;
  set_self (set_devices md (list_to_map fd)).

(** One turn of the loop that mounts the other partitions (advanced mode). *)
Definition mount_other (root_partition boot_partition swap_partition : string)
    (item : string * string) : M unit :=
  let '(path, mount_part) := item in
  if String.eqb path "" then ret tt
  else if negb (String.eqb mount_part root_partition)
          && negb (String.eqb mount_part boot_partition)
          && negb (String.eqb mount_part swap_partition)
  then
    let mount_dir := path_join DEST_DIR path in
    try_except
      (ensure_dir mount_dir ;;
       logging LDebug
         (Text ("Mounting partition " +:+ mount_part +:+ " into " +:+ mount_dir
                +:+ " directory")) ;;
       check_call ["mount"; mount_part; mount_dir])
      is_CalledProcessError
      (fun err =>
         (* We will continue as root and boot are already mounted *)
         warn_failed ("Can't mount " +:+ mount_part +:+ " in " +:+ mount_dir) err)
  else if String.eqb mount_part swap_partition
  then
    try_except
      (logging LDebug (Text (PyStr.pct (tr "Activating swap in %s") mount_part)) ;;
       check_call ["swapon"; swap_partition])
      is_CalledProcessError
      (fun err =>
         (* We can continue even if no swap is on *)
         warn_failed (PyStr.pct (tr "Can't activate swap in %s") mount_part) err)
  else ret tt.

(** Mount root and boot, and in advanced mode the other partitions. *)
Definition mount_target : M unit :=
  s <- get_self ;;
  match dict_get "/" (mount_devices s) with
  | None => raise (OtherException "KeyError")
  | Some root_partition =>
      let boot_partition := default "" (dict_get "/boot" (mount_devices s)) in
      let swap_partition := default "" (dict_get "swap" (mount_devices s)) in
      logging LDebug
        (Text ("Mounting partition " +:+ root_partition +:+ " into " +:+ DEST_DIR
               +:+ " directory")) ;;
      check_call ["mount"; root_partition; DEST_DIR] ;;
      let boot_path := path_join DEST_DIR "boot" in
      ensure_dir boot_path ;;
      when (bool_decide (is_Some (dict_get "/boot" (mount_devices s))))
        (logging LDebug
           (Text ("Mounting partition " +:+ boot_partition +:+ " into " +:+ boot_path
                  +:+ "/boot directory")) ;;
         check_call ["mount"; boot_partition; boot_path]) ;;
      when (String.eqb (method s) "advanced")
        (for_each (mount_devices s)
           (mount_other root_partition boot_partition swap_partition))
  end.

(** The pacman lock and the folders of the target. *)
Definition prep_dirs : M unit :=
  let db_lock := path_join DEST_DIR "var/lib/pacman/db.lck" in
  (e <- path_exists db_lock ;;
   when e
     (call (Remove db_lock) ;;
      logging LDebug (Text (PyStr.pct (tr "%s deleted") db_lock)))) ;;
  for_each
    [path_join DEST_DIR "var/lib/pacman";
     path_join DEST_DIR "etc/pacman.d/gnupg";
     path_join DEST_DIR "var/log"]
    ensure_dir.

(** *** The configuration stage: [configure_system] *)

(** [chroot_run(cmd)]: [chroot.run(cmd, DEST_DIR)]; the arguments of the
    call are the target and then the command. *)
Definition chroot_run (cmd : list string) : M unit :=
  extern "chroot.run" (DEST_DIR :: cmd).

(** [os.listdir(path)]. *)
Definition listdir (path : string) : M (list string) :=
  a <- perform (Extern "os.listdir" [path]) ;;
  match a with
  | Lines l => ret l
  | Raised e => raise e
  | _ => ret []
  end.

(** [isinstance(e, name)] for an exception that is named by its class. *)
Definition is_class (name : string) (e : exn) : bool :=
  match e with
  | OtherException class => String.eqb class name
  | _ => false
  end.

Definition source_nm : string := "/etc/NetworkManager/system-connections/".
Definition target_nm : string :=
  path_join DEST_DIR "etc/NetworkManager/system-connections".

(** One turn of the loop of [copy_network_config]. *)
Definition copy_network (network : string) : M unit :=
  (* Skip LTSP live *)
  if String.eqb network "LTSP" then ret tt
  else
    let source_network := path_join source_nm network in
    let target_network := path_join target_nm network in
    e <- path_exists target_network ;;
    if e then ret tt
    else
      try_except (call (CopyFile source_network target_network))
        (fun e => is_class "FileNotFoundError" e || is_class "FileExistsError" e)
        (fun e =>
           if is_class "FileNotFoundError" e
           then logging LWarning (Text (tr "Can't copy network configuration files"))
           else ret tt).

(** [copy_network_config()]. *)
Definition copy_network_config : M unit :=
  e1 <- path_exists source_nm ;;
  e2 <- (if e1 then path_exists target_nm else ret false) ;;
  when (e1 && e2)
    (networks <- listdir source_nm ;;
     for_each networks copy_network).

(** The unit file of a service in the target. *)
Definition service_path (name : string) : string :=
  path_join DEST_DIR ("usr/lib/systemd/system/" +:+ name +:+ ".service").

(** One turn of the loop of [enable_services]. *)
Definition enable_service (name : string) : M unit :=
  let path := service_path name in
  e <- path_exists path ;;
  if e then
    chroot_run ["systemctl"; "-f"; "enable"; name] ;;
    logging LDebug (Text (PyStr.pct (tr "Enabled %s service.") name))
  else
    logging LWarning (Text (PyStr.pct (tr "Can't find service %s") name)).

(** [enable_services(services)]. *)
Definition enable_services (services : list string) : M unit :=
  for_each services enable_service.

(** [self.network_manager], set by [__init__] and never assigned again. *)
Definition network_manager : string := "NetworkManager".

(** [configure_system], as far as it runs: after the fstab, the network
    configuration and the services it calls [self.enable_targets], a method
    the class does not have.  The look-up raises AttributeError, so nothing
    of what follows in the method is ever executed, and the method never
    returns. *)
Definition configure_system : M unit :=
  queue_event action (Text (tr "Configuring your new system")) ;;
  auto_fstab ;;
  queue_event debug (Text (tr "fstab file generated.")) ;;
  (* Copy configured networks in Live medium to target system *)
  when (String.eqb network_manager "NetworkManager") copy_network_config ;;
  queue_event debug (Text (tr "Network configuration copied.")) ;;
  queue_event action (Text (tr "Configuring your new system")) ;;
  queue_event pulse (Text "") ;;
  (* enable services *)
  enable_services [network_manager] ;;
  s <- get_self ;;
  (let cups_service :=
     path_join (dest_dir s) "usr/lib/systemd/system/org.cups.cupsd.service" in
   e <- path_exists cups_service ;;
   when e (enable_services ["org.cups.cupsd"])) ;;
  (* enable targets: self.enable_targets(['remote-fs.target']) *)
  raise (OtherException "AttributeError").

(** The body of the [try] of [run_installation]. *)
Definition install_stages : M unit :=
  s <- get_self ;;
  queue_event debug (Text (tr "Install System ...")) ;;
  (* very slow ... *)
  install_system ;;
  check_call ["mkdir"; "-p"; dest_dir s +:+ "/var/log/"] ;;
  queue_event debug (Text (tr "System installed.")) ;;
  queue_event debug (Text (tr "Configuring system ...")) ;;
  configure_system ;;
  queue_event debug (Text (tr "System configured.")) ;;
  (* Install boot loader (always after running mkinitcpio) *)
  ib <- settings_get "install_bootloader" ;;
  when (truthy ib)
    (queue_event debug (Text (tr "Installing boot loader ...")) ;;
     (* self.install_bootloader(): the class has no such method *)
     raise (OtherException "AttributeError")).

(** The three [except] clauses of that [try]; the result is [all_ok]. *)
Definition on_stage_failure (err : exn) : M bool :=
  match err with
  | CalledProcessError _ output =>
      logging LError (Exc err) ;;
      queue_fatal_event (Text ("CalledProcessError.output = " +:+ output)) ;;
      ret false
  | InstallError value =>
      logging LError (Exc err) ;;
      queue_fatal_event (Text value) ;;
      ret false
  | OtherException _ =>
      try_except
        (logging LDebug
           (Text ("Exception: " +:+ str_exn err +:+ ". Trying to continue.")) ;;
         ret true)
        is_Exception
        (fun err =>
           let txt := "Unknown Error: " +:+ str_exn err +:+ ". Unable to continue." in
           logging LDebug (Text txt) ;;
           queue_fatal_event (Text txt) ;;
           set_self (set_running false) ;;
           set_self (set_error true) ;;
           ret false)
  end.

(** Last but not least, copy the log to the new installation. *)
Definition copy_log : M unit :=
  s <- get_self ;;
  datetime <- ask_text Strftime ;;
  let dst := path_join (dest_dir s) ("var/log/thus-" +:+ datetime +:+ ".log") in
  try_except (call (CopyFile "/tmp/thus.log" dst))
    (fun e =>
       match e with
       | OtherException "FileNotFoundError" | OtherException "FileExistsError" => true
       | _ => false
       end)
    (fun e =>
       match e with
       | OtherException "FileNotFoundError" =>
           logging LWarning (Text (PyStr.pct (tr "Can't copy Thus log to %s") dst))
       | _ => ret tt
       end).

(** [umount target], then [umount -l target] when the first fails;
    [last_resort] runs when the second fails too. *)
Definition umount_or_lazy (target : string) (last_resort : exn -> M unit) : M unit :=
  try_except
    (queue_event debug (Text (PyStr.pct (tr "Unmounting %s") target)) ;;
     check_call ["umount"; target])
    is_CalledProcessError
    (fun err =>
       logging LError (Exc err) ;;
       try_except (check_call ["umount"; "-l"; target]) is_CalledProcessError last_resort).

Definition umount_source (p : string) : M unit :=
  let p := path_join "/" p in
  fsname <- ask (MountInfo p) ;;
  when fsname
    (umount_or_lazy p (fun err =>
       queue_event warning (Text (PyStr.pct (tr "Can't unmount %s") p)) ;;
       logging LWarning (Exc err))).

Definition umount_mount_point (item : string * string) : M unit :=
  s <- get_self ;;
  let '(path, mount_part) := item in
  let mount_dir := dest_dir s +:+ path in
  when (negb (String.eqb path "/") && negb (String.eqb path "swap")
        && negb (String.eqb path ""))
    (umount_or_lazy mount_dir (fun err =>
       (* We will continue as root and boot are already mounted *)
       logging LWarning (Exc err) ;;
       queue_event debug (Text (PyStr.pct (tr "Can't unmount %s") mount_dir)))).

(** [for p in {"source", "source_desktop"}]: the order is that of the set. *)
Definition source_dirs : M (list string) :=
  a <- perform HashOrder ;;
  ret (match a with
       | Truth false => ["source_desktop"; "source"]
       | _ => ["source"; "source_desktop"]
       end).

(** [chroot_run_umount_special_dirs()]: the module neither defines nor
    imports a global of this name (the method is
    [self.chroot_umount_special_dirs]); the look-up raises NameError. *)
Definition chroot_run_umount_special_dirs : M unit :=
  raise (OtherException "NameError").

(** Unmount everything. *)
Definition finalize_cleanup : M unit :=
  chroot_run_umount_special_dirs ;;
  dirs <- source_dirs ;;
  for_each dirs umount_source ;;
  s <- get_self ;;
  queue_event debug (Text ("Mounted devices: " +:+ repr_dict (mount_devices s))) ;;
  for_each (mount_devices s) umount_mount_point ;;
  (* now we can unmount /install *)
  fsname <- ask (MountInfo (dest_dir s)) ;;
  when fsname
    (umount_or_lazy (dest_dir s) (fun err =>
       logging LWarning (Exc err) ;;
       queue_event debug
         (Text (PyStr.pct (tr "Can't unmount %s")
                  (path_join "/" (List.last dirs "")))))).

(** The stages before the installation proper: the target directory, the
    partitions (automatic mode), the mounts of the target (alongside and
    advanced modes) and the folders. *)
Definition prepare : M unit :=
  init_target ;;
  s <- get_self ;;
  when (String.eqb (method s) "automatic") partition ;;
  (* Create the directory where we will mount our new root partition *)
  (e <- path_exists DEST_DIR ;; when (negb e) (call (Mkdir DEST_DIR))) ;;
  when (String.eqb (method s) "alongside" || String.eqb (method s) "advanced")
    mount_target ;;
  prep_dirs.

(** The [try] statement; the result is [all_ok]. *)
Definition attempt_stages : M bool :=
  try_except (install_stages ;; ret true) is_Exception on_stage_failure.

(** The branch of [all_ok]: the log, the unmounts, the last event. *)
Definition finish : M bool :=
  copy_log ;;
  finalize_cleanup ;;
  (* Installation finished successfully *)
  queue_event finished (Text (tr "Installation finished successfully.")) ;;
  set_self (set_running false) ;;
  set_self (set_error false) ;;
  ret true.

Definition run_installation : M bool :=
  prepare ;;
  all_ok <- attempt_stages ;;
  if negb all_ok
  then
    set_self (set_error true) ;;
    ret false
  else finish.

End Model.

(** ** Observations on a trace *)

(** The operation through which [queue_event] sends an event: on the queue
    when there is one, printed otherwise. *)
Definition emit_op (s : Installer) (k : kind) (p : payload) : op :=
  if callback_queue s then PutNowait k p else PrintEvent k p.

(** The event a step emits, whether the queue took it or not. *)
Definition event_of (x : step) : option (kind * payload) :=
  match x.1 with
  | PutNowait k p | PrintEvent k p => Some (k, p)
  | _ => None
  end.

Definition events (tr : list step) : list (kind * payload) := omap event_of tr.

(** The progress ratios of the [percent] events. *)
Definition ratio_of (x : step) : option Q :=
  match event_of x with
  | Some (percent, Ratio q) => Some q
  | _ => None
  end.

Definition percents (tr : list step) : list Q := omap ratio_of tr.

Definition is_error_event (e : kind * payload) : bool :=
  match e.1 with error_ev => true | _ => false end.

Definition error_events (tr : list step) : list (kind * payload) :=
  List.filter is_error_event (events tr).

(** What is logged or queued as a warning. *)
Definition is_warning (x : step) : bool :=
  match x.1 with
  | Logging LWarning _ => true
  | PutNowait warning _ | PrintEvent warning _ => true
  | _ => false
  end.

Definition warnings (tr : list step) : list step := List.filter is_warning tr.

(** The commands run through [check_call]. *)
Definition command_of (x : step) : option (list string) :=
  match x.1 with
  | CheckCall argv => Some argv
  | _ => None
  end.

Definition commands (tr : list step) : list (list string) := omap command_of tr.

(** The files copied with [shutil.copy]. *)
Definition copy_of (x : step) : option (string * string) :=
  match x.1 with
  | CopyFile src dst => Some (src, dst)
  | _ => None
  end.

Definition copies (tr : list step) : list (string * string) := omap copy_of tr.

(** The targets of the plain [umount target] commands. *)
Definition umount_target (x : step) : option string :=
  match x.1 with
  | CheckCall ["umount"; target] => Some target
  | _ => None
  end.

Definition umounts (tr : list step) : list string := omap umount_target tr.

(** The targets of the mounts of special directories: [mount -t type src dir]
    and [mount -o bind src dir]. *)
Definition special_mount_target (x : step) : option string :=
  match x.1 with
  | CheckCall [cmd; _; _; _; target] =>
      if String.eqb cmd "mount" then Some target else None
  | _ => None
  end.

Definition special_mounts (tr : list step) : list string := omap special_mount_target tr.

(** The count of files a progress line stands for, before the offset:
    [total - remaining]. *)
Definition processed_of (line : string) : option Z :=
  match Rsync.first_match line with
  | Some (_, m1, m2) => Some (PyStr.int m2 - PyStr.int m1)%Z
  | None => None
  end.

Definition processed (lines : list string) : list Z := omap processed_of lines.

(** The ratios a copy job reports for these counts. *)
Definition reported (total off : Z) (counts : list Z) : list Q :=
  (fun c => inject_Z c / inject_Z total)%Q <$>
    List.filter (fun c => (c mod 100 =? 0)%Z) ((fun c => (c + off)%Z) <$> counts).

(** The counts of a copy job that are due for a report: those of the
    progress lines, shifted by the offset of the job, that are multiples of
    100. *)
Definition due_counts (off : Z) (lines : list string) : list Z :=
  List.filter (fun c => (c mod 100 =? 0)%Z) ((fun c => (c + off)%Z) <$> processed lines).

(** The directories [chroot_mount_special_dirs] mounts, in order. *)
Definition mount_special_list (efi : bool) : list string :=
  ["sys"; "proc"; "dev"; "dev/pts"] ++ (if efi then ["sys/firmware/efi"] else []).

(** The commands [chroot_mount_special_dirs] runs, in order. *)
Definition mount_commands (dest : string) (efi : bool) : list (list string) :=
  [["mount"; "-t"; "sysfs"; "/sys"; path_join dest "sys"];
   ["chmod"; "555"; path_join dest "sys"];
   ["mount"; "-t"; "proc"; "/proc"; path_join dest "proc"];
   ["chmod"; "555"; path_join dest "proc"];
   ["mount"; "-o"; "bind"; "/dev"; path_join dest "dev"];
   ["mount"; "-t"; "devpts"; "/dev/pts"; path_join dest "dev/pts"];
   ["chmod"; "555"; path_join dest "dev/pts"]]
  ++ (if efi
      then [["mount"; "-o"; "bind"; "/sys/firmware/efi"; path_join dest "sys/firmware/efi"]]
      else []).

(** [settings.get('efi')] as a truth value. *)
Definition efi_of (s : Installer) : bool :=
  truthy (default PyNone (settings s !! "efi")).

(** [a] is a directory below [b]. *)
Definition nested_in (a b : string) : bool :=
  String.prefix (b +:+ "/") a.

(** In [l] every directory comes before the directories it is nested in. *)
Fixpoint nested_first (l : list string) : bool :=
  match l with
  | [] => true
  | d :: rest => forallb (fun later => negb (nested_in later d)) rest && nested_first rest
  end.

(** Every failure of [check_call] is a non-zero exit status. *)
Definition only_exit_status (world : World) : Prop :=
  forall tr argv e, world tr (CheckCall argv) = Raised e -> is_CalledProcessError e = true.

(** A computation only appends to the trace, and only steps whose operation
    the classifier [c] lets pass; it takes [self] to an installer that is
    related to it by [R]; and when it ends the process, the installer it
    leaves satisfies [X]. *)
Definition adds {A} (c : op -> bool) (R : relation Installer) (X : Installer -> Prop)
    (m : M A) : Prop :=
  forall st r st', m st = (r, st') ->
    R (self st) (self st') /\
    (exists new, trace st' = trace st ++ new /\ Forall (fun x => c x.1 = false) new) /\
    (forall code, r = Exit code -> X (self st')).

(** The process does not end. *)
Definition no_exit (s : Installer) : Prop := False.

(** The process ends stopped and in error. *)
Definition failed (s : Installer) : Prop := running s = false /\ error s = true.

(** Any two installers. *)
Definition any_self (s s' : Installer) : Prop := True.

Definition is_check_call (o : op) : bool :=
  match o with CheckCall _ => true | _ => false end.

Definition is_exit_status_failure (a : answer) : bool :=
  match a with
  | Raised e => is_CalledProcessError e
  | _ => false
  end.

(** The maps and the mode the fstab builder reads are the same. *)
Definition same_devices (s s' : Installer) : Prop :=
  fs_devices s' = fs_devices s /\ ssd s' = ssd s /\ method s' = method s /\
  mount_devices s' = mount_devices s.

(** Every operation passes. *)
Definition any_op (o : op) : bool := false.

(** The value a computation returned, [d] when it did not return. *)
Definition res_value {A} (d : A) (r : res A) : A :=
  match r with
  | Ret a => a
  | _ => d
  end.

(** The steps of the cleanup that reach the outside world: the look-up of
    a mount, and a plain unmount. *)
Inductive cleanup_item :=
| Probe (path : string)
| Unmount (path : string).

Definition cleanup_item_of (x : step) : option cleanup_item :=
  match x.1 with
  | MountInfo p => Some (Probe p)
  | CheckCall [cmd; p] => if String.eqb cmd "umount" then Some (Unmount p) else None
  | _ => None
  end.

Definition cleanup_sequence (tr : list step) : list cleanup_item :=
  omap cleanup_item_of tr.


(** The operations that queue or print an [error] event, and the mounts of
    special directories. *)
Definition is_error_or_special_mount (o : op) : bool :=
  match o with
  | PutNowait error_ev _ | PrintEvent error_ev _ => true
  | CheckCall [cmd; _; _; _; _] => String.eqb cmd "mount"
  | _ => false
  end.

(** The queue, the flag of the special directories and the two flags of
    the state of the run are the same. *)
Definition same_queue (s s' : Installer) : Prop :=
  callback_queue s' = callback_queue s /\
  special_dirs_mounted s' = special_dirs_mounted s /\
  running s' = running s /\
  error s' = error s.

(** A computation ends the process only through one fatal event, which
    needs a callback queue: then exactly one [error] event was emitted and
    the installer is stopped and in error.  With a callback queue, a
    computation that does not end the process has emitted no [error] event
    and has left the flags [running] and [error] as they were.  It mounts no
    special directory and leaves their flag and the queue alone. *)
Definition fatal_once {A} (m : M A) : Prop :=
  forall st r st',
    m st = (r, st') ->
    callback_queue (self st') = callback_queue (self st) /\
    special_dirs_mounted (self st') = special_dirs_mounted (self st) /\
    exists new,
      trace st' = trace st ++ new /\
      special_mounts new = [] /\
      match r with
      | Exit code =>
          code = 0%Z /\ callback_queue (self st) = true /\
          length (error_events new) = 1%nat /\ failed (self st')
      | _ =>
          callback_queue (self st) = true ->
          error_events new = [] /\
          running (self st') = running (self st) /\ error (self st') = error (self st)
      end.

(** An environment in which nothing fails: no operation raises, and the
    look-up of a partition yields a UUID. *)
Definition peaceful (world : World) : Prop :=
  (forall tr o e, world tr o <> Raised e) /\
  (forall tr p, exists u, world tr (GetInfoUUID p) = Str u).

(** A computation that returns from every state. *)
Definition returns {A} (m : M A) : Prop :=
  forall st, exists a st', m st = (Ret a, st').

(** The string starts with a decimal digit. *)
Definition starts_with_digit (s : string) : bool :=
  match s with
  | String ch _ => PyStr.is_digit ch
  | EmptyString => false
  end.

(** ** Example worlds *)

Definition sample_lines : list string :=
  ["sending incremental file list";
   "usr/bin/ls";
   "         12,345 100%   11.77MB/s    0:00:00 (xfr#1, ir-chk=900/1000)";
   "usr/bin/cat";
   "          2,345 100%    1.77MB/s    0:00:00 (xfr#2, ir-chk=850/1000)";
   "          2,345 100%    1.77MB/s    0:00:00 (xfr#3, ir-chk=800/1000)"].

(** A world where everything succeeds. *)
Definition calm_world : World :=
  fun _ o =>
    match o with
    | PathExists _ => Truth true
    | MountInfo _ => Truth true
    | ProcMounts _ => NoneVal
    | CountFiles _ => Str "1000"
    | RsyncLines => Lines sample_lines
    | GetInfoUUID p => Str ("uuid:" +:+ p)
    | Configuration _ key => Str key
    | Strftime => Str "20150101-120000"
    | Uname => Str "x86_64"
    | HashOrder => Truth true
    | Extern name _ =>
        if String.eqb name "auto_partition.AutoPartition.get_mount_devices"
        then Pairs [("/", "/dev/sda2"); ("/boot", "/dev/sda1"); ("swap", "/dev/sda3")]
        else if String.eqb name "auto_partition.AutoPartition.get_fs_devices"
        then Pairs [("/dev/sda2", "ext4"); ("/dev/sda1", "ext4"); ("/dev/sda3", "swap")]
        else Done
    | _ => Done
    end.

(** The installer as [__init__] leaves it, for given settings and maps. *)
Definition new_installer (queue : bool) (st : gmap string pyval) (mode : string)
    (md : list (string * string)) (fd : gmap string string) (ssd_keys : list string)
    : Installer :=
  mkInstaller queue st mode ssd_keys md fd true false false (PyStr "") "" "" "" "" "" "" "" "".

Definition fresh (s : Installer) : St := mkSt s [].

(** An installer with a callback queue and the three partitions of the
    scenarios. *)
Definition scenario_devices : list (string * string) :=
  [("/", "/dev/sda2"); ("/boot", "/dev/sda1"); ("swap", "/dev/sda3")].

Definition scenario_filesystems : gmap string string :=
  list_to_map [("/dev/sda2", "ext4"); ("/dev/sda1", "ext4"); ("/dev/sda3", "swap")].

Definition scenario_installer : Installer :=
  new_installer true ∅ "advanced" scenario_devices scenario_filesystems [].

(** A copy job with an expected total of 200 files that starts at 0. *)
Definition job_200 : FileCopyThread := mkThread 0 200 0.

(** The line of the scenario of C5, as rsync prints it. *)
Definition line_40_of_100 : string :=
  "  1,024 100% 1.00MB/s 0:00:00 (xfr#7, ir-chk=40/100)".

(** A world whose rsync reports counts that go backwards. *)
Definition backwards_world : World :=
  fun tr o =>
    match o with
    | RsyncLines => Lines ["(xfr#1, ir-chk=0/200)"; "(xfr#2, ir-chk=100/200)"]
    | _ => calm_world tr o
    end.

(** A world where every plain [umount] finds its target busy. *)
Definition busy_world : World :=
  fun tr o =>
    match o with
    | CheckCall ["umount"; d] => Raised (CalledProcessError ["umount"; d] "target is busy")
    | _ => calm_world tr o
    end.

(** A mount point whose device has no file system, next to the root. *)
Definition orphan_installer : Installer :=
  new_installer true ∅ "advanced"
    [("/", "/dev/sda2"); ("/data", "/dev/sdb1")]
    (list_to_map [("/dev/sda2", "ext4")]) [].

(** Home on LUKS, from the automatic installation, on a solid-state disk. *)
Definition luks_home_installer : Installer :=
  new_installer true
    (list_to_map [("use_luks", PyBool true); ("use_lvm", PyBool false)])
    "automatic"
    [("/home", "/dev/sda4")]
    (list_to_map [("/dev/sda4", "ext4")]) ["/dev/sda4"].

(** The partitions of the scenarios, with the disk /dev/sda as SSD key. *)
Definition ssd_disk_installer : Installer :=
  new_installer true ∅ "advanced" scenario_devices scenario_filesystems ["/dev/sda"].

(** The installer with the attribute [dest_dir] assigned by its owner:
    [__init__] leaves it empty and the module never assigns it. *)
Definition with_dest_dir (d : string) (s : Installer) : Installer :=
  mkInstaller (callback_queue s) (settings s) (method s) (ssd s) (mount_devices s)
    (fs_devices s) (running s) (error s) (special_dirs_mounted s) (auto_device s)
    (arch s) (kernel s) (vmlinuz s) (initramfs s) d (media s) (media_desktop s)
    (media_type s).

(** A live system on which nothing fails but what has to: every path that
    is not empty exists; the empty path does not exist and cannot be made. *)
Definition live_world : World :=
  fun tr o =>
    match o with
    | PathExists p => Truth (negb (String.eqb p ""))
    | Mkdir p | Makedirs p =>
        if String.eqb p "" then Raised (OtherException "FileNotFoundError") else Done
    | _ => calm_world tr o
    end.

(** A live system whose two images index to no file at all. *)
Definition zero_count_world : World :=
  fun tr o =>
    match o with
    | CountFiles _ => Str "0"
    | _ => live_world tr o
    end.

(** The installer of the scenarios with its target directory assigned. *)
Definition target_installer : Installer := with_dest_dir DEST_DIR scenario_installer.


(** A live system whose configuration names a base image that is not
    there. *)
Definition base_image : string := "/run/miso/bootmnt/manjaro/x86_64/root-image.sqfs".

Definition no_media_world : World :=
  fun tr o =>
    match o with
    | Configuration section key =>
        if String.eqb key "LIVE_MEDIA_SOURCE" then Str base_image else Str key
    | PathExists p => Truth (negb (String.eqb p "") && negb (String.eqb p base_image))
    | _ => live_world tr o
    end.

(** ** The helpers of the configuration stage

    The methods [configure_system] and the pipeline call on the way, and the
    entry point [run].  The callables of other modules are external calls:
    [time.sleep], [callback_queue.empty], [os.listdir], [crypt.crypt],
    [chroot.run] (through [chroot_run]), [readlines], and the [open] and
    [write] of a file that is written line by line. *)

(** [c.isspace()] for an ASCII character: tab, line feed, vertical tab, form
    feed, carriage return, the four separators 28 to 31, and the space. *)
Definition is_space (c : ascii) : bool :=
  let n := nat_of_ascii c in
  ((9 <=? n)%nat && (n <=? 13)%nat) || ((28 <=? n)%nat && (n <=? 32)%nat).

(** [s.split()]: the words of [s], separated by runs of white space;
    [word] is the word being read. *)
Fixpoint split_from (word s : string) : list string :=
  match s with
  | EmptyString => if String.eqb word "" then [] else [word]
  | String c rest =>
      if is_space c
      then (if String.eqb word "" then split_from "" rest
            else word :: split_from "" rest)
      else split_from (word +:+ String c EmptyString) rest
  end.

Definition split (s : string) : list string := split_from "" s.

(** The loop of [check_source_folder] over the lines of /proc/mounts:
    [line[1]] and [line[0]] of a line with fewer than two fields are index
    errors. *)
Fixpoint check_source_folder_lines (mount_point : string) (device : option string)
    (lines : list string) : res (option string) :=
  match lines with
  | [] => Ret device
  | line :: rest =>
      match split line with
      | f0 :: f1 :: _ =>
          check_source_folder_lines mount_point
            (if String.eqb f1 mount_point then Some f0 else device) rest
      | _ => Raise (OtherException "IndexError")
      end
  end.

(** The table of desktop environments. *)
Record DesktopEnvironment := mkDesktopEnvironment {
  executable : string;
  desktop_file : string
}.

Definition desktop_environments : list DesktopEnvironment :=
  [mkDesktopEnvironment "/usr/bin/startkde" "plasma";
   mkDesktopEnvironment "/usr/bin/startkde" "kde-plasma";
   mkDesktopEnvironment "/usr/bin/gnome-session" "gnome";
   mkDesktopEnvironment "/usr/bin/startxfce4" "xfce";
   mkDesktopEnvironment "/usr/bin/cinnamon-session" "cinnamon-session";
   mkDesktopEnvironment "/usr/bin/mate-session" "mate";
   mkDesktopEnvironment "/usr/bin/enlightenment_start" "enlightenment";
   mkDesktopEnvironment "/usr/bin/lxsession" "LXDE";
   mkDesktopEnvironment "/usr/bin/startlxde" "LXDE";
   mkDesktopEnvironment "/usr/bin/lxqt-session" "lxqt";
   mkDesktopEnvironment "/usr/bin/pekwm" "pekwm";
   mkDesktopEnvironment "/usr/bin/openbox-session" "openbox"].

(** The two files that make a desktop environment an installed one. *)
Definition executable_path (dest : string) (de : DesktopEnvironment) : string :=
  dest +:+ executable de.

Definition xsession_path (dest : string) (de : DesktopEnvironment) : string :=
  dest +:+ "/usr/share/xsessions/" +:+ desktop_file de +:+ ".desktop".

Section Helpers.

Variable world : World.

(** [self.is_running()] and [self.is_ok()]. *)
Definition is_running : M bool := s <- get_self ;; ret (running s).

Definition is_ok : M bool := s <- get_self ;; ret (negb (error s)).



(** [find_desktop_environment]: the loop over the table. *)
Fixpoint find_desktop_environment_in (dest : string) (table : list DesktopEnvironment)
    : M (option DesktopEnvironment) :=
  match table with
  | [] => ret None
  | desktop_environment :: rest =>
      e1 <- path_exists world (executable_path dest desktop_environment) ;;
      e2 <- (if e1 then path_exists world (xsession_path dest desktop_environment)
             else ret false) ;;
      if e1 && e2 then ret (Some desktop_environment)
      else find_desktop_environment_in dest rest
  end.

Definition find_desktop_environment : M (option DesktopEnvironment) :=
  s <- get_self ;;
  find_desktop_environment_in (dest_dir s) desktop_environments.


(** [with open(path) as f: text = f.readlines()]. *)
Definition readlines (path : string) : M (list string) :=
  a <- perform world (Extern "readlines" [path]) ;;
  match a with
  | Lines l => ret l
  | Raised e => raise e
  | _ => ret []
  end.

(** [open(path, "w")] and one [write] to the file it opened. *)
Definition open_w (path : string) : M unit := extern world "open" [path; "w"].

Definition write (path text : string) : M unit := extern world "write" [path; text].

(** [if locale in line and line[0] == "#": line = line[1:]]. *)
Definition uncomment (locale line : string) : M string :=
  if PyStr.contains locale line
  then
    match line with
    | EmptyString => raise (OtherException "IndexError")
    | String c rest => ret (if Ascii.eqb c "#" then rest else line)
    end
  else ret line.

(** [uncomment_locale_gen(locale)]. *)
Definition uncomment_locale_gen (locale : string) : M unit :=
  let path := path_join DEST_DIR "etc/locale.gen" in
  e <- path_exists world path ;;
  if e then
    text <- readlines path ;;
    open_w path ;;
    for_each text (fun line =>
      line <- uncomment locale line ;;
      write path line)
  else logging world LWarning (Text (tr "Can't find locale.gen file")).

(** The traceback of the exception being handled, as [run] logs it. *)
Definition format_exception : M string :=
  ask_text world (Extern "traceback.format_exception" []).

(** The first [except] clause of [run]. *)
Definition on_process_error (cmd : list string) (output : string) : M unit :=
  tb <- format_exception ;;
  logging world LError (Text (PyStr.pct (tr "Error running command %s") (repr_list cmd))) ;;
  logging world LError (Text (PyStr.pct (tr "Output: %s") output)) ;;
  logging world LError (Text tb) ;;
  queue_fatal_event world (Text output).

(** [run()]: calls [run_installation] and takes care of exceptions.  A
    CalledProcessError goes to the first [except] clause.  For every other
    exception the tuple of classes of the second clause is evaluated, and
    [pyalpm] is a name the module neither imports nor defines: the look-up
    raises NameError, which leaves [run]; the body of that clause is never
    entered. *)
Definition run : M unit :=
  try_except (run_installation world ;; ret tt) is_Exception
    (fun err =>
       match err with
       | CalledProcessError cmd output => on_process_error cmd output
       | _ => raise (OtherException "NameError")
       end).

End Helpers.

(** ** More observations *)

(** The external calls of a given name, with their arguments. *)
Definition call_of (name : string) (x : step) : option (list string) :=
  match x.1 with
  | Extern n args => if String.eqb n name then Some args else None
  | _ => None
  end.

Definition calls (name : string) (tr : list step) : list (list string) :=
  omap (call_of name) tr.

(** The log records. *)
Definition log_of (x : step) : option (level * payload) :=
  match x.1 with
  | Logging l msg => Some (l, msg)
  | _ => None
  end.

Definition logs (tr : list step) : list (level * payload) := omap log_of tr.

(** A file system that does not change: [os.path.exists] answers by [fs]. *)
Definition static_fs (world : World) (fs : string -> bool) : Prop :=
  forall tr p, world tr (PathExists p) = Truth (fs p).

(** ** Automatic login: [set_autologin] *)

(** [str(v)], as [%s] formats a setting. *)
Definition str_of (v : pyval) : string :=
  match v with
  | PyNone => "None"
  | PyBool true => "True"
  | PyBool false => "False"
  | PyStr s => s
  end.

(** The loop bodies of [set_autologin], one per display manager: the line
    that is written for a line that was read. *)
Definition daemon_line (username line : string) : string :=
  if PyStr.contains "[daemon]" line
  then "[daemon]" +:+ newline +:+ "AutomaticLogin=" +:+ username +:+ newline
       +:+ "AutomaticLoginEnable=True" +:+ newline
  else line.

Definition kdm_line (username line : string) : string :=
  let line := if PyStr.contains "#AutoLoginEnable=true" line
              then "AutoLoginEnable=true" +:+ newline else line in
  if PyStr.contains "AutoLoginUser=" line
  then "AutoLoginUser=" +:+ username +:+ newline else line.

Definition lxdm_line (username line : string) : string :=
  if PyStr.contains "# autologin=dgod" line
  then "autologin=" +:+ username +:+ newline else line.

Definition lightdm_line (username line : string) : string :=
  if PyStr.contains "#autologin-user=" line
  then "autologin-user=" +:+ username +:+ newline else line.

Definition slim_line (username line : string) : string :=
  let line := if PyStr.contains "auto_login" line
              then "auto_login yes" +:+ newline else line in
  if PyStr.contains "default_user" line
  then "default_user " +:+ username +:+ newline else line.

(** The text after the white space at its head: what a leading [\s] star
    leaves. *)
Fixpoint skip_spaces (s : string) : string :=
  match s with
  | String c rest => if is_space c then skip_spaces rest else s
  | EmptyString => s
  end.

(** The first [re.match] of the SDDM loop: white space, then optionally [#]
    and white space, then [User=], at the head of the line. *)
Definition matches_user (line : string) : bool :=
  let s := skip_spaces line in
  let s := match s with
           | String c rest => if Ascii.eqb c "#" then skip_spaces rest else s
           | EmptyString => s
           end in
  bool_decide (is_Some (PyStr.strip_prefix "User=" s)).

(** The second [re.match] of the SDDM loop: at the head of the line, white
    space, [#], white space and [Session=]; or white space and [Session=] at
    the end of the line, which is the end of the text or the line feed that
    ends it. *)
Definition matches_session (line : string) : bool :=
  let s := skip_spaces line in
  let commented :=
    match s with
    | String c rest =>
        Ascii.eqb c "#"
        && bool_decide (is_Some (PyStr.strip_prefix "Session=" (skip_spaces rest)))
    | EmptyString => false
    end in
  let empty :=
    match PyStr.strip_prefix "Session=" s with
    | Some rest => String.eqb rest "" || String.eqb rest newline
    | None => false
    end in
  commented || empty.

Section Autologin.

Variable world : World.

(** Read the lines of a file, and write them back through [body]. *)
Definition rewrite_lines (path : string) (body : string -> M string) : M unit :=
  text <- readlines world path ;;
  open_w world path ;;
  for_each text (fun line =>
    line <- body line ;;
    write world path line).

(** The configuration of MDM and GDM: the section [[daemon]] is rewritten,
    or the file is made. *)
Definition daemon_conf (path username : string) : M unit :=
  e <- path_exists world path ;;
  if e then rewrite_lines path (fun line => ret (daemon_line username line))
  else
    open_w world path ;;
    write world path ("# Thus - Enable automatic login for user" +:+ newline) ;;
    write world path ("[daemon]" +:+ newline) ;;
    write world path ("AutomaticLogin=" +:+ username +:+ newline) ;;
    write world path ("AutomaticLoginEnable=True" +:+ newline).

(** The loop body for SDDM. *)
Definition sddm_line (username line : string) : M string :=
  let line := if matches_user line then "User=" +:+ username +:+ newline else line in
  if matches_session line
  then
    default_desktop_environment <- find_desktop_environment world ;;
    match default_desktop_environment with
    | Some de => ret ("Session=" +:+ desktop_file de +:+ ".desktop" +:+ newline)
    | None => ret line
    end
  else ret line.

(** [set_autologin()]; [desktop_manager] is the attribute of that name. *)
Definition set_autologin (desktop_manager : string) : M unit :=
  username <- settings_get "username" ;;
  let username := str_of username in
  queue_event world info
    (Text (desktop_manager +:+ ": Enable automatic login for user " +:+ username +:+ ".")) ;;
  s <- get_self ;;
  if String.eqb desktop_manager "mdm" then
    daemon_conf (path_join (dest_dir s) "etc/mdm/custom.conf") username
  else if String.eqb desktop_manager "gdm" then
    daemon_conf (path_join (dest_dir s) "etc/gdm/custom.conf") username
  else if String.eqb desktop_manager "kdm" then
    rewrite_lines (path_join (dest_dir s) "usr/share/config/kdm/kdmrc")
      (fun line => ret (kdm_line username line))
  else if String.eqb desktop_manager "lxdm" then
    rewrite_lines (path_join (dest_dir s) "etc/lxdm/lxdm.conf")
      (fun line => ret (lxdm_line username line))
  else if String.eqb desktop_manager "lightdm" then
    rewrite_lines (path_join (dest_dir s) "etc/lightdm/lightdm.conf")
      (fun line => ret (lightdm_line username line))
  else if String.eqb desktop_manager "slim" then
    rewrite_lines (path_join (dest_dir s) "etc/slim.conf")
      (fun line => ret (slim_line username line))
  else if String.eqb desktop_manager "sddm" then
    let sddm_conf_path := path_join (dest_dir s) "etc/sddm.conf" in
    isfile <- ask world (Extern "os.path.isfile" [sddm_conf_path]) ;;
    (if isfile then queue_event world info (Text "SDDM config file exists")
     else chroot_run world ["sh"; "-c"; "sddm --example-config > /etc/sddm.conf"]) ;;
    rewrite_lines sddm_conf_path (sddm_line username)
  else ret tt.

End Autologin.

(** The line a display manager's configuration gets for a line it had;
    [None] for the display managers that are not rewritten line by line
    through a function of the line alone. *)
Definition autologin_line (desktop_manager : string)
    : option (string -> string -> string) :=
  if String.eqb desktop_manager "kdm" then Some kdm_line
  else if String.eqb desktop_manager "lxdm" then Some lxdm_line
  else if String.eqb desktop_manager "lightdm" then Some lightdm_line
  else if String.eqb desktop_manager "slim" then Some slim_line
  else None.

(** The file of such a display manager, in the target. *)
Definition autologin_conf (desktop_manager : string) : string :=
  if String.eqb desktop_manager "kdm" then "usr/share/config/kdm/kdmrc"
  else if String.eqb desktop_manager "lxdm" then "etc/lxdm/lxdm.conf"
  else if String.eqb desktop_manager "lightdm" then "etc/lightdm/lightdm.conf"
  else "etc/slim.conf".

(** A slim.conf of three lines, a world that reads it, and an installer
    whose settings name the user. *)
Definition sample_slim_conf : list string :=
  ["#default_user        simone" +:+ newline;
   "#auto_login          no" +:+ newline;
   "login_cmd           exec /bin/bash -login /etc/X11/Xsession %session" +:+ newline].

Definition slim_world : World :=
  fun tr o =>
    match o with
    | Extern "readlines" _ => Lines sample_slim_conf
    | _ => calm_world tr o
    end.

Definition maria_installer : Installer :=
  new_installer true {[ "username" := PyStr "maria" ]} "advanced" [] ∅ [].

(** How an operation ends: it adds its step, and raises what the world
    raised. *)
Definition one_step {A} (world : World) (o : op) (st : St) (r : res A) (st' : St) : Prop :=
  st' = mkSt (self st) (trace st ++ [(o, world (trace st) o)]) /\
  match r with
  | Ret _ => True
  | Raise e => world (trace st) o = Raised e
  | Exit _ => False
  end.

(** A line of /proc/mounts has its two first fields. *)
Definition has_two_fields (line : string) : bool :=
  match split line with
  | _ :: _ :: _ => true
  | _ => false
  end.

(** The device of a line that mounts something at [mount_point]. *)
Definition device_at (mount_point line : string) : option string :=
  match split line with
  | f0 :: f1 :: _ => if String.eqb f1 mount_point then Some f0 else None
  | _ => None
  end.

Definition sample_mounts : list string :=
  ["proc /proc proc rw,nosuid,nodev,noexec,relatime 0 0";
   "/dev/loop0 /source squashfs ro,relatime 0 0";
   "tmpfs /tmp tmpfs rw 0 0";
   "/dev/loop2 /source squashfs ro,relatime 0 0"].

(** A desktop environment is installed in [dest]: its executable and its
    session file are there. *)
Definition installed (fs : string -> bool) (dest : string) (de : DesktopEnvironment) : bool :=
  fs (executable_path dest de) && fs (xsession_path dest de).

Definition is_probe (x : step) : bool :=
  match x.1 with
  | PathExists _ => true
  | _ => false
  end.

(** A world over a file system that does not change. *)
Definition fs_world (fs : string -> bool) : World :=
  fun tr o =>
    match o with
    | PathExists p => Truth (fs p)
    | _ => calm_world tr o
    end.

(** A target with Xfce and LXDE. *)
Definition xfce_and_lxde (p : string) : bool :=
  bool_decide (p ∈ ["/usr/bin/startxfce4"; "/usr/share/xsessions/xfce.desktop";
                    "/usr/bin/startlxde"; "/usr/share/xsessions/LXDE.desktop";
                    "/usr/bin/startkde"]).

(** What [enable_services] runs and logs for a service, given whether its
    unit file is there. *)
Definition enable_command (name : string) : list string :=
  [DEST_DIR; "systemctl"; "-f"; "enable"; name].

Definition service_record (fs : string -> bool) (name : string) : level * payload :=
  if fs (service_path name)
  then (LDebug, Text ("Enabled " +:+ name +:+ " service."))
  else (LWarning, Text ("Can't find service " +:+ name)).

(** A target with the unit files of NetworkManager and ntpd. *)
Definition two_units (p : string) : bool :=
  bool_decide (p ∈ ["/install/usr/lib/systemd/system/NetworkManager.service";
                    "/install/usr/lib/systemd/system/ntpd.service"]).



(** The connections [copy_network_config] copies: all but LTSP and those
    the target already has. *)
Definition to_copy (fs : string -> bool) (network : string) : bool :=
  negb (String.eqb network "LTSP") && negb (fs (path_join target_nm network)).

Definition network_copy (network : string) : string * string :=
  (path_join source_nm network, path_join target_nm network).

Definition network_copies (fs : string -> bool) (networks : list string)
    : list (string * string) :=
  if fs source_nm && fs target_nm
  then map network_copy (List.filter (to_copy fs) networks)
  else [].

(** The copy of a file fails only because the file is not there, or
    because the target is. *)
Definition copy_fails_softly (world : World) : Prop :=
  forall tr src dst e,
    world tr (CopyFile src dst) = Raised e ->
    is_class "FileNotFoundError" e || is_class "FileExistsError" e = true.

(** A live system with three connections, one of which the target has. *)
Definition three_networks : World :=
  fun tr o =>
    match o with
    | PathExists p =>
        Truth (negb (String.eqb p "/install/etc/NetworkManager/system-connections/home"))
    | Extern "os.listdir" _ => Lines ["home"; "LTSP"; "office"]
    | _ => calm_world tr o
    end.

Definition locale_gen : string := path_join DEST_DIR "etc/locale.gen".

(** A line of locale.gen after [uncomment_locale_gen]: a line that starts
    with [#] and mentions the locale loses its first character. *)
Definition uncommented (locale line : string) : string :=
  match line with
  | String "#" rest => if PyStr.contains locale line then rest else line
  | _ => line
  end.

(** The texts written to a file, in order. *)
Definition written (path : string) (tr : list step) : list string :=
  omap (fun args => match args with [p; text] => if String.eqb p path then Some text else None
                                  | _ => None end)
       (calls "write" tr).

(** The operation raises nothing. *)
Definition never_raises (world : World) (name : string) : Prop :=
  forall tr args e, world tr (Extern name args) <> Raised e.

(** A locale.gen of four lines. *)
Definition sample_locale_gen : list string :=
  ["# Configuration file for locale-gen" +:+ newline;
   "#de_DE.UTF-8 UTF-8" +:+ newline;
   "#en_US.UTF-8 UTF-8" +:+ newline;
   "#en_US ISO-8859-1" +:+ newline].

Definition locale_world : World :=
  fun tr o =>
    match o with
    | Extern "readlines" _ => Lines sample_locale_gen
    | _ => calm_world tr o
    end.

(** A live system on which the root partition cannot be mounted. *)
Definition no_root_mount_world : World :=
  fun tr o =>
    match o with
    | CheckCall ["mount"; "/dev/sda2"; "/install"] =>
        Raised (CalledProcessError ["mount"; "/dev/sda2"; "/install"] "wrong fs type")
    | _ => live_world tr o
    end.

(** The command the advanced mode runs for a mount point, after root and
    boot: the mount of a partition that is none of root, boot and swap, and
    the activation of the swap partition. *)
Definition mount_plan (root_partition boot_partition swap_partition : string)
    (item : string * string) : option (list string) :=
  if String.eqb item.1 "" then None
  else if bool_decide (item.2 ∈ [root_partition; boot_partition; swap_partition])
  then (if String.eqb item.2 swap_partition then Some ["swapon"; swap_partition] else None)
  else Some ["mount"; item.2; path_join DEST_DIR item.1].

(** Only commands fail with an exit status. *)
Definition exit_status_of_commands (world : World) : Prop :=
  forall tr o e,
    world tr o = Raised e -> is_CalledProcessError e = true -> is_check_call o = true.

(** Nothing but commands fails, and commands fail with an exit status. *)
Definition only_commands_fail (world : World) : Prop :=
  forall tr o e,
    world tr o = Raised e -> is_CalledProcessError e = true /\ is_check_call o = true.

(** A world where the partition /dev/sdb1 cannot be mounted. *)
Definition bad_disk_world : World :=
  fun tr o =>
    match o with
    | CheckCall ("mount" :: "/dev/sdb1" :: _) =>
        Raised (CalledProcessError ["mount"; "/dev/sdb1"] "can't read superblock")
    | _ => calm_world tr o
    end.

Definition five_partitions : list (string * string) :=
  [("/", "/dev/sda2"); ("/boot", "/dev/sda1"); ("swap", "/dev/sda3");
   ("/data", "/dev/sdb1"); ("/home", "/dev/sda4")].

(** A computation that runs no command and does not end the process;
    what it raises, an operation other than a command has raised. *)
Definition runs_no_command (world : World) {A} (m : M A) : Prop :=
  forall st r st', m st = (r, st') ->
    self st' = self st /\
    (exists new, trace st' = trace st ++ new /\ commands new = []) /\
    match r with
    | Ret _ => True
    | Raise e => exists tr o, world tr o = Raised e /\ is_check_call o = false
    | Exit _ => False
    end.

(** The commands, and the operations that emit an event. *)
Definition is_command_or_event (o : op) : bool :=
  match o with
  | CheckCall _ | PutNowait _ _ | PrintEvent _ _ => true
  | _ => false
  end.

(** The mode mounts the partitions of the user itself. *)
Definition mounts_target (mode : string) : bool :=
  String.eqb mode "alongside" || String.eqb mode "advanced".

(** An installer of the advanced mode whose partitions have no root. *)
Definition rootless_installer : Installer :=
  new_installer true ∅ "advanced" [("/home", "/dev/sda4")]
    (list_to_map [("/dev/sda4", "ext4")]) [].

(** The lines a copy job reads: what the world answers for the output of
    rsync. *)
Definition lines_of (a : answer) : list string :=
  match a with
  | Lines l => l
  | _ => []
  end.

(** The count a copy job ends on: that of the last progress line, shifted
    by the offset of the job, and [n] when no line reported progress. *)
Definition final_count (n off : Z) (counts : list Z) : Z :=
  match last counts with
  | Some c => (c + off)%Z
  | None => n
  end.

(** The operations that run a command or start a copy. *)
Definition is_command_or_copy (o : op) : bool :=
  match o with
  | CheckCall _ | RsyncStart _ => true
  | _ => false
  end.

(** The copies started. *)
Definition copy_started (x : step) : option (list string) :=
  match x.1 with
  | RsyncStart argv => Some argv
  | _ => None
  end.

Definition copies_started (tr : list step) : list (list string) := omap copy_started tr.

(** With a callback queue: the computation does not return, and runs no
    command and starts no copy; when it ends the process, it does so with
    code 0. *)
Definition aborts {A} (m : M A) (st : St) : Prop :=
  callback_queue (self st) = true ->
  exists r st' new,
    m st = (r, st') /\
    callback_queue (self st') = true /\
    trace st' = trace st ++ new /\
    Forall (fun x : step => is_command_or_copy x.1 = false) new /\
    match r with
    | Ret _ => False
    | Raise _ => True
    | Exit c => c = 0%Z
    end.

Definition crypttab : string := path_join DEST_DIR "etc/crypttab".

(** What is done to /install/etc/crypttab: a change of mode, or a line
    appended. *)
Inductive crypttab_op :=
| Mode (mode : string)
| Append (line : string).

Definition crypttab_op_of (x : step) : option crypttab_op :=
  match x.1 with
  | Chmod path mode => if String.eqb path crypttab then Some (Mode mode) else None
  | AppendFile path line => if String.eqb path crypttab then Some (Append line) else None
  | _ => None
  end.

Definition crypttab_ops (tr : list step) : list crypttab_op := omap crypttab_op_of tr.

Definition is_crypttab_op (o : op) : bool :=
  match o with
  | Chmod _ _ | AppendFile _ _ => true
  | _ => false
  end.

(** A line is appended while the file is writable by all, and the file is
    closed to all but its owner again. *)
Definition guarded_append (line : string) : list crypttab_op :=
  [Mode "0o666"; Append line; Mode "0o600"].

(** The entries written through a LUKS mapping: home of the automatic
    installation, and the mapped partitions of the advanced one, when their
    device has a file system that is no swap. *)
Definition is_luks_entry (s : Installer) (item : string * string) : bool :=
  match fs_devices s !! item.2 with
  | Some myfmt =>
      negb (PyStr.contains "swap" myfmt)
      && (home_on_luks s (default PyNone (settings s !! "use_luks"))
            (default PyNone (settings s !! "use_lvm")) item.1
          || advanced_luks s (default PyNone (settings s !! "use_luks")) item.1 item.2)
  | None => false
  end.

(** An advanced installation with two LUKS volumes next to the root. *)
Definition luks_volumes_installer : Installer :=
  new_installer true (list_to_map [("use_luks", PyBool true)]) "advanced"
    [("/", "/dev/sda2"); ("/home", "/dev/mapper/home"); ("/srv", "/dev/mapper/srv")]
    (list_to_map [("/dev/sda2", "ext4"); ("/dev/mapper/home", "ext4");
                  ("/dev/mapper/srv", "xfs")]) [].

(** The setting [ruuid] is the same. *)
Definition same_ruuid (s s' : Installer) : Prop :=
  settings s' !! "ruuid" = settings s !! "ruuid".

(** What the pipeline never assigns: the queue, the mode, the SSD keys,
    the target directory of the object and the flag of the special
    directories. *)
Definition same_setup (s s' : Installer) : Prop :=
  callback_queue s' = callback_queue s /\ method s' = method s /\ ssd s' = ssd s /\
  dest_dir s' = dest_dir s /\ special_dirs_mounted s' = special_dirs_mounted s.

(** The outputs of rsync that were read, and the counts of files of the
    images. *)
Definition output_of_step (x : step) : option (list string) :=
  match x.1 with
  | RsyncLines => Some (lines_of x.2)
  | _ => None
  end.

Definition outputs (tr : list step) : list (list string) := omap output_of_step tr.

Definition count_of_step (x : step) : option string :=
  match x with
  | (CountFiles _, Str s) => Some s
  | _ => None
  end.

Definition counted (tr : list step) : list string := omap count_of_step tr.

Definition is_progress_op (o : op) : bool :=
  match o with
  | PutNowait percent _ | PrintEvent percent _ | RsyncLines | CountFiles _ => true
  | _ => false
  end.

(** What a copy job reports: nothing when the expected total is zero (the
    first report that is due ends the thread). *)
Definition job_report (total off : Z) (lines : list string) : list Q :=
  if (total =? 0)%Z then [] else reported total off (processed lines).

(** The reports of the two copy jobs of [install_system]: the second job
    starts where the first one ended. *)
Definition two_jobs_report (total : Z) (lines1 lines2 : list string) : list Q :=
  job_report total 0 lines1
  ++ job_report total (final_count 0 0 (processed lines1)) lines2.

(** What a part of a run adds to the trace, as seen through the three
    observations. *)
Definition seg (st st' : St) (ps : list Q) (os : list (list string)) (ks : list string)
    : Prop :=
  exists new,
    trace st' = trace st ++ new /\ percents new = ps /\ outputs new = os /\ counted new = ks.

(** ** Properties *)

Example first_match_sample :
  Rsync.first_match "      1,024 100%  1.00MB/s  0:00:00 (xfr#12, ir-chk=1040/2000)"
  = Some ("12", "1040", "2000").
Proof. reflexivity. Qed.

Example first_match_none : Rsync.first_match "usr/bin/ls" = None.
Proof. reflexivity. Qed.

Section Basics.

Variable world : World.

Lemma bind_Ret {A B} (m : M A) (f : A -> M B) st a st1 :
  m st = (Ret a, st1) -> bind m f st = f a st1.
Proof. intros H. unfold bind. now rewrite H. Qed.

Lemma bind_Raise {A B} (m : M A) (f : A -> M B) st e st1 :
  m st = (Raise e, st1) -> bind m f st = (Raise e, st1).
Proof. intros H. unfold bind. now rewrite H. Qed.


(** A computation that returned came through both halves of a [bind]. *)
Lemma bind_inv_Ret {A B} (m : M A) (f : A -> M B) st b st' :
  bind m f st = (Ret b, st') ->
  exists a st1, m st = (Ret a, st1) /\ f a st1 = (Ret b, st').
Proof.
  unfold bind. destruct (m st) as [[a|e|c] st1]; intros H; try discriminate.
  now exists a, st1.
Qed.

Lemma events_app tr1 tr2 : events (tr1 ++ tr2) = events tr1 ++ events tr2.
Proof. apply omap_app. Qed.

Lemma percents_app tr1 tr2 : percents (tr1 ++ tr2) = percents tr1 ++ percents tr2.
Proof. apply omap_app. Qed.

Lemma event_of_emit s k p a : event_of (emit_op s k p, a) = Some (k, p).
Proof. unfold emit_op, event_of. now destruct (callback_queue s). Qed.

(** [queue_event] always returns, leaves [self] alone, and adds one step. *)
Lemma queue_event_eq k p st :
  queue_event world k p st =
  (Ret tt, mkSt (self st)
             (trace st ++ [(emit_op (self st) k p,
                            world (trace st) (emit_op (self st) k p))])).
Proof.
  unfold queue_event, emit_op, bind, get_self, perform, ret.
  now destruct (callback_queue (self st)).
Qed.

Lemma call_Ret o st u st' :
  call world o st = (Ret u, st') ->
  exists a, st' = mkSt (self st) (trace st ++ [(o, a)]).
Proof.
  cbv [call perform bind ret raise].
  destruct (world (trace st) o) eqn:E; intros [= _ <-]; eauto.
Qed.

Lemma logging_eq l msg st :
  logging world l msg st =
  (Ret tt, mkSt (self st)
             (trace st ++ [(Logging l msg, world (trace st) (Logging l msg))])).
Proof. reflexivity. Qed.

End Basics.

(** ** The progress line of rsync *)

Section ProgressLine.

Lemma append_cons ch (a b : string) : String ch a +:+ b = String ch (a +:+ b).
Proof. reflexivity. Qed.

Lemma append_nil (b : string) : "" +:+ b = b.
Proof. reflexivity. Qed.

Lemma strip_prefix_app lit s : PyStr.strip_prefix lit (lit +:+ s) = Some s.
Proof.
  induction lit as [|ch lit IH].
  - rewrite append_nil. now destruct s.
  - rewrite append_cons. cbn [PyStr.strip_prefix]. now rewrite Ascii.eqb_refl.
Qed.

Lemma span_digits_app d rest :
  all_digits d = true ->
  starts_with_digit rest = false ->
  PyStr.span_digits (d +:+ rest) = (d, rest).
Proof.
  unfold all_digits. induction d as [|ch d IH]; intros Hd Hr.
  - rewrite append_nil. destruct rest as [|ch rest]; [reflexivity|].
    cbn in Hr. cbn [PyStr.span_digits]. now rewrite Hr.
  - cbn [list_ascii_of_string forallb] in Hd.
    apply andb_prop in Hd. destruct Hd as [Hc Hd].
    rewrite append_cons. cbn [PyStr.span_digits].
    rewrite Hc, (IH Hd Hr). reflexivity.
Qed.

Lemma digits1_app d rest :
  d <> "" ->
  all_digits d = true ->
  starts_with_digit rest = false ->
  PyStr.digits1 (d +:+ rest) = Some (d, rest).
Proof.
  intros Hn Hd Hr. unfold PyStr.digits1. rewrite (span_digits_app d rest Hd Hr).
  now destruct d.
Qed.

(** The pattern matches the progress report of rsync, and its groups are
    the three numbers. *)
Lemma first_match_progress_report xfr remaining total rest :
  xfr <> "" -> remaining <> "" -> total <> "" ->
  all_digits xfr = true -> all_digits remaining = true -> all_digits total = true ->
  starts_with_digit rest = false ->
  Rsync.first_match
    ("xfr#" +:+ xfr +:+ ", ir-chk=" +:+ remaining +:+ "/" +:+ total +:+ rest)
  = Some (xfr, remaining, total).
Proof.
  intros N1 N2 N3 D1 D2 D3 Hr.
  assert (H : Rsync.match_here
                ("xfr#" +:+ xfr +:+ ", ir-chk=" +:+ remaining +:+ "/" +:+ total +:+ rest)
              = Some (xfr, remaining, total)).
  { unfold Rsync.match_here.
    rewrite strip_prefix_app.
    rewrite digits1_app by (assumption || reflexivity).
    rewrite strip_prefix_app.
    rewrite digits1_app by (assumption || reflexivity).
    rewrite strip_prefix_app.
    now rewrite digits1_app by assumption. }
  rewrite !append_cons in *. cbn [Rsync.first_match]. now rewrite H.
Qed.

End ProgressLine.

Section CopyProgress.

Variable world : World.

(** What [run_line] does with a line that carries a pair, when the count is
    a multiple of 100. *)
Lemma run_line_multiple t n line x m1 m2 st :
  Rsync.first_match line = Some (x, m1, m2) ->
  total_files t <> 0%Z ->
  ((PyStr.int m2 - PyStr.int m1 + offset t) mod 100 = 0)%Z ->
  let copied := (PyStr.int m2 - PyStr.int m1 + offset t)%Z in
  let ev := emit_op (self st) percent (Ratio (inject_Z copied / inject_Z (total_files t))) in
  run_line world t n line st =
  (Ret copied, mkSt (self st) (trace st ++ [(ev, world (trace st) ev)])).
Proof.
  intros Hm Ht Hc. unfold run_line. rewrite Hm. cbv zeta.
  apply Z.eqb_eq in Hc. rewrite Hc.
  unfold update_progress. apply Z.eqb_neq in Ht. rewrite Ht.
  unfold bind at 1. now rewrite queue_event_eq.
Qed.

(** ... and when it is not. *)
Lemma run_line_between t n line x m1 m2 st :
  Rsync.first_match line = Some (x, m1, m2) ->
  ((PyStr.int m2 - PyStr.int m1 + offset t) mod 100 <> 0)%Z ->
  run_line world t n line st =
  (Ret (PyStr.int m2 - PyStr.int m1 + offset t)%Z, st).
Proof.
  intros Hm Hc. unfold run_line. rewrite Hm. cbv zeta.
  apply Z.eqb_neq in Hc. now rewrite Hc.
Qed.

Lemma run_line_other t n line st :
  Rsync.first_match line = None -> run_line world t n line st = (Ret n, st).
Proof. intros Hm. unfold run_line. now rewrite Hm. Qed.

End CopyProgress.

Section CopyJob.

Variable world : World.

Lemma processed_cons_Some line lines x m1 m2 :
  Rsync.first_match line = Some (x, m1, m2) ->
  processed (line :: lines) = (PyStr.int m2 - PyStr.int m1)%Z :: processed lines.
Proof. intros H. unfold processed. cbn. unfold processed_of. now rewrite H. Qed.

Lemma processed_cons_None line lines :
  Rsync.first_match line = None -> processed (line :: lines) = processed lines.
Proof. intros H. unfold processed. cbn. unfold processed_of. now rewrite H. Qed.

Lemma reported_cons total off c counts :
  reported total off (c :: counts) =
  if ((c + off) mod 100 =? 0)%Z
  then (inject_Z (c + off) / inject_Z total)%Q :: reported total off counts
  else reported total off counts.
Proof. unfold reported. cbn. now destruct ((c + off) mod 100 =? 0)%Z. Qed.

Lemma percents_emit s (q : Q) a : percents [(emit_op s percent (Ratio q), a)] = [q].
Proof. unfold percents, emit_op. now destruct (callback_queue s). Qed.

(** With an expected total that is not zero the loop of [run] reads all the
    lines, and reports the counts that are multiples of 100, in order. *)
Lemma run_lines_reports t lines : forall n st,
  total_files t <> 0%Z ->
  exists n' new,
    run_lines world t n lines st = (Ret n', mkSt (self st) (trace st ++ new)) /\
    percents new = reported (total_files t) (offset t) (processed lines).
Proof.
  induction lines as [|line lines IH]; intros n st Ht.
  - exists n, []. rewrite app_nil_r. now destruct st.
  - cbn [run_lines]. destruct (Rsync.first_match line) as [[[x m1] m2]|] eqn:Hm.
    + rewrite (processed_cons_Some _ _ _ _ _ Hm), reported_cons.
      destruct ((PyStr.int m2 - PyStr.int m1 + offset t) mod 100 =? 0)%Z eqn:Hc.
      * apply Z.eqb_eq in Hc.
        erewrite bind_Ret by (eapply run_line_multiple; eauto).
        edestruct IH as (n' & new & Hrun & Hper); [exact Ht|].
        rewrite Hrun. cbn [self trace].
        eexists n', (_ :: new). rewrite <- app_assoc. split; [reflexivity|].
        change (?x :: new) with ([x] ++ new).
        now rewrite percents_app, percents_emit, Hper.
      * apply Z.eqb_neq in Hc.
        erewrite bind_Ret by (eapply run_line_between; eauto).
        apply IH, Ht.
    + rewrite (processed_cons_None _ _ Hm).
      erewrite bind_Ret by (now apply run_line_other).
      apply IH, Ht.
Qed.

(** With an expected total of zero the first count that is due raises, and
    nothing is ever reported. *)
Lemma run_line_zero t n line st :
  total_files t = 0%Z ->
  exists r, run_line world t n line st = (r, st).
Proof.
  intros Ht. unfold run_line.
  destruct (Rsync.first_match line) as [[[x m1] m2]|]; [|now eexists].
  cbv zeta.
  destruct ((PyStr.int m2 - PyStr.int m1 + offset t) mod 100 =? 0)%Z.
  - unfold update_progress. rewrite Ht. cbn. now eexists.
  - cbn. now eexists.
Qed.

Lemma run_lines_zero t lines : forall n st,
  total_files t = 0%Z ->
  exists r, run_lines world t n lines st = (r, st).
Proof.
  induction lines as [|line lines IH]; intros n st Ht.
  - now exists (Ret n).
  - cbn [run_lines]. destruct (run_line_zero t n line st Ht) as [r Hr].
    unfold bind. rewrite Hr. destruct r as [n1|e|c]; [apply IH, Ht| |]; now eexists.
Qed.

Lemma Qdiv_le_compat_r (a b c : Z) :
  (0 < c)%Z -> (a <= b)%Z -> (inject_Z a / inject_Z c <= inject_Z b / inject_Z c)%Q.
Proof.
  intros Hc Hab. unfold Qdiv. apply Qmult_le_compat_r.
  - now rewrite <- Zle_Qle.
  - apply Qinv_le_0_compat. change 0%Q with (inject_Z 0). rewrite <- Zle_Qle. lia.
Qed.

Lemma StronglySorted_filter {A} (R : A -> A -> Prop) (f : A -> bool) l :
  StronglySorted R l -> StronglySorted R (List.filter f l).
Proof.
  induction 1 as [|x l Hs IH Hx]; cbn; [constructor|].
  destruct (f x); [|exact IH].
  constructor; [exact IH|].
  rewrite List.Forall_forall in *. intros y Hy.
  apply List.filter_In in Hy. now apply Hx.
Qed.

(** Counts that never decrease are reported as ratios that never decrease. *)
Lemma reported_sorted total off counts :
  (0 < total)%Z ->
  StronglySorted Z.le counts ->
  StronglySorted Qle (reported total off counts).
Proof.
  intros Ht Hs. unfold reported.
  apply StronglySorted_fmap with (R1 := Z.le).
  - intros x y. now apply Qdiv_le_compat_r.
  - apply StronglySorted_filter.
    apply StronglySorted_fmap with (R1 := Z.le); [|exact Hs].
    intros x y. lia.
Qed.

Lemma stdout_lines_eq st lines :
  world (trace st) RsyncLines = Lines lines ->
  stdout_lines world st =
  (Ret lines, mkSt (self st) (trace st ++ [(RsyncLines, Lines lines)])).
Proof. intros Hw. unfold stdout_lines, bind, perform. now rewrite Hw. Qed.

(** The ratios one copy job reports. *)
Lemma copy_job_reports t st lines :
  world (trace st) RsyncLines = Lines lines ->
  (0 <= total_files t)%Z ->
  StronglySorted Z.le (processed lines) ->
  exists qs,
    percents (trace (FileCopyThread_run world t st).2) = percents (trace st) ++ qs /\
    StronglySorted Qle qs.
Proof.
  intros Hw Ht Hs. unfold FileCopyThread_run.
  rewrite (bind_Ret _ _ _ _ _ (stdout_lines_eq st lines Hw)).
  set (st1 := mkSt (self st) (trace st ++ [(RsyncLines, Lines lines)])).
  assert (Hp : percents (trace st1) = percents (trace st)).
  { unfold st1. cbn [trace]. rewrite percents_app. cbn. now rewrite app_nil_r. }
  destruct (Z.eq_dec (total_files t) 0%Z) as [Hz|Hnz].
  - destruct (run_lines_zero t lines 0%Z st1 Hz) as [r Hr].
    exists []. rewrite app_nil_r. split; [|constructor].
    unfold bind. rewrite Hr. rewrite <- Hp. now destruct r.
  - destruct (run_lines_reports t lines 0%Z st1 Hnz) as (n' & new & Hr & Hper).
    exists (reported (total_files t) (offset t) (processed lines)). split.
    + unfold bind. rewrite Hr. cbv beta iota. unfold ret. cbn [snd trace].
      rewrite percents_app, Hper. now rewrite Hp.
    + apply reported_sorted; [lia|exact Hs].
Qed.

End CopyJob.

Section CopyJobEvents.

Variable world : World.

Lemma events_emit s k p a : events [(emit_op s k p, a)] = [(k, p)].
Proof. unfold events. cbn [omap list_omap]. now rewrite event_of_emit. Qed.

Lemma due_counts_cons_Some off line lines x m1 m2 :
  Rsync.first_match line = Some (x, m1, m2) ->
  due_counts off (line :: lines) =
  if ((PyStr.int m2 - PyStr.int m1 + off) mod 100 =? 0)%Z
  then (PyStr.int m2 - PyStr.int m1 + off)%Z :: due_counts off lines
  else due_counts off lines.
Proof.
  intros H. unfold due_counts. rewrite (processed_cons_Some _ _ _ _ _ H).
  cbn [fmap list_fmap List.filter].
  now destruct ((PyStr.int m2 - PyStr.int m1 + off) mod 100 =? 0)%Z.
Qed.

Lemma due_counts_cons_None off line lines :
  Rsync.first_match line = None -> due_counts off (line :: lines) = due_counts off lines.
Proof. intros H. unfold due_counts. now rewrite (processed_cons_None _ _ H). Qed.

(** With an expected total that is not zero the loop of [run] reads all the
    lines, and its steps are the events of the counts that are due, one
    each, in order. *)
Lemma run_lines_events t lines : forall n st,
  total_files t <> 0%Z ->
  exists n' new,
    run_lines world t n lines st = (Ret n', mkSt (self st) (trace st ++ new)) /\
    length new = length (due_counts (offset t) lines) /\
    events new =
      (fun c => (percent, Ratio (inject_Z c / inject_Z (total_files t))))
        <$> due_counts (offset t) lines.
Proof.
  induction lines as [|line lines IH]; intros n st Ht.
  - exists n, []. rewrite app_nil_r. now destruct st.
  - cbn [run_lines]. destruct (Rsync.first_match line) as [[[x m1] m2]|] eqn:Hm.
    + rewrite (due_counts_cons_Some _ _ _ _ _ _ Hm).
      destruct ((PyStr.int m2 - PyStr.int m1 + offset t) mod 100 =? 0)%Z eqn:Hc.
      * apply Z.eqb_eq in Hc.
        erewrite bind_Ret by (eapply run_line_multiple; eauto).
        edestruct IH as (n' & new & Hrun & Hlen & Hev); [exact Ht|].
        rewrite Hrun. cbn [self trace].
        eexists n', (_ :: new). rewrite <- app_assoc. split; [reflexivity|].
        split; [cbn [length]; now rewrite Hlen|].
        change (?x :: new) with ([x] ++ new).
        now rewrite events_app, events_emit, Hev.
      * apply Z.eqb_neq in Hc.
        erewrite bind_Ret by (eapply run_line_between; eauto).
        apply IH, Ht.
    + rewrite (due_counts_cons_None _ _ _ Hm).
      erewrite bind_Ret by (now apply run_line_other).
      apply IH, Ht.
Qed.

(** With an expected total of zero the first count that is due raises, and
    the trace is left as it is. *)
Lemma run_line_due_zero t n line x m1 m2 st :
  Rsync.first_match line = Some (x, m1, m2) ->
  total_files t = 0%Z ->
  ((PyStr.int m2 - PyStr.int m1 + offset t) mod 100 = 0)%Z ->
  run_line world t n line st = (Raise (OtherException "ZeroDivisionError"), st).
Proof.
  intros Hm Ht Hc. unfold run_line. rewrite Hm. cbv zeta.
  apply Z.eqb_eq in Hc. rewrite Hc.
  unfold update_progress. now rewrite Ht.
Qed.

Lemma run_lines_total_zero t lines : forall n st,
  total_files t = 0%Z ->
  exists r,
    run_lines world t n lines st = (r, st) /\
    match r with
    | Ret _ => due_counts (offset t) lines = []
    | Raise e => e = OtherException "ZeroDivisionError" /\ due_counts (offset t) lines <> []
    | Exit _ => False
    end.
Proof.
  induction lines as [|line lines IH]; intros n st Ht.
  - now exists (Ret n).
  - cbn [run_lines]. destruct (Rsync.first_match line) as [[[x m1] m2]|] eqn:Hm.
    + rewrite (due_counts_cons_Some _ _ _ _ _ _ Hm).
      destruct ((PyStr.int m2 - PyStr.int m1 + offset t) mod 100 =? 0)%Z eqn:Hc.
      * apply Z.eqb_eq in Hc.
        exists (Raise (OtherException "ZeroDivisionError")).
        erewrite bind_Raise by (eapply run_line_due_zero; eauto).
        split; [reflexivity|]. now split.
      * apply Z.eqb_neq in Hc.
        erewrite bind_Ret by (eapply run_line_between; eauto).
        apply IH, Ht.
    + rewrite (due_counts_cons_None _ _ _ Hm).
      erewrite bind_Ret by (now apply run_line_other).
      apply IH, Ht.
Qed.

End CopyJobEvents.

(** C6, as stated, fails: with an expected total of zero a count that is a
    multiple of 100 is not reported.  Here the two images index to no file,
    the expected total of the extraction stage is 0, and the lines of rsync
    carry the counts 100, 150 and 200: the tracker raises ZeroDivisionError
    on the count 100, which ends its thread, and the only [percent] event of
    the stage is the 100% it closes with. *)
Lemma multiple_of_100_of_total_zero_is_not_reported :
  let line := "         12,345 100%   11.77MB/s    0:00:00 (xfr#1, ir-chk=900/1000)" in
  let one := run_line live_world (mkThread 0 0 0) 0 line (fresh target_installer) in
  let st0 := (prepare zero_count_world (fresh target_installer)).2 in
  let stage := install_system zero_count_world (mkSt (self st0) []) in
  processed [line] = [100%Z] /\
  one.1 = Raise (OtherException "ZeroDivisionError") /\
  events (trace one.2) = [] /\
  processed sample_lines = [100; 150; 200]%Z /\
  stage.1 = Ret tt /\
  percents (trace stage.2) = [1%Q].
Proof. vm_compute. repeat split. Qed.

(** C6, amended -- For every output line carrying a (remaining, total) pair
    the tracker computes [copied = total - remaining + offset]; when
    [copied] is a multiple of 100 and the expected total is not zero it
    emits one [percent] event with the value [copied / total_files], when
    [copied] is a multiple of 100 and the expected total is zero it raises
    ZeroDivisionError and emits nothing, and when [copied] is no multiple of
    100 it emits nothing; a line that carries no such pair leaves the count
    and the trace as they are.  So a copy job whose expected total is not
    zero reads all its lines and emits exactly the events of the counts that
    are multiples of 100, in the order of the lines, and nothing else; and a
    job whose expected total is zero emits nothing, and ends by the
    ZeroDivisionError when a count is a multiple of 100. *)
Theorem progress_events_of_a_copy_job
    (world : World) (t : FileCopyThread) (lines : list string) (st : St) :
  world (trace st) RsyncLines = Lines lines ->
  (exists r new,
     FileCopyThread_run world t st
     = (r, mkSt (self st) (trace st ++ (RsyncLines, Lines lines) :: new)) /\
     if (total_files t =? 0)%Z
     then
       new = [] /\
       match r with
       | Ret _ => due_counts (offset t) lines = []
       | Raise e =>
           e = OtherException "ZeroDivisionError" /\ due_counts (offset t) lines <> []
       | Exit _ => False
       end
     else
       (exists t', r = Ret t') /\
       length new = length (due_counts (offset t) lines) /\
       events new =
         (fun c => (percent, Ratio (inject_Z c / inject_Z (total_files t))))
           <$> due_counts (offset t) lines) /\
  (forall n line st0,
     match Rsync.first_match line with
     | Some (_, m1, m2) =>
         let copied := (PyStr.int m2 - PyStr.int m1 + offset t)%Z in
         if (copied mod 100 =? 0)%Z
         then
           if (total_files t =? 0)%Z
           then run_line world t n line st0
                = (Raise (OtherException "ZeroDivisionError"), st0)
           else
             let ev :=
               emit_op (self st0) percent
                 (Ratio (inject_Z copied / inject_Z (total_files t))) in
             run_line world t n line st0
             = (Ret copied,
                mkSt (self st0) (trace st0 ++ [(ev, world (trace st0) ev)]))
         else run_line world t n line st0 = (Ret copied, st0)
     | None => run_line world t n line st0 = (Ret n, st0)
     end).
Proof.
  intros Hw. split.
  - unfold FileCopyThread_run.
    rewrite (bind_Ret _ _ _ _ _ (stdout_lines_eq world st lines Hw)).
    set (st1 := mkSt (self st) (trace st ++ [(RsyncLines, Lines lines)])).
    destruct (total_files t =? 0)%Z eqn:Ht.
    + apply Z.eqb_eq in Ht.
      destruct (run_lines_total_zero world t lines 0%Z st1 Ht) as (r & Hr & Hd).
      destruct r as [n'|e|code]; [| |easy].
      * eexists (Ret _), []. rewrite (bind_Ret _ _ _ _ _ Hr). now split.
      * eexists (Raise e), []. rewrite (bind_Raise _ _ _ _ _ Hr). now split.
    + apply Z.eqb_neq in Ht.
      destruct (run_lines_events world t lines 0%Z st1 Ht) as (n' & new & Hr & Hl & He).
      eexists (Ret _), new. rewrite (bind_Ret _ _ _ _ _ Hr).
      unfold st1. cbn [self trace]. rewrite <- app_assoc.
      split; [reflexivity|]. split; [now eexists|]. now split.
  - intros n line st0.
    destruct (Rsync.first_match line) as [[[x m1] m2]|] eqn:Hm.
    + cbv zeta.
      destruct ((PyStr.int m2 - PyStr.int m1 + offset t) mod 100 =? 0)%Z eqn:Hc.
      * apply Z.eqb_eq in Hc. destruct (total_files t =? 0)%Z eqn:Ht.
        -- apply Z.eqb_eq in Ht. now apply (run_line_due_zero world t n line x m1 m2).
        -- apply Z.eqb_neq in Ht. now apply (run_line_multiple world t n line x m1 m2).
      * apply Z.eqb_neq in Hc. now apply (run_line_between world t n line x m1 m2).
    + now apply run_line_other.
Qed.

Lemma progress_events_of_a_copy_job_witness :
  exists r new,
    FileCopyThread_run live_world job_200 (fresh target_installer)
    = (r, mkSt target_installer ([] ++ (RsyncLines, Lines sample_lines) :: new)) /\
    (exists t', r = Ret t') /\
    length new = 2%nat /\
    events new =
      [(percent, Ratio (inject_Z 100 / inject_Z 200));
       (percent, Ratio (inject_Z 200 / inject_Z 200))].
Proof.
  destruct (progress_events_of_a_copy_job live_world job_200 sample_lines
              (fresh target_installer) eq_refl) as ((r & new & E & T & L & V) & _).
  now exists r, new.
Defined.

(** C5, as stated, fails: a job with offset 0 and expected total 200 that
    reads a line reporting 40/100 queues no progress event at all, and so
    none with the ratio 0.30. *)
Lemma no_event_for_40_of_100 :
  let run := run_line calm_world job_200 0 line_40_of_100 (fresh scenario_installer) in
  run.1 = Ret 60%Z /\
  events (trace run.2) = [] /\
  ~ (exists q, In (percent, Ratio q) (events (trace run.2)) /\ (q == 3 # 10)%Q).
Proof.
  assert (E : run_line calm_world job_200 0 line_40_of_100 (fresh scenario_installer)
              = (Ret 60%Z, fresh scenario_installer)) by (vm_compute; reflexivity).
  cbv zeta. rewrite E. split; [reflexivity|]. split; [reflexivity|].
  intros (q & Hin & _). exact Hin.
Qed.

(** C5, amended -- A job with offset 0 and expected total 200 that reads a
    line reporting 40/100 computes [copied = 100 - 40 + 0 = 60] and, 60 not
    being a multiple of 100, queues no event and leaves the trace as it is;
    [(100 - 40 + 0) / 200 = 0.30] is the ratio [update_progress] queues
    when it is called for that count. *)
Theorem count_60_of_200_is_not_reported
    (world : World) (current n : Z) (line x : string) (st : St) :
  Rsync.first_match line = Some (x, "40", "100") ->
  let t := mkThread current 200 0 in
  run_line world t n line st = (Ret 60%Z, st) /\
  exists q a,
    update_progress world t 60 st
    = (Ret tt, mkSt (self st) (trace st ++ [(emit_op (self st) percent (Ratio q), a)])) /\
    (q == 3 # 10)%Q.
Proof.
  intros Hm t. split.
  - apply (run_line_between world t n line x "40" "100" st Hm). discriminate.
  - unfold update_progress. cbn [total_files t Z.eqb].
    rewrite queue_event_eq. do 2 eexists. split; [reflexivity|reflexivity].
Qed.

Lemma count_60_of_200_is_not_reported_witness :
  run_line calm_world job_200 0 line_40_of_100 (fresh scenario_installer)
  = (Ret 60%Z, fresh scenario_installer) /\
  exists q a,
    update_progress calm_world job_200 60 (fresh scenario_installer)
    = (Ret tt, mkSt scenario_installer
                 ([] ++ [(emit_op scenario_installer percent (Ratio q), a)])) /\
    (q == 3 # 10)%Q.
Proof.
  exact (count_60_of_200_is_not_reported calm_world 0 0 line_40_of_100 "7"
           (fresh scenario_installer) eq_refl).
Defined.

(** ** How computations end *)

(** Split a computation that returned along its [bind]s. *)
Ltac peel H :=
  repeat match type of H with
         | bind _ _ _ = (Ret _, _) =>
             let a := fresh "a" in
             let s := fresh "s" in
             let H1 := fresh "H" in
             apply bind_inv_Ret in H; destruct H as (a & s & H1 & H)
         end.

Section Endings.

Variable world : World.

Lemma try_except_inv_Ret {A} (m : M A) accepts handler st (a : A) st' :
  try_except m accepts handler st = (Ret a, st') ->
  m st = (Ret a, st') \/
  exists e st1, m st = (Raise e, st1) /\ accepts e = true /\ handler e st1 = (Ret a, st').
Proof.
  unfold try_except. destruct (m st) as [[x|e|c] st1]; intros H.
  - now left.
  - destruct (accepts e) eqn:He; [|discriminate]. right. now exists e, st1.
  - discriminate.
Qed.

(** [queue_fatal_event] never returns to its caller. *)
Lemma queue_fatal_event_no_return txt st st' :
  queue_fatal_event world txt st <> (Ret tt, st').
Proof.
  unfold queue_fatal_event. intros H. peel H. discriminate.
Qed.

(** A fatal event leaves the installer stopped and in error. *)
Lemma queue_fatal_event_flags txt st r st' :
  queue_fatal_event world txt st = (r, st') ->
  running (self st') = false /\ error (self st') = true.
Proof.
  cbv [queue_fatal_event queue_event callback_queue_join perform bind
       get_self set_self os_exit raise ret].
  cbn [self trace].
  repeat match goal with
         | |- context [if ?b then _ else _] => destruct b
         end;
    intros H; injection H as _ <-; now split.
Qed.

(** An extraction stage that returns ends on the report of 100%. *)
Lemma install_system_final_percent st st' :
  install_system world st = (Ret tt, st') ->
  last (percents (trace st')) = Some 1%Q.
Proof.
  unfold install_system. intros H.
  apply try_except_inv_Ret in H. destruct H as [H|(e & st1 & _ & _ & H)].
  - unfold install_system_body in H. peel H.
    match goal with
    | Hp : queue_event _ percent _ ?s0 = _ |- _ =>
        rewrite queue_event_eq in Hp; injection Hp as _ <-
    end.
    rewrite queue_event_eq in H. injection H as <-. cbn [trace self].
    rewrite !percents_app.
    unfold percents at 2 3, emit_op. destruct (callback_queue _); cbn;
      rewrite app_nil_r; apply last_snoc.
  - peel H.
    match goal with
    | Hq : queue_fatal_event _ _ _ = (Ret _, _) |- _ =>
        destruct a0; now apply queue_fatal_event_no_return in Hq
    end.
Qed.

End Endings.

(** C4, as stated, fails: the ratios of one copy job follow the counts the
    copy tool prints, and go down when those go down.  Here the tool reports
    0 of 200 files left and then 100 of 200 left: the job reports 200/200 and
    then 100/200. *)
Lemma progress_follows_the_tool_backwards :
  let run := FileCopyThread_run backwards_world job_200 (fresh scenario_installer) in
  percents (trace run.2) = [200 # 200; 100 # 200]%Q /\
  ~ StronglySorted Qle (percents (trace run.2)).
Proof.
  assert (E : percents (trace (FileCopyThread_run backwards_world job_200
                                 (fresh scenario_installer)).2)
              = [200 # 200; 100 # 200]%Q) by (vm_compute; reflexivity).
  cbv zeta. rewrite E. split; [reflexivity|]. intros H.
  apply StronglySorted_inv in H. destruct H as [_ H].
  apply Forall_inv in H. vm_compute in H. now apply H.
Qed.

(** C4, amended -- For every sequence of output lines whose counts of
    processed files ([total - remaining]) never decrease, and an expected
    total that is not negative, the ratios one copy job reports as [percent]
    events never decrease; and whenever the extraction stage returns, the
    last ratio it reported is exactly 1. *)
Theorem copy_progress_monotone_and_final
    (world : World) (t : FileCopyThread) (st : St) (lines : list string) :
  world (trace st) RsyncLines = Lines lines ->
  (0 <= total_files t)%Z ->
  StronglySorted Z.le (processed lines) ->
  (exists qs,
     percents (trace (FileCopyThread_run world t st).2) = percents (trace st) ++ qs /\
     StronglySorted Qle qs) /\
  (forall st0 st', install_system world st0 = (Ret tt, st') ->
     last (percents (trace st')) = Some 1%Q).
Proof.
  intros Hw Ht Hs. split.
  - now apply copy_job_reports with (lines := lines).
  - apply install_system_final_percent.
Qed.

Lemma copy_progress_monotone_and_final_witness :
  (exists qs,
     percents (trace (FileCopyThread_run calm_world job_200
                        (fresh scenario_installer)).2) = [] ++ qs /\
     StronglySorted Qle qs) /\
  last (percents (trace (install_system calm_world (fresh scenario_installer)).2))
  = Some 1%Q.
Proof.
  assert (Hs : StronglySorted Z.le (processed sample_lines)).
  { vm_compute processed. repeat constructor; discriminate. }
  destruct (copy_progress_monotone_and_final calm_world job_200
              (fresh scenario_installer) sample_lines eq_refl
              ltac:(discriminate) Hs) as [A B].
  split; [exact A|].
  apply (B (fresh scenario_installer)).
  vm_compute. reflexivity.
Defined.

(** Run a computation on the answers of the world, case by case. *)
Ltac crunch world :=
  repeat (cbv beta iota; cbn [self trace];
          match goal with
          | |- context [match world ?tr ?o with _ => _ end] =>
              let E := fresh "E" in destruct (world tr o) eqn:E
          | |- context [if is_CalledProcessError ?e then _ else _] =>
              let E := fresh "C" in destruct (is_CalledProcessError e) eqn:E
          | |- context [if callback_queue ?s then _ else _] =>
              let E := fresh "Q" in destruct (callback_queue s) eqn:E
          end);
  cbv beta iota; cbn [self trace].

(** ** Computations only append to the trace *)

Section Adds.

Variable world : World.
Variable c : op -> bool.
Variable R : relation Installer.
Variable X : Installer -> Prop.
Context `{!PreOrder R}.

Lemma adds_ret {A} (a : A) : adds c R X (ret a).
Proof.
  intros st r st' [= <- <-]. split; [reflexivity|]. split; [|discriminate].
  exists []. now rewrite app_nil_r.
Qed.

Lemma adds_raise {A} e : adds c R X (@raise A e).
Proof.
  intros st r st' [= <- <-]. split; [reflexivity|]. split; [|discriminate].
  exists []. now rewrite app_nil_r.
Qed.

Lemma adds_get_self : adds c R X get_self.
Proof.
  intros st r st' [= <- <-]. split; [reflexivity|]. split; [|discriminate].
  exists []. now rewrite app_nil_r.
Qed.

Lemma adds_set_self f : (forall s, R s (f s)) -> adds c R X (set_self f).
Proof.
  intros Hf st r st' [= <- <-]. split; [apply Hf|]. split; [|discriminate].
  exists []. cbn. now rewrite app_nil_r.
Qed.

Lemma adds_perform o : c o = false -> adds c R X (perform world o).
Proof.
  intros Ho st r st' [= <- <-]. split; [reflexivity|]. split; [|discriminate].
  eexists. split; [reflexivity|]. now repeat constructor.
Qed.

Lemma adds_bind {A B} (m : M A) (f : A -> M B) :
  adds c R X m -> (forall a, adds c R X (f a)) -> adds c R X (bind m f).
Proof.
  intros Hm Hf st r st'. unfold bind.
  destruct (m st) as [[a|e|code] st1] eqn:E; intros H.
  - destruct (Hm _ _ _ E) as (R1 & (n1 & E1 & F1) & _).
    destruct (Hf a _ _ _ H) as (R2 & (n2 & E2 & F2) & X2).
    split; [now transitivity (self st1)|]. split; [|exact X2].
    exists (n1 ++ n2). rewrite E2, E1, app_assoc. split; [reflexivity|].
    now apply Forall_app.
  - injection H as <- <-. destruct (Hm _ _ _ E) as (R1 & N1 & _).
    split; [exact R1|]. split; [exact N1|discriminate].
  - injection H as <- <-. destruct (Hm _ _ _ E) as (R1 & N1 & X1).
    split; [exact R1|]. split; [exact N1|]. intros ? _. now apply (X1 code).
Qed.

Lemma adds_try_except {A} (m : M A) accepts handler :
  adds c R X m -> (forall e, adds c R X (handler e)) ->
  adds c R X (try_except m accepts handler).
Proof.
  intros Hm Hh st r st'. unfold try_except.
  destruct (m st) as [[a|e|code] st1] eqn:E; intros H.
  - injection H as <- <-. exact (Hm _ _ _ E).
  - destruct (accepts e).
    + destruct (Hm _ _ _ E) as (R1 & (n1 & E1 & F1) & _).
      destruct (Hh e _ _ _ H) as (R2 & (n2 & E2 & F2) & X2).
      split; [now transitivity (self st1)|]. split; [|exact X2].
      exists (n1 ++ n2). rewrite E2, E1, app_assoc. split; [reflexivity|].
      now apply Forall_app.
    + injection H as <- <-. exact (Hm _ _ _ E).
  - injection H as <- <-. exact (Hm _ _ _ E).
Qed.

Lemma adds_for_each {A} (l : list A) (body : A -> M unit) :
  (forall x, adds c R X (body x)) -> adds c R X (for_each l body).
Proof.
  intros Hb. induction l as [|x l IH]; cbn [for_each].
  - apply adds_ret.
  - apply adds_bind; [apply Hb|intros _; exact IH].
Qed.

Lemma adds_when b (m : M unit) : adds c R X m -> adds c R X (when b m).
Proof. intros Hm. destruct b; [exact Hm|apply adds_ret]. Qed.

(** The fatal event: the flags, one event, the wait for the consumer, and
    the end of the process. *)
Lemma adds_queue_fatal_event txt :
  c (PutNowait error_ev txt) = false ->
  c (PrintEvent error_ev txt) = false ->
  c QueueJoin = false ->
  (forall s, R s (set_running false (set_error true s))) ->
  (forall s, X (set_running false (set_error true s))) ->
  adds c R X (queue_fatal_event world txt).
Proof.
  intros C1 C2 C3 HR HX st r st'.
  cbv [queue_fatal_event queue_event callback_queue_join perform bind
       get_self set_self os_exit raise ret].
  crunch world; intros H; injection H as <- <-; cbn [self trace];
    (split; [apply HR|]); (split; [|intros ? _; apply HX]);
    eexists; (split; [rewrite <- ?app_assoc; reflexivity|]); now repeat constructor.
Qed.

End Adds.

(** Take a computation apart down to its operations; what is left are the
    operations the classifier has to let pass. *)
Ltac adds_step :=
  match goal with
  | |- PreOrder _ => typeclasses eauto
  | |- forall _, _ => intros ?
  | |- adds _ _ _ (ret _) => apply adds_ret
  | |- adds _ _ _ (raise _) => apply adds_raise
  | |- adds _ _ _ get_self => apply adds_get_self
  | |- adds _ _ _ (set_self _) => apply adds_set_self
  | |- adds _ _ _ (bind _ _) => apply adds_bind
  | |- adds _ _ _ (try_except _ _ _) => apply adds_try_except
  | |- adds _ _ _ (for_each _ _) => apply adds_for_each
  | |- adds _ _ _ (when _ _) => apply adds_when
  | |- adds _ _ _ (perform _ _) => apply adds_perform
  | |- adds _ _ _ (queue_fatal_event _ _) => apply adds_queue_fatal_event
  | |- adds _ _ _ (match ?x with _ => _ end) => destruct x
  | |- adds _ _ _ (let '(_, _) := ?x in _) => destruct x
  end.

(** ** The chroot special directories *)

Section Chroot.

Variable world : World.

Lemma check_call_Ret argv st u st' :
  check_call world argv st = (Ret u, st') ->
  exists a, st' = mkSt (self st) (trace st ++ [(CheckCall argv, a)]).
Proof.
  cbv [check_call call perform bind ret raise].
  destruct (world (trace st) (CheckCall argv)) eqn:E; intros [= _ <-]; eauto.
Qed.

Lemma no_command_added new :
  Forall (fun x : step => is_check_call x.1 = false) new ->
  commands new = [] /\ special_mounts new = [] /\ umounts new = [].
Proof.
  induction 1 as [|[o a] new Ho _ IH]; [easy|].
  destruct IH as (I1 & I2 & I3).
  unfold commands, special_mounts, umounts in *. cbn [omap list_omap].
  rewrite I1, I2, I3.
  destruct o; try discriminate Ho; easy.
Qed.

Lemma ensure_dirs_quiet (dest : string) (dirs : list string) :
  adds is_check_call eq no_exit
    (for_each dirs (fun s_dir =>
       e <- path_exists world (path_join dest s_dir) ;;
       when (negb e) (call world (Makedirs (path_join dest s_dir))))).
Proof.
  unfold path_exists, ask, call. repeat adds_step; reflexivity.
Qed.

Lemma special_mounts_app tr1 tr2 :
  special_mounts (tr1 ++ tr2) = special_mounts tr1 ++ special_mounts tr2.
Proof. apply omap_app. Qed.

Lemma umounts_app tr1 tr2 : umounts (tr1 ++ tr2) = umounts tr1 ++ umounts tr2.
Proof. apply omap_app. Qed.

Lemma commands_app tr1 tr2 : commands (tr1 ++ tr2) = commands tr1 ++ commands tr2.
Proof. apply omap_app. Qed.

(** A mount that returns has set the flag. *)
Lemma mount_sets_flag st st1 :
  chroot_mount_special_dirs world st = (Ret tt, st1) ->
  special_dirs_mounted (self st1) = true.
Proof.
  unfold chroot_mount_special_dirs. intros H. peel H.
  injection H0 as <- <-.
  destruct (special_dirs_mounted (self st)) eqn:F.
  - rewrite queue_event_eq in H. now injection H as <-.
  - peel H. now injection H as <-.
Qed.

(** With the flag set, a mount is one [debug] event and nothing else. *)
Lemma mount_when_mounted st :
  special_dirs_mounted (self st) = true ->
  chroot_mount_special_dirs world st = queue_event world debug
    (Text (tr "Special dirs already mounted.")) st.
Proof.
  intros F. unfold chroot_mount_special_dirs, bind at 1, get_self at 1.
  now rewrite F.
Qed.

(** With the flag down, an unmount is one [debug] event and nothing else. *)
Lemma umount_when_not_mounted st :
  special_dirs_mounted (self st) = false ->
  chroot_umount_special_dirs world st = queue_event world debug
    (Text (tr "Special dirs are not mounted. Skipping.")) st.
Proof.
  intros F. unfold chroot_umount_special_dirs, bind at 1, get_self at 1.
  now rewrite F.
Qed.

End Chroot.

Section ChrootOrder.

Variable world : World.

(** The mounts of a call that returns, in order. *)
Lemma mount_order st st1 :
  special_dirs_mounted (self st) = false ->
  chroot_mount_special_dirs world st = (Ret tt, st1) ->
  special_mounts (trace st1) =
  special_mounts (trace st) ++
  map (path_join (dest_dir (self st))) (mount_special_list (efi_of (self st))).
Proof.
  intros F H. unfold chroot_mount_special_dirs in H. peel H.
  injection H0 as <- <-. rewrite F in H. peel H.
  apply ensure_dirs_quiet in H0. destruct H0 as (S0 & (n0 & T0 & F0) & _).
  apply no_command_added in F0. destruct F0 as (_ & F0 & _).
  cbv zeta in *.
  repeat match goal with
         | H : bind _ _ _ = (Ret _, _) |- _ => peel H
         | H : check_call _ _ _ = (Ret _, _) |- _ =>
             apply check_call_Ret in H; destruct H as [? ->]
         end.
  injection H5 as <- <-. injection H as <-. cbn [self trace] in *.
  assert (E : efi_of (self st) = truthy (default PyNone (settings (self s) !! "efi")))
    by now rewrite <- S0.
  rewrite <- E in H6. unfold mount_special_list.
  destruct (efi_of (self st)); cbn [when] in H6.
  - apply check_call_Ret in H6. destruct H6 as [? ->]. cbn [trace].
    rewrite T0, !special_mounts_app, F0. cbn. now rewrite <- !app_assoc.
  - injection H6 as _ <-. cbn [trace].
    rewrite T0, !special_mounts_app, F0. cbn. now rewrite <- !app_assoc.
Qed.

(** One directory: the plain [umount] is always tried, once. *)
Lemma umount_special_dir_once d st r st' :
  umount_special_dir world d st = (r, st') ->
  self st' = self st /\
  (exists new, trace st' = trace st ++ new /\ umounts new = [d]) /\
  (only_exit_status world -> r = Ret tt).
Proof.
  cbv [umount_special_dir try_except check_call call logging queue_event perform
       bind get_self ret raise is_Exception].
  crunch world;
    intros H; injection H as <- <-; cbn [self trace];
    (split; [reflexivity|]);
    (split; [eexists; split; [rewrite <- ?app_assoc; reflexivity|reflexivity]|]);
    intros Hw; first [reflexivity|exfalso].
  - apply Hw in E0. congruence.
Qed.

(** The loop of [chroot_umount_special_dirs]. *)
Lemma umount_loop dest dirs : forall st r st',
  for_each dirs (fun s_dir => umount_special_dir world (path_join dest s_dir)) st
  = (r, st') ->
  self st' = self st /\
  (exists new, trace st' = trace st ++ new /\
               (r = Ret tt -> umounts new = map (path_join dest) dirs)) /\
  (only_exit_status world -> r = Ret tt).
Proof.
  induction dirs as [|d dirs IH]; intros st r st' H; cbn [for_each] in H.
  - injection H as <- <-. split; [reflexivity|]. split; [|easy].
    exists []. now rewrite app_nil_r.
  - unfold bind in H.
    destruct (umount_special_dir world (path_join dest d) st) as [r1 st1] eqn:E1.
    apply umount_special_dir_once in E1. destruct E1 as (S1 & (n1 & T1 & U1) & W1).
    destruct r1 as [[]|e|code].
    + apply IH in H. destruct H as (S2 & (n2 & T2 & U2) & W2).
      split; [congruence|]. split; [|exact W2].
      exists (n1 ++ n2). rewrite T2, T1, app_assoc. split; [reflexivity|].
      intros Hr. rewrite umounts_app, U1, (U2 Hr). reflexivity.
    + injection H as <- <-. split; [exact S1|]. split; [|exact W1].
      exists n1. split; [exact T1|discriminate].
    + injection H as <- <-. split; [exact S1|]. split; [|exact W1].
      exists n1. split; [exact T1|discriminate].
Qed.

(** The unmounts of a call, in order. *)
Lemma umount_order st r st' :
  special_dirs_mounted (self st) = true ->
  chroot_umount_special_dirs world st = (r, st') ->
  (exists new, trace st' = trace st ++ new /\
     (r = Ret tt ->
      umounts new =
      map (path_join (dest_dir (self st))) (umount_special_list (efi_of (self st))))) /\
  (only_exit_status world ->
   r = Ret tt /\ special_dirs_mounted (self st') = false).
Proof.
  intros F H. unfold chroot_umount_special_dirs, bind at 1, get_self at 1 in H.
  rewrite F in H. cbn [negb] in H.
  unfold bind at 1, settings_get at 1, bind at 1, get_self at 1, ret at 1 in H.
  fold (efi_of (self st)) in H. unfold bind in H.
  match type of H with
  | context [for_each ?l ?f st] => destruct (for_each l f st) as [r1 st1] eqn:E1
  end.
  apply umount_loop in E1. destruct E1 as (S1 & (n1 & T1 & U1) & W1).
  destruct r1 as [[]|e|code]; injection H as <- <-; cbn [self trace].
  - split; [exists n1; split; [exact T1|intros _; now apply U1]|]. now intros _.
  - split; [exists n1; split; [exact T1|discriminate]|].
    intros Hw. now apply W1 in Hw.
  - split; [exists n1; split; [exact T1|discriminate]|].
    intros Hw. now apply W1 in Hw.
Qed.

(** An unmount that fails with an exit status is retried with [-l], and a
    warning is queued only when the retry fails with an exit status too. *)
Lemma umount_retry d st cmd out :
  world (trace st) (CheckCall ["umount"; d]) = Raised (CalledProcessError cmd out) ->
  exists r st' l a rest,
    umount_special_dir world d st = (r, st') /\
    trace st' =
      trace st ++
      [(CheckCall ["umount"; d], Raised (CalledProcessError cmd out));
       (Logging LError (Exc (CalledProcessError cmd out)), l);
       (CheckCall ["umount"; "-l"; d], a)] ++ rest /\
    commands rest = [] /\
    events rest =
      if is_exit_status_failure a
      then [(warning, Text (PyStr.pct "Unable to umount %s" d))]
      else [].
Proof.
  intros E1.
  cbv [umount_special_dir try_except check_call call logging queue_event perform
       bind get_self ret raise is_Exception].
  cbn [self trace]. rewrite E1. cbn [is_CalledProcessError].
  crunch world;
    do 5 eexists; (split; [reflexivity|]); cbn [trace];
    (split; [rewrite <- ?app_assoc; cbn [app]; reflexivity|]);
    cbn [is_exit_status_failure];
    repeat match goal with
           | H : is_CalledProcessError _ = _ |- _ => rewrite H; clear H
           end;
    now split.
Qed.

End ChrootOrder.

(** C3, as stated, fails: the directories are not unmounted in the reverse
    of the order in which they were mounted.  Without EFI the mounts are
    sys, proc, dev, dev/pts and the unmounts dev/pts, sys, proc, dev. *)
Lemma unmount_is_not_reverse_of_mount :
  let st1 := (chroot_mount_special_dirs calm_world (fresh scenario_installer)).2 in
  let st2 := (chroot_umount_special_dirs calm_world st1).2 in
  special_mounts (trace st1) = ["sys"; "proc"; "dev"; "dev/pts"] /\
  umounts (trace st2) = ["dev/pts"; "sys"; "proc"; "dev"] /\
  umounts (trace st2) <> rev (special_mounts (trace st1)).
Proof. vm_compute. repeat split. discriminate. Qed.

(** C3, amended -- [chroot_umount_special_dirs] unmounts the directories
    [chroot_mount_special_dirs] mounted, with and without EFI, in the fixed
    order dev/pts, (sys/firmware/efi,) sys, proc, dev: every nested
    directory before the one it lies in, which is not the reverse of the
    order of the mounts, sys, proc, dev, dev/pts(, sys/firmware/efi).  An
    unmount whose plain form fails with an exit status is retried with
    [umount -l], and a warning is queued only when the retry fails too; when
    commands fail by their exit status only, the unmount returns and the
    flag is down. *)
Theorem special_dirs_unmount_order (world : World) :
  (forall st st1,
     special_dirs_mounted (self st) = false ->
     chroot_mount_special_dirs world st = (Ret tt, st1) ->
     special_mounts (trace st1) =
     special_mounts (trace st) ++
     map (path_join (dest_dir (self st))) (mount_special_list (efi_of (self st)))) /\
  (forall st r st',
     special_dirs_mounted (self st) = true ->
     chroot_umount_special_dirs world st = (r, st') ->
     (exists new, trace st' = trace st ++ new /\
        (r = Ret tt ->
         umounts new =
         map (path_join (dest_dir (self st))) (umount_special_list (efi_of (self st))))) /\
     (only_exit_status world ->
      r = Ret tt /\ special_dirs_mounted (self st') = false)) /\
  (forall efi,
     umount_special_list efi ≡ₚ mount_special_list efi /\
     nested_first (umount_special_list efi) = true /\
     umount_special_list efi <> rev (mount_special_list efi)) /\
  (forall st d cmd out,
     world (trace st) (CheckCall ["umount"; d]) = Raised (CalledProcessError cmd out) ->
     exists r st' l a rest,
       umount_special_dir world d st = (r, st') /\
       trace st' =
         trace st ++
         [(CheckCall ["umount"; d], Raised (CalledProcessError cmd out));
          (Logging LError (Exc (CalledProcessError cmd out)), l);
          (CheckCall ["umount"; "-l"; d], a)] ++ rest /\
       commands rest = [] /\
       events rest =
         if is_exit_status_failure a
         then [(warning, Text (PyStr.pct "Unable to umount %s" d))]
         else []).
Proof.
  split; [|split; [|split]].
  - apply mount_order.
  - apply umount_order.
  - intros [|]; (split; [|split; [reflexivity|discriminate]]).
    + apply (Permutation_app_comm ["dev/pts"; "sys/firmware/efi"] ["sys"; "proc"; "dev"]).
    + apply (Permutation_app_comm ["dev/pts"] ["sys"; "proc"; "dev"]).
  - intros st d cmd out. apply umount_retry.
Qed.

Lemma special_dirs_unmount_order_witness :
  let st := fresh scenario_installer in
  let st1 := (chroot_mount_special_dirs calm_world st).2 in
  special_mounts (trace st1) = [] ++ map (path_join "") (mount_special_list false) /\
  (exists new,
     trace (chroot_umount_special_dirs calm_world st1).2 = trace st1 ++ new /\
     (Ret tt = Ret tt -> umounts new = map (path_join "") (umount_special_list false))) /\
  (exists r st' l a rest,
     umount_special_dir busy_world "/install/dev" st = (r, st') /\
     trace st' =
       [] ++
       [(CheckCall ["umount"; "/install/dev"],
         Raised (CalledProcessError ["umount"; "/install/dev"] "target is busy"));
        (Logging LError
           (Exc (CalledProcessError ["umount"; "/install/dev"] "target is busy")), l);
        (CheckCall ["umount"; "-l"; "/install/dev"], a)] ++ rest /\
     commands rest = [] /\
     events rest =
       if is_exit_status_failure a
       then [(warning, Text (PyStr.pct "Unable to umount %s" "/install/dev"))]
       else []).
Proof.
  intros st st1.
  destruct (special_dirs_unmount_order calm_world) as (A & B & _ & _).
  destruct (special_dirs_unmount_order busy_world) as (_ & _ & _ & D).
  split; [|split].
  - apply (A st st1); [reflexivity|vm_compute; reflexivity].
  - apply (B st1 (Ret tt)); vm_compute; reflexivity.
  - apply (D st "/install/dev" ["umount"; "/install/dev"] "target is busy").
    reflexivity.
Defined.

(** ** The fstab builder *)

#[local] Instance same_devices_preorder : PreOrder same_devices.
Proof.
  split.
  - now intros s.
  - intros s1 s2 s3 (A1 & A2 & A3 & A4) (B1 & B2 & B3 & B4).
    repeat split; congruence.
Qed.

Section Fstab.

Variable world : World.

Lemma ask_str_Ret o st u st' :
  ask_str world o st = (Ret u, st') ->
  st' = mkSt (self st) (trace st ++ [(o, Str u)]) /\ world (trace st) o = Str u.
Proof.
  cbv [ask_str perform bind ret raise].
  destruct (world (trace st) o) eqn:E; intros [= <- <-]. now split.
Qed.

Lemma added_to_fstab_Ret all_lines txt st lines' st' :
  added_to_fstab world all_lines txt st = (Ret lines', st') ->
  lines' = all_lines ++ [txt] /\ self st' = self st.
Proof. cbv [added_to_fstab logging perform bind ret]. now intros [= <- <-]. Qed.

(** One turn of the loop leaves the maps, the mode and the SSD keys alone. *)
Lemma fstab_entry_keeps use_luks use_lvm all_lines item :
  adds any_op same_devices no_exit (fstab_entry world use_luks use_lvm all_lines item).
Proof.
  unfold fstab_entry, ask_str, added_to_fstab, append_crypttab, settings_get,
    settings_set, ensure_dir, path_exists, ask, call, logging.
  destruct item as [mount_point partition_path].
  repeat adds_step; try reflexivity; now repeat split.
Qed.

(** What one turn of the loop does with a mount point whose device has a
    file system, when it returns. *)
Lemma fstab_entry_Ret use_luks use_lvm all_lines mount_point partition_path myfmt
    st lines' st' :
  fs_devices (self st) !! partition_path = Some myfmt ->
  fstab_entry world use_luks use_lvm all_lines (mount_point, partition_path) st
  = (Ret lines', st') ->
  exists uuid,
    world (trace st) (GetInfoUUID partition_path) = Str uuid /\
    if PyStr.contains "swap" myfmt
    then lines' = all_lines
                  ++ [swap_line uuid (swap_opts (ssd (self st)) partition_path)]
    else if home_on_luks (self st) use_luks use_lvm mount_point
    then lines' = all_lines
                  ++ [mapped_line "/dev/mapper/cryptAntergosHome" mount_point myfmt]
    else if advanced_luks (self st) use_luks mount_point partition_path
    then lines' = all_lines ++ [mapped_line partition_path mount_point myfmt]
    else if String.eqb mount_point ""
    then lines' = all_lines
    else lines' = all_lines
                  ++ [uuid_line uuid mount_point (fstab_type myfmt)
                        (mount_opts (is_ssd_of (ssd (self st)) partition_path)
                           (fstab_type myfmt))
                        (check_flag mount_point (fstab_type myfmt))].
Proof.
  intros Hfs H. unfold fstab_entry in H. peel H.
  apply ask_str_Ret in H0. destruct H0 as [-> Hw].
  injection H1 as <- <-. cbn [self] in H. rewrite Hfs in H.
  exists a. split; [exact Hw|].
  destruct (PyStr.contains "swap" myfmt).
  { now apply added_to_fstab_Ret in H. }
  cbv zeta in H.
  destruct (home_on_luks (self st) use_luks use_lvm mount_point).
  { peel H. now apply added_to_fstab_Ret in H. }
  destruct (advanced_luks (self st) use_luks mount_point partition_path).
  { peel H. now apply added_to_fstab_Ret in H. }
  peel H.
  destruct (String.eqb mount_point "").
  { now injection H as <-. }
  peel H. now apply added_to_fstab_Ret in H.
Qed.

(** The flag the loop over the SSD keys leaves: some key occurs in the path
    of the partition. *)
Lemma is_ssd_of_spec keys partition_path :
  is_ssd_of keys partition_path = true <->
  exists d, d ∈ keys /\ PyStr.contains d partition_path = true.
Proof.
  unfold is_ssd_of.
  assert (G : forall acc,
             fold_left
               (fun is_ssd ssd_device =>
                  if PyStr.contains ssd_device partition_path then true else is_ssd)
               keys acc = true <->
             acc = true \/ exists d, d ∈ keys /\ PyStr.contains d partition_path = true).
  { induction keys as [|k keys IH]; intros acc; cbn [fold_left].
    - split; [now left|]. intros [H|(d & Hd & _)]; [exact H|].
      now apply not_elem_of_nil in Hd.
    - rewrite IH. split.
      + intros [H|(d & Hd & Hc)].
        * destruct (PyStr.contains k partition_path) eqn:Ek.
          -- right. exists k. split; [apply list_elem_of_here|exact Ek].
          -- now left.
        * right. exists d. split; [now apply list_elem_of_further|exact Hc].
      + intros [H|(d & Hd & Hc)].
        * left. rewrite H. now destruct (PyStr.contains k partition_path).
        * apply elem_of_cons in Hd. destruct Hd as [->|Hd].
          -- left. now rewrite Hc.
          -- right. now exists d. }
  rewrite G. split; [intros [H|H]; [discriminate|exact H]|now right].
Qed.

(** A swap line has [discard] exactly for a partition that is itself a key. *)
Lemma swap_opts_spec keys partition_path :
  (swap_opts keys partition_path = "defaults,discard" <-> partition_path ∈ keys) /\
  (swap_opts keys partition_path = "defaults" <-> partition_path ∉ keys).
Proof.
  unfold swap_opts. destruct (bool_decide_reflect (partition_path ∈ keys)); split; split;
    try discriminate; try easy.
Qed.

Lemma fstab_loop_app use_luks use_lvm items1 items2 : forall all_lines st out st',
  fstab_loop world use_luks use_lvm all_lines (items1 ++ items2) st = (Ret out, st') ->
  exists mid st1,
    fstab_loop world use_luks use_lvm all_lines items1 st = (Ret mid, st1) /\
    fstab_loop world use_luks use_lvm mid items2 st1 = (Ret out, st').
Proof.
  induction items1 as [|item items1 IH]; intros all_lines st out st' H.
  - now exists all_lines, st.
  - cbn [app fstab_loop] in H. peel H.
    apply IH in H. destruct H as (mid & st1 & H1 & H2).
    exists mid, st1. split; [|exact H2].
    cbn [fstab_loop]. now rewrite (bind_Ret _ _ _ _ _ H0).
Qed.

Lemma fstab_loop_keeps use_luks use_lvm items : forall all_lines,
  adds any_op same_devices no_exit (fstab_loop world use_luks use_lvm all_lines items).
Proof.
  induction items as [|item items IH]; intros all_lines; cbn [fstab_loop].
  - apply adds_ret. typeclasses eauto.
  - apply adds_bind; [typeclasses eauto|apply fstab_entry_keeps|intros a; apply IH].
Qed.

(** A mount point whose device has no file system: after the look-up of
    the UUID the turn is over, with the lines as they were. *)
Lemma fstab_entry_skip use_luks use_lvm all_lines mount_point partition_path st u :
  fs_devices (self st) !! partition_path = None ->
  world (trace st) (GetInfoUUID partition_path) = Str u ->
  fstab_entry world use_luks use_lvm all_lines (mount_point, partition_path) st =
  (Ret all_lines, mkSt (self st) (trace st ++ [(GetInfoUUID partition_path, Str u)])).
Proof.
  intros Hfs Hw. cbv [fstab_entry ask_str perform bind get_self ret].
  rewrite Hw. cbn [self]. now rewrite Hfs.
Qed.

Lemma fstab_entry_skip_inv use_luks use_lvm all_lines mount_point partition_path
    st lines' st' :
  fs_devices (self st) !! partition_path = None ->
  fstab_entry world use_luks use_lvm all_lines (mount_point, partition_path) st
  = (Ret lines', st') ->
  exists u,
    lines' = all_lines /\
    st' = mkSt (self st) (trace st ++ [(GetInfoUUID partition_path, Str u)]).
Proof.
  intros Hfs H. unfold fstab_entry in H. peel H.
  apply ask_str_Ret in H0. destruct H0 as [-> _].
  injection H1 as <- <-. cbn [self] in H. rewrite Hfs in H.
  injection H as <- <-. now exists a.
Qed.

End Fstab.

(** C9, as stated, fails: the mount point is left out and no error is
    raised, but nothing is logged or queued as a warning for it.  Here /data
    lies on /dev/sdb1, which has no file system. *)
Lemma skipped_mount_point_gets_no_warning :
  let run := auto_fstab calm_world (fresh orphan_installer) in
  run.1 = Ret tt /\
  ~ (exists x, In x (trace run.2) /\ is_warning x = true).
Proof.
  split; [vm_compute; reflexivity|].
  intros (x & Hin & Hx).
  assert (W : warnings (trace (auto_fstab calm_world (fresh orphan_installer)).2) = [])
    by (vm_compute; reflexivity).
  assert (Hf : In x (warnings (trace (auto_fstab calm_world (fresh orphan_installer)).2)))
    by (apply List.filter_In; now split).
  rewrite W in Hf. exact Hf.
Qed.

(** C9, amended -- For every DeviceMap/FilesystemMap pair, a mount point
    whose device has no entry in FilesystemMap is excluded from the generated
    fstab: once the look-up of the UUID of its partition has returned, its
    turn of the loop returns the lines as they were, raises nothing, and
    neither logs nor queues anything (no warning); the loop goes on with the
    mount points that follow as if it had not been there. *)
Theorem filesystemless_mount_point_is_skipped
    (world : World) (use_luks use_lvm : pyval) (mount_point partition_path : string)
    (st : St) :
  fs_devices (self st) !! partition_path = None ->
  (forall all_lines u,
     world (trace st) (GetInfoUUID partition_path) = Str u ->
     fstab_entry world use_luks use_lvm all_lines (mount_point, partition_path) st =
     (Ret all_lines, mkSt (self st) (trace st ++ [(GetInfoUUID partition_path, Str u)]))) /\
  (forall all_lines items1 items2 out st',
     fstab_loop world use_luks use_lvm all_lines
       (items1 ++ (mount_point, partition_path) :: items2) st = (Ret out, st') ->
     exists mid st1 u,
       fstab_loop world use_luks use_lvm all_lines items1 st = (Ret mid, st1) /\
       fstab_loop world use_luks use_lvm mid items2
         (mkSt (self st1) (trace st1 ++ [(GetInfoUUID partition_path, Str u)]))
       = (Ret out, st')).
Proof.
  intros Hfs. split.
  - intros all_lines u Hw. now apply fstab_entry_skip.
  - intros all_lines items1 items2 out st' H.
    apply fstab_loop_app in H. destruct H as (mid & st1 & H1 & H2).
    destruct (fstab_loop_keeps world use_luks use_lvm items1 all_lines _ _ _ H1)
      as ((K & _) & _).
    cbn [fstab_loop] in H2. peel H2.
    apply fstab_entry_skip_inv in H; [|now rewrite K].
    destruct H as (u & -> & ->). now exists mid, st1, u.
Qed.

Lemma filesystemless_mount_point_is_skipped_witness :
  let st := fresh orphan_installer in
  let run := fstab_loop calm_world PyNone PyNone fstab_header
               [("/", "/dev/sda2"); ("/data", "/dev/sdb1")] st in
  fstab_entry calm_world PyNone PyNone fstab_header ("/data", "/dev/sdb1") st =
  (Ret fstab_header, mkSt orphan_installer
                       ([] ++ [(GetInfoUUID "/dev/sdb1", Str "uuid:/dev/sdb1")])) /\
  exists mid st1 u,
    fstab_loop calm_world PyNone PyNone fstab_header [("/", "/dev/sda2")] st
    = (Ret mid, st1) /\
    fstab_loop calm_world PyNone PyNone mid []
      (mkSt (self st1) (trace st1 ++ [(GetInfoUUID "/dev/sdb1", Str u)]))
    = (Ret (res_value fstab_header run.1), run.2).
Proof.
  intros st run.
  destruct (filesystemless_mount_point_is_skipped calm_world PyNone PyNone
              "/data" "/dev/sdb1" st eq_refl) as [A B].
  split.
  - apply A. reflexivity.
  - apply (B fstab_header [("/", "/dev/sda2")] []). vm_compute. reflexivity.
Defined.

(** C10, as stated, fails for the entries that do not go through the table
    of mount options: home on LUKS (automatic installation) on a partition
    that is an SSD key is written with the options [defaults]. *)
Lemma luks_home_on_ssd_gets_plain_defaults :
  let run := fstab_lines calm_world (fresh luks_home_installer) in
  run.1 = Ret (fstab_header
               ++ ["/dev/mapper/cryptAntergosHome /home ext4 defaults 0 0"; tmpfs_line]) /\
  (exists d, d ∈ ssd luks_home_installer /\ PyStr.contains d "/dev/sda4" = true) /\
  ~ (exists uuid chk,
       In (uuid_line uuid "/home" "ext4" (mount_opts true "ext4") chk)
          (res_value [] run.1)).
Proof.
  split; [vm_compute; reflexivity|]. split.
  - exists "/dev/sda4". split; [apply list_elem_of_here|reflexivity].
  - intros (uuid & chk & H).
    assert (E : res_value [] (fstab_lines calm_world (fresh luks_home_installer)).1
                = fstab_header
                  ++ ["/dev/mapper/cryptAntergosHome /home ext4 defaults 0 0"; tmpfs_line])
      by (vm_compute; reflexivity).
    rewrite E in H. cbn in H.
    repeat (destruct H as [H|H]; [discriminate H|]). exact H.
Qed.

(** C10, amended -- The SSD classification of the fstab builder is not the
    same for swap and for the other entries.  A swap line has the option
    [discard] exactly when the path of its partition is itself a key of the
    SSD dictionary.  An entry that goes through the table of mount options
    (no swap, not one of the LUKS entries written with [defaults], a mount
    point that is not empty) takes its options from the SSD column exactly
    when some key occurs in the path of its partition: the key /dev/sda
    makes /dev/sda2 an SSD partition, and leaves a swap on /dev/sda2 with
    [defaults]. *)
Theorem ssd_classification_is_asymmetric
    (world : World) (use_luks use_lvm : pyval) (all_lines : list string)
    (mount_point partition_path myfmt : string) (st : St)
    (lines' : list string) (st' : St) :
  fs_devices (self st) !! partition_path = Some myfmt ->
  fstab_entry world use_luks use_lvm all_lines (mount_point, partition_path) st
  = (Ret lines', st') ->
  let keys := ssd (self st) in
  (exists uuid,
     if PyStr.contains "swap" myfmt
     then lines' = all_lines
                   ++ [swap_line uuid
                         (if bool_decide (partition_path ∈ keys)
                          then "defaults,discard" else "defaults")]
     else if home_on_luks (self st) use_luks use_lvm mount_point
     then lines' = all_lines
                   ++ [mapped_line "/dev/mapper/cryptAntergosHome" mount_point myfmt]
     else if advanced_luks (self st) use_luks mount_point partition_path
     then lines' = all_lines ++ [mapped_line partition_path mount_point myfmt]
     else if String.eqb mount_point ""
     then lines' = all_lines
     else lines' = all_lines
                   ++ [uuid_line uuid mount_point (fstab_type myfmt)
                         (mount_opts (is_ssd_of keys partition_path) (fstab_type myfmt))
                         (check_flag mount_point (fstab_type myfmt))]) /\
  (is_ssd_of keys partition_path = true <->
   exists d, d ∈ keys /\ PyStr.contains d partition_path = true) /\
  (is_ssd_of ["/dev/sda"] "/dev/sda2" = true /\
   swap_opts ["/dev/sda"] "/dev/sda2" = "defaults").
Proof.
  intros Hfs H keys. split; [|split; [apply is_ssd_of_spec|now split]].
  destruct (fstab_entry_Ret world _ _ _ _ _ _ _ _ _ Hfs H) as (uuid & _ & E).
  now exists uuid.
Qed.

Lemma ssd_classification_is_asymmetric_witness :
  let st := fresh ssd_disk_installer in
  let run := fstab_entry calm_world PyNone PyNone [] ("/", "/dev/sda2") st in
  (exists uuid,
     res_value [] run.1 =
     [] ++ [uuid_line uuid "/" "ext4" "defaults,rw,noatime,discard" "1"]) /\
  (is_ssd_of ["/dev/sda"] "/dev/sda2" = true <->
   exists d, d ∈ ["/dev/sda"] /\ PyStr.contains d "/dev/sda2" = true).
Proof.
  intros st run.
  destruct (ssd_classification_is_asymmetric calm_world PyNone PyNone []
              "/" "/dev/sda2" "ext4" st (res_value [] run.1) run.2)
    as (A & B & _).
  - reflexivity.
  - vm_compute. reflexivity.
  - split; [|exact B]. destruct A as [uuid A]. exists uuid. exact A.
Defined.

(** ** Computations that return *)

Section Returns.

Variable world : World.
Hypothesis calm : peaceful world.

Lemma returns_ret {A} (a : A) : returns (ret a).
Proof. intros st. now exists a, st. Qed.

Lemma returns_bind {A B} (m : M A) (f : A -> M B) :
  returns m -> (forall a, returns (f a)) -> returns (bind m f).
Proof.
  intros Hm Hf st. destruct (Hm st) as (a & st1 & E).
  rewrite (bind_Ret _ _ _ _ _ E). apply Hf.
Qed.

Lemma returns_get_self : returns get_self.
Proof. intros st. now exists (self st), st. Qed.

Lemma returns_set_self f : returns (set_self f).
Proof. intros st. now eexists _, _. Qed.

Lemma returns_perform o : returns (perform world o).
Proof. intros st. now eexists _, _. Qed.

Lemma returns_call o : returns (call world o).
Proof.
  intros st. cbv [call perform bind ret raise].
  destruct (world (trace st) o) eqn:E; try (now eexists _, _).
  now apply (proj1 calm) in E.
Qed.

Lemma returns_ask o : returns (ask world o).
Proof.
  intros st. cbv [ask perform bind ret raise].
  destruct (world (trace st) o) eqn:E; try (now eexists _, _).
  now apply (proj1 calm) in E.
Qed.

Lemma returns_uuid p : returns (ask_str world (GetInfoUUID p)).
Proof.
  intros st. cbv [ask_str perform bind ret raise].
  destruct (proj2 calm (trace st) p) as [u ->]. now eexists _, _.
Qed.

Lemma returns_logging l msg : returns (logging world l msg).
Proof. intros st. now eexists _, _. Qed.

Lemma returns_settings_get key : returns (settings_get key).
Proof. intros st. now eexists _, _. Qed.

Lemma returns_when b (m : M unit) : returns m -> returns (when b m).
Proof. intros Hm. destruct b; [exact Hm|apply returns_ret]. Qed.

End Returns.

(** Take a computation apart, as [adds_op] does, to see that it returns. *)
Ltac returns_step :=
  match goal with
  | |- forall _, _ => intros ?
  | |- returns (ret _) => apply returns_ret
  | |- returns get_self => apply returns_get_self
  | |- returns (set_self _) => apply returns_set_self
  | |- returns (settings_get _) => apply returns_settings_get
  | |- returns (settings_set _ _) => apply returns_set_self
  | |- returns (bind _ _) => apply returns_bind
  | |- returns (when _ _) => apply returns_when
  | |- returns (call _ _) => apply returns_call; assumption
  | |- returns (ask _ _) => apply returns_ask; assumption
  | |- returns (path_exists _ _) => apply returns_ask; assumption
  | |- returns (ask_str _ (GetInfoUUID _)) => apply returns_uuid; assumption
  | |- returns (logging _ _ _) => apply returns_logging
  | |- returns (match ?x with _ => _ end) => destruct x
  | |- returns (let '(_, _) := ?x in _) => destruct x
  end.

Section FstabReturns.

Variable world : World.
Hypothesis calm : peaceful world.

Lemma fstab_loop_returns use_luks use_lvm items : forall all_lines,
  returns (fstab_loop world use_luks use_lvm all_lines items).
Proof.
  induction items as [|item items IH]; intros all_lines; cbn [fstab_loop].
  - apply returns_ret.
  - apply returns_bind; [|intros a; apply IH].
    unfold fstab_entry, added_to_fstab, append_crypttab, ensure_dir.
    repeat returns_step.
Qed.

(** In an environment in which nothing fails the fstab is written. *)
Lemma auto_fstab_returns : returns (auto_fstab world).
Proof.
  unfold auto_fstab, fstab_lines, added_to_fstab.
  repeat first [apply fstab_loop_returns; assumption | returns_step].
Qed.

End FstabReturns.

Section FstabScenario.

Variable world : World.

Lemma home_on_luks_elsewhere s use_luks use_lvm mount_point :
  PyStr.contains "/home" mount_point = false ->
  home_on_luks s use_luks use_lvm mount_point = false.
Proof. intros H. unfold home_on_luks. now rewrite H. Qed.

Lemma advanced_luks_unmapped s use_luks mount_point partition_path :
  PyStr.contains "/dev/mapper" partition_path = false ->
  advanced_luks s use_luks mount_point partition_path = false.
Proof. intros H. unfold advanced_luks. rewrite H. now rewrite !andb_false_r. Qed.

(** A turn of the loop for a plain partition: no swap, no LUKS. *)
Lemma fstab_entry_plain use_luks use_lvm all_lines mount_point partition_path myfmt
    st lines' st' :
  fs_devices (self st) !! partition_path = Some myfmt ->
  PyStr.contains "swap" myfmt = false ->
  PyStr.contains "/home" mount_point = false ->
  PyStr.contains "/dev/mapper" partition_path = false ->
  String.eqb mount_point "" = false ->
  fstab_entry world use_luks use_lvm all_lines (mount_point, partition_path) st
  = (Ret lines', st') ->
  exists uuid,
    lines' = all_lines
             ++ [uuid_line uuid mount_point (fstab_type myfmt)
                   (mount_opts (is_ssd_of (ssd (self st)) partition_path)
                      (fstab_type myfmt))
                   (check_flag mount_point (fstab_type myfmt))].
Proof.
  intros Hfs Hs Hh Hm He H.
  destruct (fstab_entry_Ret world _ _ _ _ _ _ _ _ _ Hfs H) as (uuid & _ & E).
  rewrite Hs, (home_on_luks_elsewhere _ _ _ _ Hh),
    (advanced_luks_unmapped _ _ _ _ Hm), He in E.
  now exists uuid.
Qed.

Lemma fstab_entry_swap use_luks use_lvm all_lines mount_point partition_path myfmt
    st lines' st' :
  fs_devices (self st) !! partition_path = Some myfmt ->
  PyStr.contains "swap" myfmt = true ->
  fstab_entry world use_luks use_lvm all_lines (mount_point, partition_path) st
  = (Ret lines', st') ->
  exists uuid,
    lines' = all_lines ++ [swap_line uuid (swap_opts (ssd (self st)) partition_path)].
Proof.
  intros Hfs Hs H.
  destruct (fstab_entry_Ret world _ _ _ _ _ _ _ _ _ Hfs H) as (uuid & _ & E).
  rewrite Hs in E. now exists uuid.
Qed.

(** The lines of the fstab of the scenario. *)
Lemma scenario_fstab_lines st lines st' :
  mount_devices (self st) = scenario_devices ->
  fs_devices (self st) = scenario_filesystems ->
  ssd (self st) = [] ->
  fstab_lines world st = (Ret lines, st') ->
  exists u1 u2 u3,
    lines = fstab_header
            ++ [uuid_line u1 "/" "ext4" "defaults,rw,relatime,data=ordered" "1";
                uuid_line u2 "/boot" "ext4" "defaults,rw,relatime,data=ordered" "0";
                swap_line u3 "defaults";
                tmpfs_line].
Proof.
  intros Hmd Hfd Hssd H. unfold fstab_lines in H. peel H.
  injection H0 as <- <-. injection H1 as <- <-. injection H2 as <- <-.
  rewrite Hmd in H3. unfold scenario_devices in H3. cbn [fstab_loop] in H3.
  peel H3. injection H3 as <- <-.
  pose proof (fstab_entry_keeps world _ _ _ _ _ _ _ H0) as ((K1 & S1 & _) & _).
  pose proof (fstab_entry_keeps world _ _ _ _ _ _ _ H1) as ((K2 & S2 & _) & _).
  apply fstab_entry_plain with (myfmt := "ext4") in H0;
    [|rewrite Hfd; reflexivity|reflexivity..].
  apply fstab_entry_plain with (myfmt := "ext4") in H1;
    [|rewrite K1, Hfd; reflexivity|reflexivity..].
  apply fstab_entry_swap with (myfmt := "swap") in H2;
    [|rewrite K2, K1, Hfd; reflexivity|reflexivity].
  destruct H0 as [u1 ->]. destruct H1 as [u2 ->]. destruct H2 as [u3 ->].
  rewrite S2, !S1, !Hssd in H.
  apply added_to_fstab_Ret in H. destruct H as [-> _].
  exists u1, u2, u3. now rewrite <- !app_assoc.
Qed.

End FstabScenario.

(** The tmpfs line closes the lines of every fstab. *)
Lemma fstab_ends_with_tmpfs (world : World) st lines st' :
  fstab_lines world st = (Ret lines, st') -> last lines = Some tmpfs_line.
Proof.
  unfold fstab_lines. intros H. peel H.
  apply added_to_fstab_Ret in H. destruct H as [-> _]. apply last_snoc.
Qed.

(** C8 -- For the DeviceMap [/ -> /dev/sda2, /boot -> /dev/sda1,
    swap -> /dev/sda3], the FilesystemMap [/dev/sda2 -> ext4,
    /dev/sda1 -> ext4, /dev/sda3 -> swap] and no SSD key, the fstab is
    written when nothing fails in the environment, and the fstab that is
    written has a swap line with the options [defaults], a line for / with
    options that contain [data=ordered] and the check flag 1, and ends with
    the tmpfs line, which closes every fstab whatever the maps are. *)
Theorem scenario_fstab (world : World) (st : St) :
  mount_devices (self st) = scenario_devices ->
  fs_devices (self st) = scenario_filesystems ->
  ssd (self st) = [] ->
  (peaceful world -> exists st', auto_fstab world st = (Ret tt, st')) /\
  (forall st',
     auto_fstab world st = (Ret tt, st') ->
     exists u1 u2 u3 a,
       let root_opts := "defaults,rw,relatime,data=ordered" in
       let lines :=
         fstab_header
         ++ [uuid_line u1 "/" "ext4" root_opts "1";
             uuid_line u2 "/boot" "ext4" root_opts "0";
             swap_line u3 "defaults";
             tmpfs_line] in
       In (WriteFile "/install/etc/fstab" (PyStr.join newline lines +:+ newline), a)
          (trace st') /\
       In (swap_line u3 "defaults") lines /\
       In (uuid_line u1 "/" "ext4" root_opts "1") lines /\
       PyStr.contains "data=ordered" root_opts = true /\
       last lines = Some tmpfs_line) /\
  (forall st0 lines0 st0',
     fstab_lines world st0 = (Ret lines0, st0') -> last lines0 = Some tmpfs_line).
Proof.
  intros Hmd Hfd Hssd. split; [|split; [|apply fstab_ends_with_tmpfs]].
  { intros calm. destruct (auto_fstab_returns world calm st) as ([] & st' & E).
    now exists st'. }
  intros st' H.
  unfold auto_fstab in H. peel H.
  apply scenario_fstab_lines in H0; [|assumption..].
  destruct H0 as (u1 & u2 & u3 & ->).
  apply call_Ret in H1. destruct H1 as [a ->].
  rewrite logging_eq in H. injection H as <-. cbn [trace self].
  exists u1, u2, u3, a.
  cbv zeta. split; [|split; [|split; [|split]]].
  - apply in_or_app. left. apply in_or_app. right. now left.
  - apply in_or_app. right. cbn. tauto.
  - apply in_or_app. right. cbn. tauto.
  - reflexivity.
  - reflexivity.
Qed.

Lemma calm_world_is_peaceful : peaceful calm_world.
Proof.
  split.
  - intros tr o e. destruct o; try discriminate. cbn.
    repeat match goal with
           | |- context [if ?b then _ else _] => destruct b
           end; discriminate.
  - intros tr p. now eexists.
Qed.

Lemma scenario_fstab_witness :
  exists st' u1 u2 u3 a,
    let root_opts := "defaults,rw,relatime,data=ordered" in
    let lines :=
      fstab_header
      ++ [uuid_line u1 "/" "ext4" root_opts "1";
          uuid_line u2 "/boot" "ext4" root_opts "0";
          swap_line u3 "defaults";
          tmpfs_line] in
    auto_fstab calm_world (fresh scenario_installer) = (Ret tt, st') /\
    In (WriteFile "/install/etc/fstab" (PyStr.join newline lines +:+ newline), a)
       (trace st') /\
    In (swap_line u3 "defaults") lines /\
    In (uuid_line u1 "/" "ext4" root_opts "1") lines /\
    PyStr.contains "data=ordered" root_opts = true /\
    last lines = Some tmpfs_line.
Proof.
  destruct (scenario_fstab calm_world (fresh scenario_installer)
              eq_refl eq_refl eq_refl) as (A & B & _).
  destruct (A calm_world_is_peaceful) as [st' E].
  destruct (B st' E) as (u1 & u2 & u3 & a & H).
  exists st', u1, u2, u3, a. cbv zeta in *. split; [exact E|exact H].
Defined.

(** ** The special directories are mounted once *)

Section MountedOnce.

Variable world : World.

(** A call that finds the flag down and returns has run the mounts, each
    once and in order, and has raised the flag. *)
Lemma mount_commands_run st st1 :
  special_dirs_mounted (self st) = false ->
  chroot_mount_special_dirs world st = (Ret tt, st1) ->
  self st1 = set_special_dirs_mounted true (self st) /\
  exists new,
    trace st1 = trace st ++ new /\
    commands new = mount_commands (dest_dir (self st)) (efi_of (self st)).
Proof.
  intros F H. unfold chroot_mount_special_dirs in H. peel H.
  injection H0 as <- <-. rewrite F in H. peel H.
  apply ensure_dirs_quiet in H0. destruct H0 as (S0 & (n0 & T0 & F0) & _).
  apply no_command_added in F0. destruct F0 as (F0 & _ & _).
  cbv zeta in *.
  repeat match goal with
         | H : bind _ _ _ = (Ret _, _) |- _ => peel H
         | H : check_call _ _ _ = (Ret _, _) |- _ =>
             apply check_call_Ret in H; destruct H as [? ->]
         end.
  match goal with
  | Hx : settings_get _ _ = _ |- _ => injection Hx as <- <-
  end.
  injection H as <-. cbn [self trace] in *.
  assert (E : efi_of (self st) = truthy (default PyNone (settings (self s) !! "efi")))
    by now rewrite <- S0.
  match goal with
  | Hx : when _ _ _ = _ |- _ => rewrite <- E in Hx; rename Hx into Hw
  end.
  unfold mount_commands.
  destruct (efi_of (self st)); cbn [when] in Hw.
  - apply check_call_Ret in Hw. destruct Hw as [? ->]. cbn [self trace].
    split; [now rewrite <- S0|]. eexists.
    split; [rewrite T0, <- !app_assoc; reflexivity|].
    rewrite !commands_app, F0. reflexivity.
  - injection Hw as _ <-. cbn [self trace].
    split; [now rewrite <- S0|]. eexists.
    split; [rewrite T0, <- !app_assoc; reflexivity|].
    rewrite !commands_app, F0. reflexivity.
Qed.

(** An unmount that returns leaves the flag down. *)
Lemma umount_clears_flag st st' :
  chroot_umount_special_dirs world st = (Ret tt, st') ->
  special_dirs_mounted (self st') = false.
Proof.
  unfold chroot_umount_special_dirs. intros H. peel H. injection H0 as <- <-.
  destruct (special_dirs_mounted (self st)) eqn:F; cbn [negb] in H.
  - peel H. now injection H as <-.
  - rewrite queue_event_eq in H. now injection H as <-.
Qed.

End MountedOnce.

Section MountReturns.

Variable world : World.
Hypothesis calm : peaceful world.

Lemma returns_for_each {A} (l : list A) (body : A -> M unit) :
  (forall x, returns (body x)) -> returns (for_each l body).
Proof.
  intros Hb. induction l as [|x l IH]; cbn [for_each].
  - apply returns_ret.
  - apply returns_bind; [apply Hb|intros _; exact IH].
Qed.

Lemma returns_queue_event k p : returns (queue_event world k p).
Proof. intros st. rewrite queue_event_eq. now eexists _, _. Qed.

(** In an environment in which nothing fails the mount returns. *)
Lemma chroot_mount_special_dirs_returns : returns (chroot_mount_special_dirs world).
Proof.
  unfold chroot_mount_special_dirs, check_call.
  repeat first [apply returns_queue_event | apply returns_for_each | returns_step].
Qed.

End MountReturns.

(** C7 -- Mounting and unmounting the special directories is idempotent
    through the flag [special_dirs_mounted].  A call of
    [chroot_mount_special_dirs] that finds the flag down and returns has run
    the mounts (and their [chmod]), each exactly once and in order, and has
    raised the flag; in an environment in which nothing fails it returns.
    Whenever the flag is up, so in a second call, the method runs no command:
    it only emits the [debug] event that says the directories are mounted,
    and leaves the installer as it is.  [chroot_umount_special_dirs], called
    when nothing is mounted, runs no command either: it only emits the
    [debug] event that says it skips; and an unmount that returns leaves the
    flag down, so that the next one skips. *)
Theorem special_dirs_are_mounted_once (world : World) (st : St) :
  special_dirs_mounted (self st) = false ->
  (forall st1,
     chroot_mount_special_dirs world st = (Ret tt, st1) ->
     self st1 = set_special_dirs_mounted true (self st) /\
     (exists new,
        trace st1 = trace st ++ new /\
        commands new = mount_commands (dest_dir (self st)) (efi_of (self st))) /\
     exists a,
       chroot_mount_special_dirs world st1 =
       (Ret tt,
        mkSt (self st1)
          (trace st1
           ++ [(emit_op (self st1) debug (Text "Special dirs already mounted."), a)]))) /\
  (peaceful world -> exists st1, chroot_mount_special_dirs world st = (Ret tt, st1)) /\
  (forall s,
     special_dirs_mounted (self s) = true ->
     let ev := emit_op (self s) debug (Text "Special dirs already mounted.") in
     chroot_mount_special_dirs world s =
     (Ret tt, mkSt (self s) (trace s ++ [(ev, world (trace s) ev)])) /\
     commands [(ev, world (trace s) ev)] = []) /\
  (let ev := emit_op (self st) debug (Text "Special dirs are not mounted. Skipping.") in
   chroot_umount_special_dirs world st =
   (Ret tt, mkSt (self st) (trace st ++ [(ev, world (trace st) ev)])) /\
   commands [(ev, world (trace st) ev)] = []) /\
  (forall s s',
     chroot_umount_special_dirs world s = (Ret tt, s') ->
     special_dirs_mounted (self s') = false).
Proof.
  intros F.
  assert (Skip : forall s,
             special_dirs_mounted (self s) = true ->
             let ev := emit_op (self s) debug (Text "Special dirs already mounted.") in
             chroot_mount_special_dirs world s =
             (Ret tt, mkSt (self s) (trace s ++ [(ev, world (trace s) ev)])) /\
             commands [(ev, world (trace s) ev)] = []).
  { intros s Fs ev. rewrite (mount_when_mounted world s Fs), queue_event_eq.
    split; [reflexivity|]. unfold ev, emit_op, commands.
    now destruct (callback_queue (self s)). }
  split; [|split; [|split; [|split]]].
  - intros st1 H.
    destruct (mount_commands_run world st st1 F H) as (S1 & N1).
    split; [exact S1|]. split; [exact N1|].
    assert (F1 : special_dirs_mounted (self st1) = true) by now rewrite S1.
    eexists. exact (proj1 (Skip st1 F1)).
  - intros calm. destruct (chroot_mount_special_dirs_returns world calm st) as ([] & st1 & E).
    now exists st1.
  - exact Skip.
  - intros ev. rewrite (umount_when_not_mounted world st F), queue_event_eq.
    split; [reflexivity|]. unfold ev, emit_op, commands.
    now destruct (callback_queue (self st)).
  - intros s s'. apply umount_clears_flag.
Qed.

Lemma special_dirs_are_mounted_once_witness :
  let st := fresh target_installer in
  let st1 := (chroot_mount_special_dirs calm_world st).2 in
  chroot_mount_special_dirs calm_world st = (Ret tt, st1) /\
  commands (trace st1) =
    [["mount"; "-t"; "sysfs"; "/sys"; "/install/sys"];
     ["chmod"; "555"; "/install/sys"];
     ["mount"; "-t"; "proc"; "/proc"; "/install/proc"];
     ["chmod"; "555"; "/install/proc"];
     ["mount"; "-o"; "bind"; "/dev"; "/install/dev"];
     ["mount"; "-t"; "devpts"; "/dev/pts"; "/install/dev/pts"];
     ["chmod"; "555"; "/install/dev/pts"]] /\
  special_dirs_mounted (self st1) = true /\
  commands (trace (chroot_mount_special_dirs calm_world st1).2) = commands (trace st1) /\
  commands (trace (chroot_umount_special_dirs calm_world st).2) = [].
Proof.
  intros st st1.
  assert (E : chroot_mount_special_dirs calm_world st = (Ret tt, st1))
    by (vm_compute; reflexivity).
  destruct (special_dirs_are_mounted_once calm_world st eq_refl)
    as (A & _ & _ & (U & _) & _).
  destruct (A st1 E) as (S1 & (new & T & C) & (a & E2)).
  split; [exact E|].
  split; [cbn [fresh trace app] in T; rewrite T; exact C|].
  split; [now rewrite S1|].
  split.
  - rewrite E2. cbn [snd trace]. rewrite commands_app. unfold emit_op.
    destruct (callback_queue (self st1)); cbn; now rewrite app_nil_r.
  - cbv zeta in U. rewrite U. reflexivity.
Defined.

(** ** The pipeline *)

#[local] Instance any_self_preorder : PreOrder any_self.
Proof. split; [now intros s|now intros s1 s2 s3 _ _]. Qed.

#[local] Instance same_queue_preorder : PreOrder same_queue.
Proof.
  split.
  - now intros s.
  - intros s1 s2 s3 (A1 & A2 & A3 & A4) (B1 & B2 & B3 & B4). repeat split; congruence.
Qed.

Section Operations.

Variable world : World.
Variable c : op -> bool.
Variable R : relation Installer.
Variable X : Installer -> Prop.
Context `{!PreOrder R}.

Lemma adds_call o : c o = false -> adds c R X (call world o).
Proof. intros Ho. unfold call. repeat adds_step; exact Ho. Qed.

Lemma adds_ask o : c o = false -> adds c R X (ask world o).
Proof. intros Ho. unfold ask. repeat adds_step; exact Ho. Qed.

Lemma adds_ask_str o : c o = false -> adds c R X (ask_str world o).
Proof. intros Ho. unfold ask_str. repeat adds_step; exact Ho. Qed.

Lemma adds_ask_text o : c o = false -> adds c R X (ask_text world o).
Proof. intros Ho. unfold ask_text. repeat adds_step; exact Ho. Qed.

Lemma adds_logging l msg : c (Logging l msg) = false -> adds c R X (logging world l msg).
Proof. intros Ho. unfold logging. repeat adds_step; exact Ho. Qed.

Lemma adds_queue_event k p :
  c (PutNowait k p) = false -> c (PrintEvent k p) = false ->
  adds c R X (queue_event world k p).
Proof. intros H1 H2. unfold queue_event. repeat adds_step; assumption. Qed.

Lemma adds_settings_get key : adds c R X (settings_get key).
Proof. unfold settings_get. repeat adds_step. Qed.

End Operations.

(** As [adds_step], with the operations of the model as units. *)
Ltac adds_op :=
  match goal with
  | |- adds _ _ _ (call _ _) => apply adds_call
  | |- adds _ _ _ (check_call _ _) => apply adds_call
  | |- adds _ _ _ (extern _ _ _) => apply adds_call
  | |- adds _ _ _ (chroot_run _ _) => apply adds_call
  | |- adds _ _ _ (ask _ _) => apply adds_ask
  | |- adds _ _ _ (path_exists _ _) => apply adds_ask
  | |- adds _ _ _ (ask_str _ _) => apply adds_ask_str
  | |- adds _ _ _ (count_files _ _) => apply adds_ask_str
  | |- adds _ _ _ (ask_text _ _) => apply adds_ask_text
  | |- adds _ _ _ (logging _ _ _) => apply adds_logging
  | |- adds _ _ _ (queue_event _ _ _) => apply adds_queue_event
  | |- adds _ _ _ (settings_get _) => apply adds_settings_get
  | _ => adds_step
  end.

Ltac adds_auto :=
  repeat adds_op;
  try reflexivity; try exact I; try (now repeat split).

(** *** No stage runs a step of the cleanup *)

Section Quiet.

Variable world : World.
Variable X : Installer -> Prop.







End Quiet.

Section QuietStages.

Variable world : World.




End QuietStages.

Section Cleanup.

Variable world : World.


Lemma cleanup_sequence_app tr1 tr2 :
  cleanup_sequence (tr1 ++ tr2) = cleanup_sequence tr1 ++ cleanup_sequence tr2.
Proof. apply omap_app. Qed.


Lemma bind_inv_Raise {A B} (m : M A) (f : A -> M B) st e st' :
  bind m f st = (Raise e, st') ->
  m st = (Raise e, st') \/
  exists a st1, m st = (Ret a, st1) /\ f a st1 = (Raise e, st').
Proof.
  unfold bind. destruct (m st) as [[a|e0|code] st1]; intros H.
  - right. now exists a, st1.
  - left. now injection H as <- <-.
  - discriminate H.
Qed.

Lemma check_call_Raise argv st e st' :
  check_call world argv st = (Raise e, st') ->
  st' = mkSt (self st) (trace st ++ [(CheckCall argv, Raised e)]).
Proof.
  cbv [check_call call perform bind ret raise].
  destruct (world (trace st) (CheckCall argv)) eqn:E; intros [= <- <-]; reflexivity.
Qed.

Lemma ask_Ret o st b st' :
  ask world o st = (Ret b, st') ->
  exists a, st' = mkSt (self st) (trace st ++ [(o, a)]).
Proof.
  cbv [ask perform bind ret raise].
  destruct (world (trace st) o) eqn:E; intros [= _ <-]; eauto.
Qed.

(** The cleanup raises at its first statement: no step of it is run. *)
Lemma finalize_cleanup_raises st :
  finalize_cleanup world st = (Raise (OtherException "NameError"), st).
Proof. reflexivity. Qed.

(** The branch of [all_ok] is the copy of the log, and then the NameError
    of the cleanup. *)
Lemma finish_eq st :
  finish world st =
  (copy_log world ;; raise (OtherException "NameError")) st.
Proof.
  unfold finish, bind. now destruct (copy_log world st) as [[[]|e|code] st1].
Qed.

End Cleanup.

Section Run.

Variable world : World.

(** A recognised failure of a stage ends in the fatal event, which does
    not return: [all_ok] is never false. *)
Lemma on_stage_failure_not_false e st st' :
  on_stage_failure world e st <> (Ret false, st').
Proof.
  intros H. destruct e as [cmd out|value|class]; cbn [on_stage_failure] in H.
  - peel H. destruct a0. now apply queue_fatal_event_no_return in H1.
  - peel H. destruct a0. now apply queue_fatal_event_no_return in H1.
  - apply try_except_inv_Ret in H. destruct H as [H|(e & s1 & Hb & _ & _)].
    + peel H. discriminate H.
    + rewrite (bind_Ret _ _ _ _ _ (logging_eq world _ _ _)) in Hb. discriminate Hb.
Qed.

Lemma attempt_stages_not_false st st' :
  attempt_stages world st <> (Ret false, st').
Proof.
  intros H. unfold attempt_stages in H.
  apply try_except_inv_Ret in H. destruct H as [H|(e & s1 & _ & _ & H)].
  - peel H. discriminate H.
  - now apply on_stage_failure_not_false in H.
Qed.

(** The run, without the branch that is never taken. *)
Lemma run_installation_eq st :
  run_installation world st =
  (prepare world ;; _ <- attempt_stages world ;; finish world) st.
Proof.
  unfold run_installation, bind.
  destruct (prepare world st) as [[[]|e|code] s0]; try reflexivity.
  destruct (attempt_stages world s0) as [[[|]|e|code] s1] eqn:E; try reflexivity.
  now apply attempt_stages_not_false in E.
Qed.





(** No run returns. *)
Lemma run_installation_no_return st b st' :
  run_installation world st <> (Ret b, st').
Proof.
  rewrite run_installation_eq. intros H. peel H.
  rewrite finish_eq in H. peel H. discriminate H.
Qed.

End Run.

(** ** The fatal abort *)

Section FatalAbort.

Variable world : World.

Lemma error_events_app tr1 tr2 :
  error_events (tr1 ++ tr2) = error_events tr1 ++ error_events tr2.
Proof. unfold error_events. now rewrite events_app, List.filter_app. Qed.

Lemma no_error_no_special_mount new :
  Forall (fun x : step => is_error_or_special_mount x.1 = false) new ->
  special_mounts new = [] /\ error_events new = [].
Proof.
  induction 1 as [|[o a] new Ho _ [I1 I2]]; [easy|].
  change ((o, a) :: new) with ([(o, a)] ++ new).
  rewrite special_mounts_app, error_events_app, I1, I2, !app_nil_r.
  cbn [fst] in Ho.
  destruct o; try (split; reflexivity).
  - destruct argv as [|a0 [|a1 [|a2 [|a3 [|a4 [|a5 argv]]]]]]; try (split; reflexivity).
    cbn [is_error_or_special_mount] in Ho.
    unfold special_mounts, special_mount_target. cbn. now rewrite Ho.
  - destruct k; try (split; reflexivity); discriminate Ho.
  - destruct k; try (split; reflexivity); discriminate Ho.
Qed.

(** A computation that emits no [error] event, mounts no special
    directory, leaves the flags alone and does not end the process. *)
Lemma fatal_once_of_adds {A} (m : M A) :
  adds is_error_or_special_mount same_queue no_exit m -> fatal_once m.
Proof.
  intros Hm st r st' H.
  destruct (Hm _ _ _ H) as ((Q1 & D1 & R1 & E1) & (new & T1 & F1) & X1).
  apply no_error_no_special_mount in F1. destruct F1 as [F1 F2].
  split; [exact Q1|]. split; [exact D1|]. exists new. split; [exact T1|].
  split; [exact F1|].
  destruct r as [a|e|code]; [now intros _|now intros _|now elim (X1 code eq_refl)].
Qed.

Lemma fatal_once_ext {A} (m m' : M A) :
  (forall st, m st = m' st) -> fatal_once m' -> fatal_once m.
Proof. intros E H st r st' Hm. rewrite E in Hm. exact (H _ _ _ Hm). Qed.

Lemma fatal_once_bind {A B} (m : M A) (f : A -> M B) :
  fatal_once m -> (forall a, fatal_once (f a)) -> fatal_once (bind m f).
Proof.
  intros Hm Hf st r st' H. unfold bind in H.
  destruct (m st) as [[a|e|code] st1] eqn:E.
  - destruct (Hm _ _ _ E) as (Q1 & D1 & n1 & T1 & M1 & E1).
    destruct (Hf a _ _ _ H) as (Q2 & D2 & n2 & T2 & M2 & E2).
    split; [congruence|]. split; [congruence|].
    exists (n1 ++ n2). rewrite T2, T1, app_assoc. split; [reflexivity|].
    rewrite special_mounts_app, M1, M2. split; [reflexivity|].
    rewrite error_events_app.
    destruct r as [b|e|code].
    + intros Q. destruct (E1 Q) as (A1 & B1 & C1).
      destruct E2 as (A2 & B2 & C2); [congruence|].
      rewrite A1, A2. split; [reflexivity|]. split; congruence.
    + intros Q. destruct (E1 Q) as (A1 & B1 & C1).
      destruct E2 as (A2 & B2 & C2); [congruence|].
      rewrite A1, A2. split; [reflexivity|]. split; congruence.
    + destruct E2 as (-> & Q2' & L2 & F2).
      assert (Q : callback_queue (self st) = true) by congruence.
      destruct (E1 Q) as (A1 & _). rewrite A1.
      split; [reflexivity|]. split; [exact Q|]. split; [exact L2|exact F2].
  - injection H as <- <-. exact (Hm _ _ _ E).
  - injection H as <- <-. exact (Hm _ _ _ E).
Qed.

Lemma fatal_once_try_except {A} (m : M A) accepts handler :
  fatal_once m -> (forall e, fatal_once (handler e)) ->
  fatal_once (try_except m accepts handler).
Proof.
  intros Hm Hh st r st' H. unfold try_except in H.
  destruct (m st) as [[a|e|code] st1] eqn:E.
  - injection H as <- <-. exact (Hm _ _ _ E).
  - destruct (accepts e); [|injection H as <- <-; exact (Hm _ _ _ E)].
    destruct (Hm _ _ _ E) as (Q1 & D1 & n1 & T1 & M1 & E1).
    destruct (Hh e _ _ _ H) as (Q2 & D2 & n2 & T2 & M2 & E2).
    split; [congruence|]. split; [congruence|].
    exists (n1 ++ n2). rewrite T2, T1, app_assoc. split; [reflexivity|].
    rewrite special_mounts_app, M1, M2. split; [reflexivity|].
    rewrite error_events_app.
    destruct r as [b|e'|code].
    + intros Q. destruct (E1 Q) as (A1 & B1 & C1).
      destruct E2 as (A2 & B2 & C2); [congruence|].
      rewrite A1, A2. split; [reflexivity|]. split; congruence.
    + intros Q. destruct (E1 Q) as (A1 & B1 & C1).
      destruct E2 as (A2 & B2 & C2); [congruence|].
      rewrite A1, A2. split; [reflexivity|]. split; congruence.
    + destruct E2 as (-> & Q2' & L2 & F2).
      assert (Q : callback_queue (self st) = true) by congruence.
      destruct (E1 Q) as (A1 & _). rewrite A1.
      split; [reflexivity|]. split; [exact Q|]. split; [exact L2|exact F2].
  - injection H as <- <-. exact (Hm _ _ _ E).
Qed.

Lemma fatal_once_when b (m : M unit) : fatal_once m -> fatal_once (when b m).
Proof.
  intros Hm. destruct b; [exact Hm|].
  apply fatal_once_of_adds. apply adds_ret. typeclasses eauto.
Qed.

(** The fatal event itself: with a queue it ends the process, without one
    it raises after it has printed the event. *)
Lemma fatal_once_queue_fatal_event txt : fatal_once (queue_fatal_event world txt).
Proof.
  intros st r st'.
  cbv [queue_fatal_event queue_event callback_queue_join perform bind
       get_self set_self os_exit raise ret].
  cbn [self trace callback_queue set_running set_error special_dirs_mounted].
  destruct (callback_queue (self st)) eqn:Q;
    cbn [self trace callback_queue set_running set_error special_dirs_mounted];
    rewrite ?Q; intros [= <- <-]; cbn [self trace callback_queue special_dirs_mounted
                                       set_running set_error].
  - split; [exact Q|]. split; [reflexivity|].
    eexists. split; [rewrite <- app_assoc; reflexivity|].
    repeat split; reflexivity.
  - split; [exact Q|]. split; [reflexivity|].
    eexists. split; [reflexivity|]. split; [reflexivity|]. discriminate.
Qed.

End FatalAbort.

(** As [adds_auto], for the parts of a computation that hold no fatal
    event. *)
Ltac quiet_part :=
  apply fatal_once_of_adds; adds_auto.

Section FatalAbortOfInstallSystem.

Variable world : World.

Lemma run_lines_silent t lines : forall n,
  adds is_error_or_special_mount same_queue no_exit (run_lines world t n lines).
Proof.
  induction lines as [|line lines IH]; intros n; cbn [run_lines].
  - adds_auto.
  - apply adds_bind; [typeclasses eauto| |intros a; apply IH].
    unfold run_line, update_progress. adds_auto.
Qed.

Lemma install_system_fatal_once : fatal_once (install_system world).
Proof.
  unfold install_system.
  apply fatal_once_try_except.
  - unfold install_system_body.
    apply fatal_once_bind; [quiet_part|intros s].
    do 3 (apply fatal_once_bind; [quiet_part|intros _]).
    do 2 (apply fatal_once_bind;
          [apply fatal_once_bind; [quiet_part|intros e];
           apply fatal_once_when;
           apply fatal_once_bind; [quiet_part|intros _];
           apply fatal_once_queue_fatal_event
          |intros _]).
    apply fatal_once_of_adds.
    unfold mount_media, check_source_folder, to_number, FileCopyThread_init,
      start_join, FileCopyThread_run, stdout_lines.
    repeat first [apply run_lines_silent | adds_op];
      try reflexivity; try (now repeat split).
  - intros e.
    apply fatal_once_bind; [quiet_part|intros _].
    apply fatal_once_bind; [apply fatal_once_queue_fatal_event|intros _].
    quiet_part.
Qed.

(** With a callback queue, a fatal abort in the extraction stage: the
    process ends with the installer stopped and in error, after exactly one
    [error] event, and no special directory has been mounted by the stage. *)
Lemma fatal_abort_with_queue st r st' :
  callback_queue (self st) = true ->
  install_system world st = (r, st') ->
  special_dirs_mounted (self st') = special_dirs_mounted (self st) /\
  exists new,
    trace st' = trace st ++ new /\
    special_mounts new = [] /\
    match r with
    | Exit code => code = 0%Z /\ length (error_events new) = 1%nat /\ failed (self st')
    | _ => error_events new = []
    end.
Proof.
  intros Q H. destruct (install_system_fatal_once _ _ _ H) as (_ & D & new & T & M & E).
  split; [exact D|]. exists new. split; [exact T|]. split; [exact M|].
  destruct r as [[]|e|code].
  - now apply E.
  - now apply E.
  - destruct E as (-> & _ & L & F). split; [reflexivity|]. split; [exact L|exact F].
Qed.

End FatalAbortOfInstallSystem.

Section FatalAbortOfThePipeline.

Variable world : World.

Lemma fstab_loop_silent use_luks use_lvm items : forall all_lines,
  adds is_error_or_special_mount same_queue no_exit
    (fstab_loop world use_luks use_lvm all_lines items).
Proof.
  induction items as [|item items IH]; intros all_lines; cbn [fstab_loop].
  - adds_auto.
  - apply adds_bind; [typeclasses eauto| |intros a; apply IH].
    unfold fstab_entry, added_to_fstab, append_crypttab, settings_set, ensure_dir.
    adds_auto.
Qed.

Lemma auto_fstab_silent :
  adds is_error_or_special_mount same_queue no_exit (auto_fstab world).
Proof.
  unfold auto_fstab, fstab_lines, added_to_fstab.
  repeat first [apply fstab_loop_silent | adds_op];
    try reflexivity; try exact I.
Qed.

Lemma configure_system_silent :
  adds is_error_or_special_mount same_queue no_exit (configure_system world).
Proof.
  unfold configure_system, copy_network_config, copy_network, listdir,
    enable_services, enable_service.
  repeat first [apply auto_fstab_silent | adds_op];
    try reflexivity; try exact I.
Qed.

Lemma prepare_silent :
  adds is_error_or_special_mount same_queue no_exit (prepare world).
Proof.
  unfold prepare, init_target, partition, extern_items, mount_target, mount_other,
    prep_dirs, ensure_dir, warn_failed.
  adds_auto.
Qed.

Lemma copy_log_silent :
  adds is_error_or_special_mount same_queue no_exit (copy_log world).
Proof. unfold copy_log. adds_auto. Qed.

Lemma install_stages_fatal_once : fatal_once (install_stages world).
Proof.
  unfold install_stages.
  apply fatal_once_bind; [quiet_part|intros s].
  apply fatal_once_bind; [quiet_part|intros _].
  apply fatal_once_bind; [apply install_system_fatal_once|intros _].
  apply fatal_once_of_adds.
  repeat first [apply configure_system_silent | adds_op];
    try reflexivity; try exact I.
Qed.

Lemma on_stage_failure_fatal_once e : fatal_once (on_stage_failure world e).
Proof.
  destruct e as [cmd out|value|class]; cbn [on_stage_failure].
  - apply fatal_once_bind; [quiet_part|intros _].
    apply fatal_once_bind; [apply fatal_once_queue_fatal_event|intros _].
    quiet_part.
  - apply fatal_once_bind; [quiet_part|intros _].
    apply fatal_once_bind; [apply fatal_once_queue_fatal_event|intros _].
    quiet_part.
  - apply (fatal_once_ext _
             (logging world LDebug
                (Text ("Exception: " +:+ str_exn (OtherException class)
                       +:+ ". Trying to continue.")) ;;
              ret true)).
    + intros st. unfold try_except.
      now rewrite (bind_Ret _ _ _ _ _ (logging_eq world _ _ _)).
    + quiet_part.
Qed.

Lemma attempt_stages_fatal_once : fatal_once (attempt_stages world).
Proof.
  unfold attempt_stages. apply fatal_once_try_except.
  - apply fatal_once_bind; [apply install_stages_fatal_once|intros _]. quiet_part.
  - apply on_stage_failure_fatal_once.
Qed.

Lemma finish_fatal_once : fatal_once (finish world).
Proof.
  apply (fatal_once_ext _ _ (finish_eq world)).
  apply fatal_once_of_adds.
  apply adds_bind; [typeclasses eauto|apply copy_log_silent|intros _].
  adds_auto.
Qed.

(** A run ends the process only through one fatal event. *)
Lemma run_installation_fatal_once : fatal_once (run_installation world).
Proof.
  apply (fatal_once_ext _ _ (run_installation_eq world)).
  apply fatal_once_bind; [apply fatal_once_of_adds, prepare_silent|intros _].
  apply fatal_once_bind; [apply attempt_stages_fatal_once|intros _].
  apply finish_fatal_once.
Qed.

End FatalAbortOfThePipeline.




Section FatalAbortWithoutQueue.

Variable world : World.

(** Without a callback queue, a base image that is missing makes the
    extraction stage print two [error] events: the fatal event of the check
    fails on the queue it does not have, and the [except] clause of the
    stage calls the fatal event again, which fails the same way.  The stage
    is left by the AttributeError, the process is not ended. *)
Lemma install_system_without_queue st :
  callback_queue (self st) = false ->
  (forall tr, world tr (PathExists (dest_dir (self st))) = Truth true) ->
  (forall tr, world tr (PathExists "/source") = Truth true) ->
  (forall tr, world tr (PathExists "/source_desktop") = Truth true) ->
  (forall tr, world tr (PathExists (media (self st))) = Truth false) ->
  exists st' new,
    install_system world st = (Raise (OtherException "AttributeError"), st') /\
    trace st' = trace st ++ new /\
    error_events new =
      [(error_ev, Text "Base filesystem does not exist! Critical error (exiting).");
       (error_ev, Exc (OtherException "AttributeError"))] /\
    failed (self st').
Proof.
  intros Q H1 H2 H3 H4.
  unfold install_system, try_except, install_system_body.
  unfold bind at 1, get_self at 1.
  unfold bind at 1. unfold bind at 1, path_exists at 1, ask at 1, bind at 1, perform at 1.
  rewrite H1. cbn [self trace negb when ret].
  unfold bind at 1. unfold bind at 1, path_exists at 1, ask at 1, bind at 1, perform at 1.
  cbn [self trace]. rewrite H2. cbn [self trace negb when ret].
  unfold bind at 1. unfold bind at 1, path_exists at 1, ask at 1, bind at 1, perform at 1.
  cbn [self trace]. rewrite H3. cbn [self trace negb when ret].
  unfold bind at 1. unfold bind at 1, path_exists at 1, ask at 1, bind at 1, perform at 1.
  cbn [self trace]. rewrite H4. cbn [self trace negb when ret].
  cbv [tr bind logging perform queue_fatal_event set_self queue_event get_self
       callback_queue_join raise ret os_exit is_Exception].
  repeat (cbn [self trace callback_queue set_running set_error]; rewrite Q).
  cbn [self trace callback_queue set_running set_error].
  do 2 eexists. split; [reflexivity|]. cbn [self trace].
  split; [rewrite <- !app_assoc; reflexivity|]. split; [reflexivity|].
  split; reflexivity.
Qed.

End FatalAbortWithoutQueue.


(** ** More of the module *)

(** ** One operation *)

Section Steps.

Variable world : World.

Lemma call_step o st r st' : call world o st = (r, st') -> one_step world o st r st'.
Proof.
  cbv [call perform bind ret raise one_step].
  destruct (world (trace st) o) eqn:E; intros [= <- <-]; cbn [self trace]; rewrite ?E; easy.
Qed.


Lemma ask_str_step o st r st' : ask_str world o st = (r, st') ->
  st' = mkSt (self st) (trace st ++ [(o, world (trace st) o)]) /\
  match r with
  | Ret s => world (trace st) o = Str s
  | Raise e => True
  | Exit _ => False
  end.
Proof.
  cbv [ask_str perform bind ret raise].
  destruct (world (trace st) o) eqn:E; intros [= <- <-]; cbn [self trace]; rewrite ?E; easy.
Qed.

Lemma calls_app name tr1 tr2 : calls name (tr1 ++ tr2) = calls name tr1 ++ calls name tr2.
Proof. apply omap_app. Qed.

Lemma copies_app tr1 tr2 : copies (tr1 ++ tr2) = copies tr1 ++ copies tr2.
Proof. apply omap_app. Qed.

Lemma logs_app tr1 tr2 : logs (tr1 ++ tr2) = logs tr1 ++ logs tr2.
Proof. apply omap_app. Qed.

End Steps.

Lemma append_nil_r (s : string) : s +:+ "" = s.
Proof. induction s as [|c s IH]; [reflexivity|]. rewrite append_cons. now rewrite IH. Qed.

Lemma append_assoc (a b c : string) : (a +:+ b) +:+ c = a +:+ (b +:+ c).
Proof.
  induction a as [|ch a IH]; [reflexivity|]. rewrite !append_cons. now rewrite IH.
Qed.

Lemma bind_assoc_at {A B C} (m : M A) (f : A -> M B) (g : B -> M C) st :
  bind m (fun a => bind (f a) g) st = bind (bind m f) g st.
Proof. unfold bind. now destruct (m st) as [[a|e|c] st1]. Qed.

Lemma settings_get_eq key st :
  settings_get key st = (Ret (default PyNone (settings (self st) !! key)), st).
Proof. reflexivity. Qed.

Section Waiting.

Variable world : World.


End Waiting.


Section Mounts.

Lemma check_source_folder_lines_spec mount_point lines : forall device,
  check_source_folder_lines mount_point device lines =
  if forallb has_two_fields lines
  then Ret (from_option Some device (last (omap (device_at mount_point) lines)))
  else Raise (OtherException "IndexError").
Proof.
  induction lines as [|line lines IH]; intros device; [reflexivity|].
  cbn [check_source_folder_lines forallb omap list_omap].
  unfold has_two_fields at 1, device_at at 1.
  destruct (split line) as [|f0 [|f1 fields]]; [reflexivity|reflexivity|].
  cbn [andb]. rewrite IH.
  destruct (forallb has_two_fields lines); [|reflexivity].
  destruct (String.eqb f1 mount_point); [|reflexivity].
  f_equal. fold (omap (device_at mount_point) lines).
  destruct (omap (device_at mount_point) lines) as [|d ds] eqn:E; [reflexivity|].
  rewrite last_cons_cons. destruct (last (d :: ds)) eqn:L'; [reflexivity|].
  now apply last_None in L'.
Qed.

End Mounts.

(** X2 -- [check_source_folder] returns the device of the last line of
    /proc/mounts whose second field is the mount point, [None] when no line
    has it; and it raises IndexError as soon as the file holds a line with
    fewer than two fields (a blank line), whatever was found before. *)
Theorem check_source_folder_last_match (mount_point : string) (lines : list string) :
  check_source_folder_lines mount_point None lines =
  if forallb has_two_fields lines
  then Ret (last (omap (device_at mount_point) lines))
  else Raise (OtherException "IndexError").
Proof.
  rewrite check_source_folder_lines_spec.
  destruct (forallb has_two_fields lines); [|reflexivity].
  now destruct (last (omap (device_at mount_point) lines)).
Qed.

Example check_source_folder_sample :
  check_source_folder_lines "/source" None sample_mounts = Ret (Some "/dev/loop2") /\
  check_source_folder_lines "/source_desktop" None sample_mounts = Ret None /\
  check_source_folder_lines "/source" None (sample_mounts ++ [""])
  = Raise (OtherException "IndexError").
Proof. vm_compute. repeat split. Qed.

Section Desktop.

Variable world : World.

Variable fs : string -> bool.

Hypothesis Hfs : static_fs world fs.

Lemma path_exists_static p st :
  path_exists world p st
  = (Ret (fs p), mkSt (self st) (trace st ++ [(PathExists p, Truth (fs p))])).
Proof. cbv [path_exists ask perform bind ret]. now rewrite Hfs. Qed.

Lemma find_desktop_environment_in_static dest table : forall st,
  exists new,
    find_desktop_environment_in world dest table st
    = (Ret (List.find (installed fs dest) table), mkSt (self st) (trace st ++ new)) /\
    forallb is_probe new = true.
Proof.
  induction table as [|de table IH]; intros st; cbn [find_desktop_environment_in List.find].
  - exists []. rewrite app_nil_r. now destruct st.
  - erewrite bind_Ret by apply path_exists_static. unfold installed at 1.
    destruct (fs (executable_path dest de)) eqn:E1.
    + erewrite bind_Ret by apply path_exists_static. cbn [self trace andb].
      destruct (fs (xsession_path dest de)) eqn:E2.
      * eexists. rewrite <- app_assoc. split; reflexivity.
      * edestruct IH as (new & -> & Hp). cbn [self trace].
        eexists. rewrite <- !app_assoc. split; [reflexivity|]. exact Hp.
    + erewrite bind_Ret by reflexivity. cbn [self trace andb].
      edestruct IH as (new & -> & Hp). cbn [self trace].
      eexists. rewrite <- !app_assoc. split; [reflexivity|]. exact Hp.
Qed.

End Desktop.

(** X3 -- Over a file system that does not change, [find_desktop_environment]
    returns the first entry of the table, in its order, whose executable and
    session file both exist below [dest_dir], and [None] when there is none;
    it only looks files up, and leaves the installer as it is. *)
Theorem find_desktop_environment_first_installed
    (world : World) (fs : string -> bool) (st : St) :
  static_fs world fs ->
  exists new,
    find_desktop_environment world st
    = (Ret (List.find (installed fs (dest_dir (self st))) desktop_environments),
       mkSt (self st) (trace st ++ new)) /\
    forallb is_probe new = true.
Proof.
  intros Hfs. unfold find_desktop_environment, bind at 1, get_self at 1.
  apply find_desktop_environment_in_static, Hfs.
Qed.

Lemma find_desktop_environment_first_installed_witness :
  exists new,
    find_desktop_environment (fs_world xfce_and_lxde) (fresh scenario_installer)
    = (Ret (Some (mkDesktopEnvironment "/usr/bin/startxfce4" "xfce")),
       mkSt scenario_installer ([] ++ new)) /\
    forallb is_probe new = true.
Proof.
  exact (find_desktop_environment_first_installed (fs_world xfce_and_lxde) xfce_and_lxde
           (fresh scenario_installer) (fun _ _ => eq_refl)).
Defined.

Section Services.

Variable world : World.

Variable fs : string -> bool.

Hypothesis Hfs : static_fs world fs.

Lemma enable_service_spec name st r st' :
  enable_service world name st = (r, st') ->
  self st' = self st /\
  exists new,
    trace st' = trace st ++ new /\
    calls "chroot.run" new = (if fs (service_path name) then [enable_command name] else []) /\
    (r = Ret tt -> logs new = [service_record fs name]) /\
    ((forall tr args e, world tr (Extern "chroot.run" args) <> Raised e) -> r = Ret tt).
Proof.
  assert (P1 : PyStr.pct "Enabled %s service." name = "Enabled " +:+ name +:+ " service.")
    by reflexivity.
  assert (P2 : PyStr.pct "Can't find service %s" name = "Can't find service " +:+ name).
  { cbn. now rewrite append_nil_r. }
  unfold service_record, enable_service, tr. rewrite P1, P2.
  cbv [chroot_run extern call path_exists ask logging perform bind ret raise].
  rewrite Hfs. cbn [self trace]. destruct (fs (service_path name)).
  - match goal with
    | |- context [match world ?tr ?o with _ => _ end] => destruct (world tr o) eqn:E
    end; intros [= <- <-]; cbn [self trace]; (split; [reflexivity|]);
      eexists; (split; [rewrite <- ?app_assoc; reflexivity|]);
      (split; [reflexivity|]); (split; [try reflexivity; try discriminate|]);
      try reflexivity.
    intros Hw. now apply Hw in E.
  - intros [= <- <-]. cbn [self trace]. split; [reflexivity|].
    eexists. split; [rewrite <- ?app_assoc; reflexivity|]. now repeat split.
Qed.

Lemma enable_services_spec services : forall st r st',
  enable_services world services st = (r, st') ->
  self st' = self st /\
  exists new,
    trace st' = trace st ++ new /\
    calls "chroot.run" new `prefix_of`
      map enable_command (List.filter (fun name => fs (service_path name)) services) /\
    (r = Ret tt ->
     calls "chroot.run" new =
       map enable_command (List.filter (fun name => fs (service_path name)) services) /\
     logs new = map (service_record fs) services) /\
    ((forall tr args e, world tr (Extern "chroot.run" args) <> Raised e) -> r = Ret tt).
Proof.
  induction services as [|name services IH]; intros st r st' H;
    unfold enable_services in H; cbn [for_each] in H.
  - injection H as <- <-. split; [reflexivity|]. exists []. rewrite app_nil_r.
    cbn. split; [reflexivity|]. split; [apply prefix_nil|]. split; [now split|easy].
  - fold (enable_services world services) in H. unfold bind in H.
    destruct (enable_service world name st) as [r1 st1] eqn:E1.
    apply enable_service_spec in E1. destruct E1 as (S1 & n1 & T1 & C1 & L1 & W1).
    assert (Hexp : map enable_command
                     (List.filter (fun name => fs (service_path name)) (name :: services))
                   = (if fs (service_path name) then [enable_command name] else [])
                     ++ map enable_command
                          (List.filter (fun name => fs (service_path name)) services)).
    { cbn [List.filter]. now destruct (fs (service_path name)). }
    rewrite Hexp, <- C1.
    destruct r1 as [[]|e|c].
    + apply IH in H. destruct H as (S2 & n2 & T2 & P2 & C2 & W2).
      split; [congruence|]. exists (n1 ++ n2).
      split; [rewrite T2, T1, app_assoc; reflexivity|].
      rewrite calls_app, logs_app. split; [now apply prefix_app|].
      split; [|exact W2].
      intros Hr. destruct (C2 Hr) as [-> ->]. now rewrite L1.
    + injection H as <- <-. split; [exact S1|]. exists n1. split; [exact T1|].
      split; [now apply prefix_app_r|]. split; [discriminate|exact W1].
    + injection H as <- <-. split; [exact S1|]. exists n1. split; [exact T1|].
      split; [now apply prefix_app_r|]. split; [discriminate|exact W1].
Qed.

End Services.

(** X4 -- Over a file system that does not change, [enable_services] goes
    through the services in order: it enables, with [systemctl -f enable]
    in the target, exactly the services whose unit file is there, and logs
    one record per service, a debug record for an enabled one and a warning
    for one whose unit file is missing.  A service that cannot be enabled
    stops the loop: what was run by then is a prefix of that list.  The
    installer is left as it is, and when [chroot.run] does not raise the
    call returns. *)
Theorem enable_services_only_installed_units
    (world : World) (fs : string -> bool) (services : list string)
    (st : St) (r : res unit) (st' : St) :
  static_fs world fs ->
  enable_services world services st = (r, st') ->
  self st' = self st /\
  exists new,
    trace st' = trace st ++ new /\
    calls "chroot.run" new `prefix_of`
      map enable_command (List.filter (fun name => fs (service_path name)) services) /\
    (r = Ret tt ->
     calls "chroot.run" new =
       map enable_command (List.filter (fun name => fs (service_path name)) services) /\
     logs new = map (service_record fs) services) /\
    ((forall tr args e, world tr (Extern "chroot.run" args) <> Raised e) -> r = Ret tt).
Proof. intros Hfs. now apply enable_services_spec. Qed.

Lemma enable_services_only_installed_units_witness :
  let out := enable_services (fs_world two_units) ["NetworkManager"; "org.cups.cupsd"; "ntpd"]
               (fresh scenario_installer) in
  out.1 = Ret tt /\
  calls "chroot.run" (trace out.2) =
    [["/install"; "systemctl"; "-f"; "enable"; "NetworkManager"];
     ["/install"; "systemctl"; "-f"; "enable"; "ntpd"]] /\
  logs (trace out.2) =
    [(LDebug, Text "Enabled NetworkManager service.");
     (LWarning, Text "Can't find service org.cups.cupsd");
     (LDebug, Text "Enabled ntpd service.")].
Proof.
  intros out.
  destruct (enable_services_only_installed_units (fs_world two_units) two_units
              ["NetworkManager"; "org.cups.cupsd"; "ntpd"] (fresh scenario_installer)
              out.1 out.2 (fun _ _ => eq_refl) (surjective_pairing _))
    as (_ & new & T & _ & C & W).
  assert (R : out.1 = Ret tt) by (apply W; intros tr args e; discriminate).
  destruct (C R) as [C1 C2]. cbn [fresh trace app] in T. rewrite T.
  split; [exact R|]. split; [exact C1|exact C2].
Defined.


Section Network.

Variable world : World.

Variable fs : string -> bool.

Hypothesis Hfs : static_fs world fs.

Lemma copy_network_spec network st r st' :
  copy_network world network st = (r, st') ->
  self st' = self st /\
  exists new,
    trace st' = trace st ++ new /\
    copies new = (if to_copy fs network then [network_copy network] else []) /\
    (copy_fails_softly world -> r = Ret tt).
Proof.
  unfold copy_network, to_copy.
  destruct (String.eqb network "LTSP").
  - intros [= <- <-]. split; [reflexivity|]. exists []. now rewrite app_nil_r.
  - cbv zeta. unfold bind at 1. rewrite (path_exists_static world fs Hfs).
    cbn [negb andb]. destruct (fs (path_join target_nm network)).
    + intros [= <- <-]. split; [reflexivity|]. eexists. split; [reflexivity|]. easy.
    + cbv [try_except call logging perform bind ret raise]. cbn [self trace negb].
      destruct (world _ (CopyFile _ _)) as [| | | | | |e] eqn:E;
        try (intros [= <- <-]; cbn [self trace]; (split; [reflexivity|]);
             eexists; (split; [rewrite <- ?app_assoc; reflexivity|]); now split).
      destruct (is_class "FileNotFoundError" e) eqn:C1; cbn [orb].
      * intros [= <- <-]; cbn [self trace]; (split; [reflexivity|]);
          eexists; (split; [rewrite <- ?app_assoc; reflexivity|]); now split.
      * destruct (is_class "FileExistsError" e) eqn:C2;
          intros [= <- <-]; cbn [self trace]; (split; [reflexivity|]);
          eexists; (split; [rewrite <- ?app_assoc; reflexivity|]);
          (split; [reflexivity|]); try reflexivity.
        intros Hs. apply Hs in E. rewrite C1, C2 in E. discriminate E.
Qed.

Lemma copy_networks_spec networks : forall st r st',
  for_each networks (copy_network world) st = (r, st') ->
  self st' = self st /\
  exists new,
    trace st' = trace st ++ new /\
    copies new `prefix_of` map network_copy (List.filter (to_copy fs) networks) /\
    (r = Ret tt -> copies new = map network_copy (List.filter (to_copy fs) networks)) /\
    (copy_fails_softly world -> r = Ret tt).
Proof.
  induction networks as [|network networks IH]; intros st r st' H; cbn [for_each] in H.
  - injection H as <- <-. split; [reflexivity|]. exists []. rewrite app_nil_r.
    cbn. split; [reflexivity|]. split; [apply prefix_nil|]. easy.
  - unfold bind in H.
    destruct (copy_network world network st) as [r1 st1] eqn:E1.
    apply copy_network_spec in E1. destruct E1 as (S1 & n1 & T1 & C1 & W1).
    assert (Hexp : map network_copy (List.filter (to_copy fs) (network :: networks))
                   = (if to_copy fs network then [network_copy network] else [])
                     ++ map network_copy (List.filter (to_copy fs) networks)).
    { cbn [List.filter]. now destruct (to_copy fs network). }
    rewrite Hexp, <- C1.
    destruct r1 as [[]|e|c].
    + apply IH in H. destruct H as (S2 & n2 & T2 & P2 & C2 & W2).
      split; [congruence|]. exists (n1 ++ n2).
      split; [rewrite T2, T1, app_assoc; reflexivity|].
      rewrite copies_app. split; [now apply prefix_app|].
      split; [|exact W2]. intros Hr. now rewrite (C2 Hr).
    + injection H as <- <-. split; [exact S1|]. exists n1. split; [exact T1|].
      split; [now apply prefix_app_r|]. split; [discriminate|exact W1].
    + injection H as <- <-. split; [exact S1|]. exists n1. split; [exact T1|].
      split; [now apply prefix_app_r|]. split; [discriminate|exact W1].
Qed.

End Network.

(** X6 -- Over a file system that does not change, where the live system
    lists the connections [networks], [copy_network_config] copies, in
    order, exactly the connections other than LTSP that the target does not
    have yet, each to the file of the same name in the target, and nothing at
    all when one of the two directories is missing: it never copies LTSP and
    never copies onto a file that is there.  A copy that fails because the
    file is gone or the target is there does not stop the others: when copies
    fail in no other way the call returns.  The installer is left as it
    is. *)
Theorem copy_network_config_skips_ltsp_and_existing
    (world : World) (fs : string -> bool) (networks : list string)
    (st : St) (r : res unit) (st' : St) :
  static_fs world fs ->
  (forall tr, world tr (Extern "os.listdir" [source_nm]) = Lines networks) ->
  copy_network_config world st = (r, st') ->
  self st' = self st /\
  exists new,
    trace st' = trace st ++ new /\
    copies new `prefix_of` network_copies fs networks /\
    (r = Ret tt -> copies new = network_copies fs networks) /\
    (copy_fails_softly world -> r = Ret tt).
Proof.
  intros Hfs Hls. unfold copy_network_config, network_copies.
  unfold bind at 1. rewrite (path_exists_static world fs Hfs).
  unfold bind at 1.
  destruct (fs source_nm); cbn [andb].
  - rewrite (path_exists_static world fs Hfs). cbn [self trace].
    destruct (fs target_nm); cbn [when].
    + unfold bind at 1, listdir, bind at 1, perform. rewrite Hls. cbn [self trace ret].
      intros H. apply (copy_networks_spec world fs Hfs) in H.
      destruct H as (S1 & n1 & T1 & P1 & C1 & W1). cbn [self trace] in *.
      split; [exact S1|]. eexists. split; [rewrite T1, <- !app_assoc; reflexivity|].
      rewrite !copies_app. cbn [copies omap list_omap copy_of fst app].
      split; [exact P1|]. split; [exact C1|exact W1].
    + intros [= <- <-]. cbn [self trace]. split; [reflexivity|].
      eexists. split; [rewrite <- !app_assoc; reflexivity|]. cbn.
      split; [apply prefix_nil|]. easy.
  - intros [= <- <-]. cbn [self trace]. split; [reflexivity|].
    eexists. split; [reflexivity|]. cbn. split; [apply prefix_nil|]. easy.
Qed.

Lemma copy_network_config_skips_ltsp_and_existing_witness :
  let out := copy_network_config three_networks (fresh scenario_installer) in
  out.1 = Ret tt /\
  copies (trace out.2) =
    [("/etc/NetworkManager/system-connections/home",
      "/install/etc/NetworkManager/system-connections/home")].
Proof.
  intros out.
  destruct (copy_network_config_skips_ltsp_and_existing three_networks
              (fun p => negb (String.eqb p "/install/etc/NetworkManager/system-connections/home"))
              ["home"; "LTSP"; "office"] (fresh scenario_installer) out.1 out.2
              (fun _ _ => eq_refl) (fun _ => eq_refl) (surjective_pairing _))
    as (_ & new & T & _ & C & W).
  assert (R : out.1 = Ret tt) by (apply W; intros tr src dst e; discriminate).
  cbn [fresh trace app] in T. rewrite T. split; [exact R|]. exact (C R).
Defined.

Section Locale.

Variable world : World.

Lemma written_app path tr1 tr2 : written path (tr1 ++ tr2) = written path tr1 ++ written path tr2.
Proof. unfold written. now rewrite calls_app, omap_app. Qed.

Lemma uncomment_spec locale line st :
  line <> "" ->
  uncomment locale line st = (Ret (uncommented locale line), st).
Proof.
  intros Hl. unfold uncomment, uncommented.
  destruct line as [|c rest]; [easy|].
  destruct (PyStr.contains locale (String c rest)).
  - destruct (Ascii.eqb c "#") eqn:E.
    + apply Ascii.eqb_eq in E. now subst c.
    + destruct c as [[] [] [] [] [] [] [] []]; try reflexivity. discriminate E.
  - destruct c as [[] [] [] [] [] [] [] []]; reflexivity.
Qed.

Lemma write_lines_spec locale path text : forall st r st',
  Forall (fun line => line <> "") text ->
  for_each text (fun line => line <- uncomment locale line ;; write world path line) st
  = (r, st') ->
  self st' = self st /\
  exists new,
    trace st' = trace st ++ new /\
    written path new `prefix_of` map (uncommented locale) text /\
    (r = Ret tt -> written path new = map (uncommented locale) text) /\
    (never_raises world "write" -> r = Ret tt).
Proof.
  induction text as [|line text IH]; intros st r st' Ht H; cbn [for_each] in H.
  - injection H as <- <-. split; [reflexivity|]. exists []. rewrite app_nil_r.
    cbn. split; [reflexivity|]. split; [apply prefix_nil|]. easy.
  - apply Forall_cons in Ht. destruct Ht as [Hl Ht].
    unfold bind at 1 in H. unfold bind at 1 in H.
    rewrite (uncomment_spec locale line st Hl) in H.
    destruct (write world path (uncommented locale line) st) as [r1 st1] eqn:E1.
    apply call_step in E1. destruct E1 as [-> R1].
    assert (Hw : written path [(Extern "write" [path; uncommented locale line],
                                world (trace st)
                                  (Extern "write" [path; uncommented locale line]))]
                 = [uncommented locale line]).
    { unfold written, calls. cbn. now rewrite String.eqb_refl. }
    cbn [map]. change (?x :: map ?f ?l) with ([x] ++ map f l). rewrite <- Hw.
    destruct r1 as [[]|e|c]; [| |easy].
    + apply (IH _ _ _ Ht) in H. destruct H as (S2 & n2 & T2 & P2 & C2 & W2).
      cbn [self trace] in *. split; [exact S2|]. eexists.
      split; [rewrite T2, <- app_assoc; reflexivity|].
      rewrite written_app. split; [now apply prefix_app|].
      split; [|exact W2]. intros Hr. now rewrite (C2 Hr).
    + injection H as <- <-. cbn [self trace]. split; [reflexivity|]. eexists.
      split; [reflexivity|]. split; [now apply prefix_app_r|].
      split; [discriminate|]. intros Hn. now apply Hn in R1.
Qed.

End Locale.

(** X7 -- When the target has a locale.gen whose lines are [text] (none of
    them empty, as [readlines] yields them), [uncomment_locale_gen] opens the
    file for writing and writes the lines back in order, one [write] each: a
    line that starts with [#] and mentions the locale without its first
    character, every other line as it was.  When a [write] fails, what was
    written by then is a prefix of those lines; when [open] and [write] do
    not raise, the call returns.  The installer is left as it is. *)
Theorem uncomment_locale_gen_rewrites_in_place
    (world : World) (locale : string) (text : list string)
    (st : St) (r : res unit) (st' : St) :
  (forall tr, world tr (PathExists locale_gen) = Truth true) ->
  (forall tr, world tr (Extern "readlines" [locale_gen]) = Lines text) ->
  Forall (fun line => line <> "") text ->
  uncomment_locale_gen world locale st = (r, st') ->
  self st' = self st /\
  exists new,
    trace st' = trace st ++ new /\
    written locale_gen new `prefix_of` map (uncommented locale) text /\
    (r = Ret tt -> written locale_gen new = map (uncommented locale) text) /\
    (never_raises world "open" -> never_raises world "write" -> r = Ret tt).
Proof.
  intros He Hr Ht. unfold uncomment_locale_gen. fold locale_gen. cbv zeta.
  unfold bind at 1, path_exists, ask, bind at 1, perform. rewrite He. cbn [self trace ret].
  unfold bind at 1, readlines, bind at 1, perform. rewrite Hr. cbn [self trace ret].
  unfold bind at 1.
  match goal with
  | |- context [open_w world ?p ?s] => destruct (open_w world p s) as [r1 st1] eqn:E1
  end.
  apply call_step in E1. destruct E1 as [-> R1]. cbn [self trace] in *.
  destruct r1 as [[]|e|c]; [| |easy].
  - intros H. apply (write_lines_spec world locale locale_gen text _ _ _ Ht) in H.
    destruct H as (S2 & n2 & T2 & P2 & C2 & W2). cbn [self trace] in *.
    split; [exact S2|]. eexists. split; [rewrite T2, <- !app_assoc; reflexivity|].
    rewrite !written_app.
    split; [exact P2|]. split; [exact C2|]. intros _. exact W2.
  - intros [= <- <-]. cbn [self trace]. split; [reflexivity|]. eexists.
    split; [rewrite <- !app_assoc; reflexivity|]. 
    split; [apply prefix_nil|]. split; [discriminate|]. intros Hn. now apply Hn in R1.
Qed.

Lemma uncomment_locale_gen_rewrites_in_place_witness :
  let out := uncomment_locale_gen locale_world "en_US" (fresh scenario_installer) in
  out.1 = Ret tt /\
  written locale_gen (trace out.2) =
    ["# Configuration file for locale-gen" +:+ newline;
     "#de_DE.UTF-8 UTF-8" +:+ newline;
     "en_US.UTF-8 UTF-8" +:+ newline;
     "en_US ISO-8859-1" +:+ newline].
Proof.
  intros out.
  assert (Ht : Forall (fun line => line <> "") sample_locale_gen)
    by (repeat constructor; discriminate).
  destruct (uncomment_locale_gen_rewrites_in_place locale_world "en_US" sample_locale_gen
              (fresh scenario_installer) out.1 out.2
              (fun _ => eq_refl) (fun _ => eq_refl) Ht (surjective_pairing _))
    as (_ & new & T & _ & C & W).
  assert (R : out.1 = Ret tt) by (apply W; intros tr args e; discriminate).
  cbn [fresh trace app] in T. rewrite T. split; [exact R|]. exact (C R).
Defined.

Section EntryPoint.

Variable world : World.

Lemma on_process_error_fatal_once cmd output :
  fatal_once (on_process_error world cmd output).
Proof.
  unfold on_process_error, format_exception.
  apply fatal_once_bind; [quiet_part|intros tb].
  do 3 (apply fatal_once_bind; [quiet_part|intros _]).
  apply fatal_once_queue_fatal_event.
Qed.

Lemma run_fatal_once : fatal_once (run world).
Proof.
  unfold run. apply fatal_once_try_except.
  - apply fatal_once_bind; [apply run_installation_fatal_once|intros _]. quiet_part.
  - intros [cmd output|value|class].
    + apply on_process_error_fatal_once.
    + quiet_part.
    + quiet_part.
Qed.

(** The fatal event raises only for want of a queue. *)
Lemma queue_fatal_event_Raise txt st e st' :
  queue_fatal_event world txt st = (Raise e, st') ->
  e = OtherException "AttributeError" /\ callback_queue (self st) = false.
Proof.
  cbv [queue_fatal_event queue_event callback_queue_join perform bind
       get_self set_self os_exit raise ret].
  cbn [self trace callback_queue set_running set_error].
  destruct (callback_queue (self st)) eqn:Q;
    cbn [self trace callback_queue set_running set_error]; rewrite ?Q;
    intros [= <- <-]; now split.
Qed.

Lemma on_process_error_spec cmd output st r st' :
  on_process_error world cmd output st = (r, st') ->
  exists new,
    trace st' = trace st ++ new /\
    events new = [(error_ev, Text output)] /\
    match r with
    | Ret _ => False
    | Raise e => e = OtherException "AttributeError" /\ callback_queue (self st) = false
    | Exit code => code = 0%Z
    end.
Proof.
  cbv [on_process_error format_exception ask_text queue_fatal_event queue_event
       callback_queue_join logging perform bind get_self set_self os_exit raise ret].
  cbn [self trace callback_queue set_running set_error].
  destruct (callback_queue (self st)) eqn:Q;
    cbn [self trace callback_queue set_running set_error]; rewrite ?Q;
    intros [= <- <-]; cbn [self trace];
    (eexists; split; [rewrite <- !app_assoc; reflexivity|]);
    (split; [reflexivity|]); now try split.
Qed.

End EntryPoint.

(** X8 -- The entry point [run] never returns.  It ends the process, with
    exit code 0, after exactly one [error] event and with the installer
    stopped and in error, which needs a callback queue; or it is left by an
    exception, which is the NameError of a name the module does not define
    or, without a callback queue, the AttributeError of the fatal event.  A
    CalledProcessError that leaves [run_installation] (a command of the
    preparation that fails) is reported as one [error] event that carries
    the output of the command. *)
Theorem run_never_returns
    (world : World) (st : St) (r : res unit) (st' : St) :
  run world st = (r, st') ->
  (exists new,
     trace st' = trace st ++ new /\
     match r with
     | Ret _ => False
     | Exit code =>
         code = 0%Z /\ callback_queue (self st) = true /\
         length (error_events new) = 1%nat /\ failed (self st')
     | Raise e =>
         e = OtherException "NameError" \/
         (callback_queue (self st) = false /\ e = OtherException "AttributeError")
     end) /\
  (forall cmd output st1,
     run_installation world st = (Raise (CalledProcessError cmd output), st1) ->
     exists new, trace st' = trace st1 ++ new /\ events new = [(error_ev, Text output)]).
Proof.
  intros H. split.
  - destruct (run_fatal_once world _ _ _ H) as (_ & _ & new & T & _ & E).
    exists new. split; [exact T|].
    destruct r as [[]|e|code]; [| |exact E].
    + unfold run in H. apply try_except_inv_Ret in H.
      destruct H as [H|(e & st1 & _ & _ & H)].
      * peel H. now apply run_installation_no_return in H0.
      * destruct e as [cmd out|value|class]; [|discriminate H|discriminate H].
        apply on_process_error_spec in H. now destruct H as (? & _ & _ & ?).
    + unfold run, try_except in H.
      destruct ((run_installation world ;; ret tt) st) as [[[]|e0|code] s1] eqn:E1.
      * apply bind_inv_Ret in E1. destruct E1 as (b & s & E1 & _).
        now apply run_installation_no_return in E1.
      * cbn [is_Exception] in H.
        destruct (run_installation_fatal_once world st (Raise e0) s1) as (Q1 & _).
        { unfold bind in E1. destruct (run_installation world st) as [[b|e1|c1] s2];
            [discriminate E1|now injection E1 as <- <-|discriminate E1]. }
        destruct e0 as [cmd out|value|class].
        -- apply on_process_error_spec in H. destruct H as (? & _ & _ & -> & Q).
           right. split; [congruence|reflexivity].
        -- injection H as <- _. now left.
        -- injection H as <- _. now left.
      * discriminate H.
  - intros cmd output st1 E. unfold run, try_except, bind at 1 in H.
    rewrite E in H. cbn [is_Exception] in H.
    apply on_process_error_spec in H. destruct H as (new & T & V & _).
    now exists new.
Qed.

Lemma run_never_returns_witness :
  let out := run no_root_mount_world (fresh scenario_installer) in
  out.1 = Exit 0 /\ failed (self out.2) /\
  length (error_events (trace out.2)) = 1%nat /\
  exists new,
    trace out.2 =
      trace (run_installation no_root_mount_world (fresh scenario_installer)).2 ++ new /\
    events new = [(error_ev, Text "wrong fs type")].
Proof.
  intros out.
  assert (E : out = (Exit 0, out.2)) by (vm_compute; reflexivity).
  destruct (run_never_returns no_root_mount_world (fresh scenario_installer)
              (Exit 0) out.2 E) as ((new & T & _ & _ & L & F) & B).
  split; [now rewrite E|]. split; [exact F|].
  split; [cbn [fresh trace app] in T; now rewrite T|].
  apply (B ["mount"; "/dev/sda2"; "/install"] "wrong fs type"). vm_compute. reflexivity.
Defined.

Section MountOthers.

Variable world : World.

Lemma warn_failed_eq what err st :
  exists l1 l2 l3,
    warn_failed world what err st = (Ret tt, mkSt (self st) (trace st ++ [l1; l2; l3])) /\
    commands [l1; l2; l3] = [].
Proof.
  unfold warn_failed. rewrite !(bind_Ret _ _ _ _ _ (logging_eq world _ _ _)).
  rewrite logging_eq. cbn [self trace]. do 3 eexists.
  split; [rewrite <- !app_assoc; reflexivity|reflexivity].
Qed.

(** A command in a [try] whose [except] clause logs the exit status and
    goes on. *)
Lemma try_command (pre : M unit) what argv st r st' :
  runs_no_command world pre ->
  try_except (pre ;; check_call world argv) is_CalledProcessError
    (fun err => warn_failed world what err) st = (r, st') ->
  self st' = self st /\
  (forall cmd out, r <> Raise (CalledProcessError cmd out)) /\
  exists new,
    trace st' = trace st ++ new /\
    (exit_status_of_commands world ->
     commands new `prefix_of` [argv] /\ (r = Ret tt -> commands new = [argv])) /\
    (only_commands_fail world -> r = Ret tt).
Proof.
  intros Hpre. unfold try_except, bind.
  destruct (pre st) as [[[]|e|c] st1] eqn:E1;
    destruct (Hpre _ _ _ E1) as (S1 & (n1 & T1 & C1) & R1); [| |easy].
  - destruct (check_call world argv st1) as [r2 st2] eqn:E2.
    apply call_step in E2. destruct E2 as [-> R2].
    destruct r2 as [[]|e|c]; [| |easy].
    + intros [= <- <-]. cbn [self trace]. split; [exact S1|]. split; [discriminate|].
      eexists. split; [rewrite T1, <- app_assoc; reflexivity|].
      rewrite commands_app, C1. cbn. easy.
    + destruct (is_CalledProcessError e) eqn:Ce.
      * destruct (warn_failed_eq what e
                    (mkSt (self st1) (trace st1 ++ [(CheckCall argv, world (trace st1) (CheckCall argv))])))
          as (l1 & l2 & l3 & -> & Cl).
        intros [= <- <-]. cbn [self trace]. split; [exact S1|]. split; [discriminate|].
        eexists. split; [rewrite T1, <- !app_assoc; reflexivity|].
        rewrite !commands_app, C1, Cl. cbn. easy.
      * intros [= <- <-]. cbn [self trace]. split; [exact S1|].
        split; [intros cmd out [= ->]; discriminate Ce|].
        eexists. split; [rewrite T1, <- !app_assoc; reflexivity|].
        rewrite !commands_app, C1. cbn. split; [easy|].
        intros Hw. apply Hw in R2. destruct R2 as [R2 _]. congruence.
  - destruct R1 as (tr0 & o & Hw0 & Ho).
    destruct (is_CalledProcessError e) eqn:Ce.
    + destruct (warn_failed_eq what e st1) as (l1 & l2 & l3 & -> & Cl).
      intros [= <- <-]. cbn [self trace]. split; [exact S1|]. split; [discriminate|].
      eexists. split; [rewrite T1, <- !app_assoc; reflexivity|].
      split; [|easy]. intros Hx. apply (Hx _ _ _ Hw0) in Ce. congruence.
    + intros [= <- <-]. split; [exact S1|].
      split; [intros cmd out [= ->]; discriminate Ce|].
      exists n1. split; [exact T1|]. rewrite C1.
      split; [intros _; split; [apply prefix_nil|discriminate]|].
      intros Hw. apply Hw in Hw0. destruct Hw0 as [_ Hw0]. congruence.
Qed.

Lemma logging_runs_no_command l msg : runs_no_command world (logging world l msg).
Proof.
  intros st r st'. rewrite logging_eq. intros [= <- <-]. cbn [self trace].
  split; [reflexivity|]. split; [|exact I]. eexists. split; reflexivity.
Qed.

Lemma ensure_dir_then_log_runs_no_command path l msg :
  runs_no_command world (ensure_dir world path ;; logging world l msg).
Proof.
  intros st r st'.
  cbv [ensure_dir path_exists ask call when logging perform bind ret raise negb].
  cbn [self trace].
  repeat match goal with
         | |- context [match world ?tr ?o with _ => _ end] =>
             let E := fresh "E" in destruct (world tr o) eqn:E; cbn [self trace]
         | |- context [if ?b then _ else _] => destruct b; cbn [self trace]
         end;
    intros [= <- <-]; cbn [self trace]; (split; [reflexivity|]);
    (split; [eexists; split; [rewrite <- ?app_assoc; reflexivity|reflexivity]|]);
    try exact I; eauto.
Qed.

Lemma mount_other_spec rp bp sp item st r st' :
  mount_other world rp bp sp item st = (r, st') ->
  self st' = self st /\
  (forall cmd out, r <> Raise (CalledProcessError cmd out)) /\
  exists new,
    trace st' = trace st ++ new /\
    (exit_status_of_commands world ->
     commands new `prefix_of` option_list (mount_plan rp bp sp item) /\
     (r = Ret tt -> commands new = option_list (mount_plan rp bp sp item))) /\
    (only_commands_fail world -> r = Ret tt).
Proof.
  destruct item as [path mount_part]. unfold mount_other, mount_plan. cbn [fst snd].
  destruct (String.eqb path "") eqn:Ep.
  { intros [= <- <-]. split; [reflexivity|]. split; [discriminate|].
    exists []. rewrite app_nil_r. cbn. split; [reflexivity|]. easy. }
  destruct (String.eqb_spec mount_part rp) as [Er|Er];
    destruct (String.eqb_spec mount_part bp) as [Eb|Eb];
    destruct (String.eqb_spec mount_part sp) as [Es|Es]; cbn [negb andb].
  all: match goal with
       | |- context [bool_decide ?P] =>
           first [rewrite (bool_decide_eq_true_2 P)
                    by (rewrite !elem_of_cons; tauto)
                 |rewrite (bool_decide_eq_false_2 P)
                    by (rewrite !elem_of_cons, elem_of_nil; tauto)]
       end.
  all: try match goal with
           | |- ret tt _ = _ -> _ =>
               intros [= <- <-]; (split; [reflexivity|]); (split; [discriminate|]);
               exists []; rewrite app_nil_r; cbn; (split; [reflexivity|]); easy
           end.
  all: cbn [option_list].
  1-4: apply try_command, logging_runs_no_command.
  unfold try_except. rewrite bind_assoc_at.
  apply (try_command (ensure_dir world (path_join DEST_DIR path) ;; logging world LDebug _)).
  apply ensure_dir_then_log_runs_no_command.
Qed.

Lemma mount_others_spec rp bp sp items : forall st r st',
  for_each items (mount_other world rp bp sp) st = (r, st') ->
  self st' = self st /\
  (forall cmd out, r <> Raise (CalledProcessError cmd out)) /\
  exists new,
    trace st' = trace st ++ new /\
    (exit_status_of_commands world ->
     commands new `prefix_of` omap (mount_plan rp bp sp) items /\
     (r = Ret tt -> commands new = omap (mount_plan rp bp sp) items)) /\
    (only_commands_fail world -> r = Ret tt).
Proof.
  induction items as [|item items IH]; intros st r st' H; cbn [for_each] in H.
  - injection H as <- <-. split; [reflexivity|]. split; [discriminate|].
    exists []. rewrite app_nil_r. cbn. split; [reflexivity|]. easy.
  - unfold bind in H.
    destruct (mount_other world rp bp sp item st) as [r1 st1] eqn:E1.
    apply mount_other_spec in E1. destruct E1 as (S1 & N1 & n1 & T1 & C1 & W1).
    assert (Hexp : omap (mount_plan rp bp sp) (item :: items)
                   = option_list (mount_plan rp bp sp item) ++ omap (mount_plan rp bp sp) items).
    { cbn [omap list_omap]. now destruct (mount_plan rp bp sp item). }
    rewrite Hexp.
    destruct r1 as [[]|e|c].
    + apply IH in H. destruct H as (S2 & N2 & n2 & T2 & C2 & W2).
      split; [congruence|]. split; [exact N2|]. exists (n1 ++ n2).
      split; [rewrite T2, T1, app_assoc; reflexivity|]. split; [|exact W2].
      intros Hx. destruct (C1 Hx) as [_ C1']. destruct (C2 Hx) as [P2 C2'].
      rewrite commands_app, (C1' eq_refl). split; [now apply prefix_app|].
      intros Hr. now rewrite (C2' Hr).
    + injection H as <- <-. split; [exact S1|]. split; [exact N1|].
      exists n1. split; [exact T1|]. split; [|exact W1].
      intros Hx. destruct (C1 Hx) as [P1 _]. split; [now apply prefix_app_r|discriminate].
    + injection H as <- <-. split; [exact S1|]. split; [exact N1|].
      exists n1. split; [exact T1|]. split; [|exact W1].
      intros Hx. destruct (C1 Hx) as [P1 _]. split; [now apply prefix_app_r|discriminate].
Qed.

End MountOthers.

(** X9 -- The loop of the advanced mode over the mount points, after root
    and boot are mounted, never lets an exit status through: a partition
    that cannot be mounted, or a swap that cannot be activated, is logged and
    the loop goes on.  Where only commands fail with an exit status, a loop
    that returns has run, in the order of the mount points, one [mount] for
    every partition that is none of root, boot and swap and has a mount
    point, and [swapon] for the swap partition, and nothing else; it mounts
    none of root, boot and swap.  The directory of a mount is
    [os.path.join(DEST_DIR, path)], which for a mount point that starts with
    a slash is the mount point itself.  The installer is left as it is, and
    where nothing but commands fails the loop returns. *)
Theorem mount_failures_do_not_stop_the_loop
    (world : World) (root_partition boot_partition swap_partition : string)
    (items : list (string * string)) (st : St) (r : res unit) (st' : St) :
  for_each items (mount_other world root_partition boot_partition swap_partition) st
  = (r, st') ->
  self st' = self st /\
  (forall cmd out, r <> Raise (CalledProcessError cmd out)) /\
  exists new,
    trace st' = trace st ++ new /\
    (exit_status_of_commands world ->
     commands new `prefix_of` omap (mount_plan root_partition boot_partition swap_partition) items /\
     (r = Ret tt ->
      commands new = omap (mount_plan root_partition boot_partition swap_partition) items)) /\
    (only_commands_fail world -> r = Ret tt) /\
    (forall path, String.prefix "/" path = true -> path_join DEST_DIR path = path).
Proof.
  intros H. apply mount_others_spec in H. destruct H as (S1 & N1 & new & T1 & C1 & W1).
  split; [exact S1|]. split; [exact N1|]. exists new.
  split; [exact T1|]. split; [exact C1|]. split; [exact W1|].
  intros path Hp. unfold path_join. now rewrite Hp.
Qed.

Lemma mount_failures_do_not_stop_the_loop_witness :
  let out := for_each five_partitions
               (mount_other bad_disk_world "/dev/sda2" "/dev/sda1" "/dev/sda3")
               (fresh scenario_installer) in
  out.1 = Ret tt /\
  commands (trace out.2) =
    [["swapon"; "/dev/sda3"];
     ["mount"; "/dev/sdb1"; "/data"];
     ["mount"; "/dev/sda4"; "/home"]].
Proof.
  intros out.
  destruct (mount_failures_do_not_stop_the_loop bad_disk_world
              "/dev/sda2" "/dev/sda1" "/dev/sda3" five_partitions
              (fresh scenario_installer) out.1 out.2 (surjective_pairing _))
    as (_ & _ & new & T & C & _ & _).
  assert (R : out.1 = Ret tt) by (vm_compute; reflexivity).
  assert (Hx : exit_status_of_commands bad_disk_world).
  { intros tr o e Hw _. destruct o; try reflexivity; try discriminate Hw.
    cbn in Hw. repeat match type of Hw with
                      | (if ?b then _ else _) = _ => destruct b
                      end; discriminate Hw. }
  cbn [fresh trace app] in T. rewrite T. split; [exact R|].
  rewrite (proj2 (C Hx) R). vm_compute. reflexivity.
Defined.

Section MissingRoot.

Variable world : World.

Lemma nothing_run_nothing_said new :
  Forall (fun x : step => is_command_or_event x.1 = false) new ->
  commands new = [] /\ events new = [].
Proof.
  induction 1 as [|[o a] new Ho _ [I1 I2]]; [easy|].
  unfold commands, events in *. cbn [omap list_omap]. rewrite I1, I2.
  destruct o; try discriminate Ho; easy.
Qed.

Lemma init_target_silent :
  adds is_command_or_event same_devices no_exit (init_target world).
Proof. unfold init_target. adds_auto. Qed.

Lemma mount_target_without_root st :
  dict_get "/" (mount_devices (self st)) = None ->
  mount_target world st = (Raise (OtherException "KeyError"), st).
Proof.
  intros H. unfold mount_target, bind at 1, get_self at 1. now rewrite H.
Qed.

Lemma prepare_without_root st r st' :
  mounts_target (method (self st)) = true ->
  dict_get "/" (mount_devices (self st)) = None ->
  prepare world st = (r, st') ->
  (exists e, r = Raise e) /\
  exists new, trace st' = trace st ++ new /\ commands new = [] /\ events new = [].
Proof.
  intros Hm Hr. unfold prepare. unfold bind at 1.
  destruct (init_target world st) as [r0 s0] eqn:E0.
  destruct (init_target_silent _ _ _ E0) as ((_ & _ & M0 & D0) & (n0 & T0 & F0) & X0).
  apply nothing_run_nothing_said in F0. destruct F0 as [C0 V0].
  destruct r0 as [[]|e|c]; [| |now elim (X0 c)].
  - unfold bind at 1, get_self at 1. rewrite M0.
    assert (Ha : String.eqb (method (self st)) "automatic" = false).
    { pose proof Hm as Hm'. unfold mounts_target in Hm'. apply orb_true_iff in Hm'.
      destruct Hm' as [Hm'|Hm']; apply String.eqb_eq in Hm'; now rewrite Hm'. }
    unfold mounts_target in Hm. rewrite Ha, Hm. cbn [when]. unfold bind at 1, ret at 1. unfold bind at 1.
    match goal with
    | |- context [bind (path_exists world ?p) ?f s0] =>
        destruct (bind (path_exists world p) f s0) as [r1 s1] eqn:E1
    end.
    assert (A1 : adds is_command_or_event same_devices no_exit
                   (e <- path_exists world DEST_DIR ;;
                    when (negb e) (call world (Mkdir DEST_DIR)))) by adds_auto.
    destruct (A1 _ _ _ E1) as ((_ & _ & M1 & D1) & (n1 & T1 & F1) & X1).
    apply nothing_run_nothing_said in F1. destruct F1 as [C1 V1].
    destruct r1 as [[]|e|c]; [| |now elim (X1 c)].
    + unfold bind at 1. rewrite mount_target_without_root by (now rewrite D1, D0).
      intros [= <- <-]. split; [eauto|]. exists (n0 ++ n1).
      split; [rewrite T1, T0, app_assoc; reflexivity|].
      unfold commands, events in *. now rewrite !omap_app, C0, C1, V0, V1.
    + intros [= <- <-]. split; [eauto|]. exists (n0 ++ n1).
      split; [rewrite T1, T0, app_assoc; reflexivity|].
      unfold commands, events in *. now rewrite !omap_app, C0, C1, V0, V1.
  - intros [= <- <-]. split; [eauto|]. now exists n0.
Qed.

End MissingRoot.

(** X10 -- In the alongside and advanced modes the partitions must have a
    root: when [mount_devices] has no entry for "/", the look-up of the
    root partition is a KeyError, raised before anything is mounted.  A run
    of [run_installation] then never returns and does not end the process:
    it raises, without having run one command or emitted one event. *)
Theorem no_root_partition_is_a_key_error
    (world : World) (st : St) :
  mounts_target (method (self st)) = true ->
  dict_get "/" (mount_devices (self st)) = None ->
  mount_target world st = (Raise (OtherException "KeyError"), st) /\
  exists e st' new,
    run_installation world st = (Raise e, st') /\
    trace st' = trace st ++ new /\ commands new = [] /\ events new = [].
Proof.
  intros Hm Hr. split; [now apply mount_target_without_root|].
  destruct (prepare world st) as [r st'] eqn:E.
  destruct (prepare_without_root world st r st' Hm Hr E) as ([e ->] & new & T & C & V).
  exists e, st', new. split; [|easy].
  unfold run_installation, bind. now rewrite E.
Qed.

Lemma no_root_partition_is_a_key_error_witness :
  mount_target calm_world (fresh rootless_installer)
  = (Raise (OtherException "KeyError"), fresh rootless_installer) /\
  exists e st' new,
    run_installation calm_world (fresh rootless_installer) = (Raise e, st') /\
    trace st' = [] ++ new /\ commands new = [] /\ events new = [].
Proof.
  exact (no_root_partition_is_a_key_error calm_world (fresh rootless_installer)
           eq_refl eq_refl).
Defined.

Section Offset.

Variable world : World.

Lemma run_line_count t n line st n' st' :
  run_line world t n line st = (Ret n', st') ->
  n' = final_count n (offset t) (processed [line]).
Proof.
  unfold run_line, final_count, processed, processed_of. cbn [omap list_omap].
  destruct (Rsync.first_match line) as [[[x m1] m2]|]; cbn [last].
  - cbv zeta. intros H. peel H. now injection H as <-.
  - now intros [= <- _].
Qed.

Lemma final_count_cons n off line lines :
  final_count (final_count n off (processed [line])) off (processed lines)
  = final_count n off (processed (line :: lines)).
Proof.
  unfold final_count, processed. cbn [omap list_omap].
  destruct (processed_of line) as [c|]; [|reflexivity]. cbn [last].
  fold (omap processed_of lines).
  destruct (omap processed_of lines) as [|d ds]; [reflexivity|].
  rewrite last_cons_cons. destruct (last (d :: ds)) eqn:L; [reflexivity|].
  now apply last_None in L.
Qed.

Lemma run_lines_count t lines : forall n st n' st',
  run_lines world t n lines st = (Ret n', st') ->
  n' = final_count n (offset t) (processed lines).
Proof.
  induction lines as [|line lines IH]; intros n st n' st' H; cbn [run_lines] in H.
  - now injection H as <- _.
  - peel H. apply run_line_count in H0. apply IH in H. subst a.
    now rewrite final_count_cons in H.
Qed.

End Offset.

(** X11 -- A copy job that ran to its end leaves in [offset] the count of
    the last progress line it read, [total - remaining] plus the offset it
    started with; when no line reported progress it leaves 0, whatever the
    offset was.  The expected total and the start count are unchanged. *)
Theorem copy_job_final_offset
    (world : World) (t t' : FileCopyThread) (st st' : St) :
  FileCopyThread_run world t st = (Ret t', st') ->
  offset t' = final_count 0 (offset t)
                (processed (lines_of (world (trace st) RsyncLines))) /\
  total_files t' = total_files t /\
  our_current t' = our_current t.
Proof.
  unfold FileCopyThread_run. intros H. peel H. injection H as <- _.
  cbn [offset total_files our_current]. split; [|easy].
  apply run_lines_count in H1. subst a0. f_equal. f_equal.
  revert H0. unfold stdout_lines, bind, perform, ret, raise. cbn [self trace].
  destruct (world (trace st) RsyncLines); intros [= <- _]; reflexivity.
Qed.

Lemma copy_job_final_offset_witness :
  let t' := res_value job_200
              (FileCopyThread_run calm_world (mkThread 0 2000 500)
                 (fresh scenario_installer)).1 in
  offset t' = 700%Z /\ total_files t' = 2000%Z /\ our_current t' = 0%Z.
Proof.
  intros t'.
  exact (copy_job_final_offset calm_world (mkThread 0 2000 500) t'
           (fresh scenario_installer)
           (FileCopyThread_run calm_world (mkThread 0 2000 500)
              (fresh scenario_installer)).2
           ltac:(vm_compute; reflexivity)).
Defined.

Section MissingImage.

Variable world : World.

Lemma nothing_run_nothing_copied new :
  Forall (fun x : step => is_command_or_copy x.1 = false) new ->
  commands new = [] /\ copies_started new = [].
Proof.
  induction 1 as [|[o a] new Ho _ [I1 I2]]; [easy|].
  unfold commands, copies_started in *. cbn [omap list_omap]. rewrite I1, I2.
  destruct o; try discriminate Ho; easy.
Qed.

Lemma aborts_bind {A B} (m : M A) (f : A -> M B) st :
  adds is_command_or_copy same_queue no_exit m ->
  (forall a s1, aborts (f a) s1) ->
  aborts (bind m f) st.
Proof.
  intros Hm Hf Q. unfold bind.
  destruct (m st) as [[a|e|c] s1] eqn:E;
    destruct (Hm _ _ _ E) as ((Q1 & _) & (n1 & T1 & F1) & X1).
  - destruct (Hf a s1) as (r & st' & n2 & E2 & Q2 & T2 & F2 & R2); [congruence|].
    exists r, st', (n1 ++ n2). split; [exact E2|]. split; [exact Q2|].
    split; [rewrite T2, T1, app_assoc; reflexivity|].
    split; [now apply Forall_app|exact R2].
  - exists (Raise e), s1, n1. repeat split; try assumption. congruence.
  - now elim (X1 c).
Qed.

Lemma fatal_aborts txt st : aborts (queue_fatal_event world txt) st.
Proof.
  intros Q.
  cbv [queue_fatal_event queue_event callback_queue_join perform bind
       get_self set_self os_exit raise ret].
  cbn [self trace callback_queue set_running set_error]. rewrite Q.
  cbn [self trace callback_queue set_running set_error]. rewrite Q.
  do 3 eexists. split; [reflexivity|].
  cbn [self trace callback_queue set_running set_error].
  split; [exact Q|]. split; [rewrite <- app_assoc; reflexivity|].
  split; [|reflexivity]. now repeat constructor.
Qed.

Lemma aborts_first {A B} (m : M A) (f : A -> M B) st :
  aborts m st -> aborts (bind m f) st.
Proof.
  intros Hm Q. destruct (Hm Q) as (r & st' & new & E & Q' & T & F & R).
  unfold bind. rewrite E. destruct r as [a|e|c]; [easy| |].
  - now exists (Raise e), st', new.
  - now exists (Exit c), st', new.
Qed.

Lemma aborts_get_self {B} (f : Installer -> M B) st :
  aborts (f (self st)) st -> aborts (bind get_self f) st.
Proof. intros H. exact H. Qed.

(** The fatal event that follows the look-up of a file that is missing. *)
Lemma aborts_when_missing path txt st :
  (forall tr, world tr (PathExists path) = Truth false) ->
  aborts (e <- path_exists world path ;;
          when (negb e) (logging world LError txt ;; queue_fatal_event world txt)) st.
Proof.
  intros Hp Q. unfold bind at 1.
  assert (E : path_exists world path st
              = (Ret false, mkSt (self st) (trace st ++ [(PathExists path, Truth false)]))).
  { cbv [path_exists ask perform bind ret]. now rewrite Hp. }
  rewrite E. cbn [negb when].
  rewrite (bind_Ret _ _ _ _ _ (logging_eq world _ _ _)).
  edestruct (fatal_aborts txt) as (r & st' & new & E2 & Q2 & T2 & F2 & R2);
    [|exists r, st'; eexists; split; [exact E2|]]; [exact Q|].
  split; [exact Q2|]. split; [rewrite T2; cbn [trace]; rewrite <- !app_assoc; reflexivity|].
  split; [|exact R2]. repeat (apply Forall_cons; split; [reflexivity|]). exact F2.
Qed.

End MissingImage.

(** X13 -- When the base image of the live medium does not exist and there
    is a callback queue, [install_system] ends the process before anything
    is mounted or copied: it runs no command and starts no copy, emits
    exactly one [error] event, and leaves the installer stopped and in
    error. *)
Theorem missing_image_aborts_before_mounting
    (world : World) (st : St) :
  callback_queue (self st) = true ->
  (forall tr, world tr (PathExists (media (self st))) = Truth false) ->
  exists st' new,
    install_system world st = (Exit 0, st') /\
    trace st' = trace st ++ new /\
    commands new = [] /\ copies_started new = [] /\
    length (error_events new) = 1%nat /\
    failed (self st').
Proof.
  intros Q Hm.
  assert (Hb : aborts (install_system_body world) st).
  { unfold install_system_body. apply aborts_get_self.
    do 3 (apply aborts_bind; [adds_auto|intros _ ?]).
    apply aborts_first. now apply aborts_when_missing. }
  destruct (Hb Q) as (r & s1 & n1 & E1 & Q1 & T1 & F1 & R1).
  assert (Hi : exists st' n2,
             install_system world st = (Exit 0, st') /\
             trace st' = trace s1 ++ n2 /\
             Forall (fun x : step => is_command_or_copy x.1 = false) n2).
  { unfold install_system, try_except. rewrite E1.
    destruct r as [[]|e|c]; [easy| |].
    - cbn [is_Exception].
      rewrite (bind_Ret _ _ _ _ _ (logging_eq world _ _ _)).
      edestruct (fatal_aborts world (Exc e)) as (r & st' & new & E2 & Q2 & T2 & F2 & R2);
        [|unfold bind at 1; rewrite E2]; [exact Q1|].
      destruct r as [[]|e2|c]; [easy| |].
      + exfalso. revert E2.
        cbv [queue_fatal_event queue_event callback_queue_join perform bind
             get_self set_self os_exit raise ret].
        cbn [self trace callback_queue set_running set_error]. rewrite Q1.
        cbn [self trace callback_queue set_running set_error]. rewrite Q1.
        discriminate.
      + subst c. exists st'. eexists. split; [reflexivity|].
        split; [rewrite T2; cbn [trace]; rewrite <- app_assoc; reflexivity|].
        apply Forall_cons. split; [reflexivity|exact F2].
    - subst c. exists s1, []. rewrite app_nil_r. now repeat split. }
  destruct Hi as (st' & n2 & E & T2 & F2).
  exists st', (n1 ++ n2). split; [exact E|].
  split; [rewrite T2, T1, app_assoc; reflexivity|].
  destruct (nothing_run_nothing_copied (n1 ++ n2)) as [C1 C2]; [now apply Forall_app|].
  split; [exact C1|]. split; [exact C2|].
  destruct (fatal_abort_with_queue world st (Exit 0) st' Q E) as (_ & new & T & _ & _ & L & Fl).
  assert (new = n1 ++ n2).
  { apply (app_inv_head (trace st)). now rewrite <- T, T2, T1, app_assoc. }
  subst new. now split.
Qed.

Lemma missing_image_aborts_before_mounting_witness :
  let st := (prepare no_media_world (fresh target_installer)).2 in
  exists st' new,
    install_system no_media_world st = (Exit 0, st') /\
    trace st' = trace st ++ new /\
    commands new = [] /\ copies_started new = [] /\
    length (error_events new) = 1%nat /\
    failed (self st').
Proof.
  intros st.
  apply (missing_image_aborts_before_mounting no_media_world st).
  - vm_compute. reflexivity.
  - intros tr. reflexivity.
Defined.

Section ProgressReport.

Lemma strip_prefix_None lit : forall s,
  String.prefix lit s = false -> PyStr.strip_prefix lit s = None.
Proof.
  induction lit as [|a lit IH]; intros s H; [now destruct s|].
  destruct s as [|b s]; [reflexivity|]. cbn in *.
  destruct (ascii_dec a b) as [->|Hab].
  - rewrite Ascii.eqb_refl. now apply IH.
  - apply Ascii.eqb_neq in Hab. now rewrite Hab.
Qed.

Lemma contains_false_prefix needle hay :
  PyStr.contains needle hay = false -> String.prefix needle hay = false.
Proof. destruct hay; cbn; intros H; now apply orb_false_iff in H. Qed.

Lemma contains_false_tail needle c hay :
  PyStr.contains needle (String c hay) = false -> PyStr.contains needle hay = false.
Proof. cbn. intros H. now apply orb_false_iff in H. Qed.

(** No match of the pattern starts inside a text that does not hold
    [xfr#], whatever follows it. *)
Lemma no_match_inside p tail :
  p <> "" ->
  String.prefix "xfr#" p = false ->
  Rsync.match_here (p +:+ "xfr#" +:+ tail) = None.
Proof.
  intros Hp H. unfold Rsync.match_here.
  assert (E : PyStr.strip_prefix "xfr#" (p +:+ "xfr#" +:+ tail) = None); [|now rewrite E].
  destruct p as [|c1 [|c2 [|c3 [|c4 q]]]]; [easy| | | |];
    rewrite !append_cons, ?append_nil.
  - cbn [PyStr.strip_prefix]. now destruct (Ascii.eqb "x" c1).
  - cbn [PyStr.strip_prefix]. destruct (Ascii.eqb "x" c1); [|reflexivity].
    now destruct (Ascii.eqb "f" c2).
  - cbn [PyStr.strip_prefix]. destruct (Ascii.eqb "x" c1); [|reflexivity].
    destruct (Ascii.eqb "f" c2); [|reflexivity]. now destruct (Ascii.eqb "r" c3).
  - apply strip_prefix_None. cbn [String.prefix] in *.
    destruct (ascii_dec "x" c1); [|reflexivity].
    destruct (ascii_dec "f" c2); [|reflexivity].
    destruct (ascii_dec "r" c3); [|reflexivity].
    destruct (ascii_dec "#" c4); [|reflexivity]. now destruct q.
Qed.

Lemma first_match_after p tail g :
  PyStr.contains "xfr#" p = false ->
  Rsync.match_here ("xfr#" +:+ tail) = Some g ->
  Rsync.first_match (p +:+ "xfr#" +:+ tail) = Some g.
Proof.
  intros Hp Hm. induction p as [|c p IH].
  - rewrite append_nil. rewrite !append_cons in *. cbn [Rsync.first_match]. now rewrite Hm.
  - rewrite append_cons. cbn [Rsync.first_match]. rewrite <- append_cons.
    rewrite no_match_inside; [|discriminate|now apply contains_false_prefix].
    rewrite append_cons. apply IH. now apply contains_false_tail in Hp.
Qed.

Lemma match_here_progress_report xfr remaining total rest :
  xfr <> "" -> remaining <> "" -> total <> "" ->
  all_digits xfr = true -> all_digits remaining = true -> all_digits total = true ->
  starts_with_digit rest = false ->
  Rsync.match_here
    ("xfr#" +:+ xfr +:+ ", ir-chk=" +:+ remaining +:+ "/" +:+ total +:+ rest)
  = Some (xfr, remaining, total).
Proof.
  intros N1 N2 N3 D1 D2 D3 Hr. unfold Rsync.match_here.
  rewrite strip_prefix_app.
  rewrite digits1_app by (assumption || reflexivity).
  rewrite strip_prefix_app.
  rewrite digits1_app by (assumption || reflexivity).
  rewrite strip_prefix_app.
  now rewrite digits1_app by assumption.
Qed.

End ProgressReport.

(** X14 -- The pattern of the copy job finds the progress report of rsync
    wherever it stands in the line: in a line that holds
    [xfr#N, ir-chk=R/T] (three numbers in decimal digits, the last one not
    followed by a digit) after a text without [xfr#], the three groups are
    N, R and T, and the count of processed files of the line is T - R. *)
Theorem progress_report_is_found_in_the_line
    (before xfr remaining total rest : string) :
  PyStr.contains "xfr#" before = false ->
  xfr <> "" -> remaining <> "" -> total <> "" ->
  all_digits xfr = true -> all_digits remaining = true -> all_digits total = true ->
  starts_with_digit rest = false ->
  let line := before +:+ "xfr#" +:+ xfr +:+ ", ir-chk=" +:+ remaining +:+ "/"
              +:+ total +:+ rest in
  Rsync.first_match line = Some (xfr, remaining, total) /\
  processed_of line = Some (PyStr.int total - PyStr.int remaining)%Z.
Proof.
  intros Hb N1 N2 N3 D1 D2 D3 Hr line.
  assert (E : Rsync.first_match line = Some (xfr, remaining, total)).
  { apply first_match_after; [exact Hb|]. now apply match_here_progress_report. }
  split; [exact E|]. unfold processed_of. now rewrite E.
Qed.

Lemma progress_report_is_found_in_the_line_witness :
  let line := "  1,024 100% 1.00MB/s 0:00:00 (" +:+ "xfr#" +:+ "12" +:+ ", ir-chk="
              +:+ "1040" +:+ "/" +:+ "2000" +:+ ")" in
  Rsync.first_match line = Some ("12", "1040", "2000") /\
  processed_of line = Some (PyStr.int "2000" - PyStr.int "1040")%Z.
Proof.
  apply (progress_report_is_found_in_the_line
           "  1,024 100% 1.00MB/s 0:00:00 (" "12" "1040" "2000" ")");
    try reflexivity; discriminate.
Defined.

Section Crypttab.

Variable world : World.

Lemma crypttab_ops_app tr1 tr2 :
  crypttab_ops (tr1 ++ tr2) = crypttab_ops tr1 ++ crypttab_ops tr2.
Proof. apply omap_app. Qed.

Lemma no_crypttab_op new :
  Forall (fun x : step => is_crypttab_op x.1 = false) new -> crypttab_ops new = [].
Proof.
  induction 1 as [|[o a] new Ho _ IH]; [reflexivity|].
  unfold crypttab_ops in *. cbn [omap list_omap]. rewrite IH.
  destruct o; try discriminate Ho; reflexivity.
Qed.

Lemma append_crypttab_Ret line st u st' :
  append_crypttab world crypttab line st = (Ret u, st') ->
  self st' = self st /\
  exists new, trace st' = trace st ++ new /\ crypttab_ops new = guarded_append line.
Proof.
  unfold append_crypttab. intros H. peel H.
  repeat match goal with
         | Hx : call _ _ _ = (Ret _, _) |- _ => apply call_Ret in Hx; destruct Hx as [? ->]
         | Hx : logging _ _ _ _ = _ |- _ => rewrite logging_eq in Hx; injection Hx as _ <-
         end.
  cbn [self trace]. split; [reflexivity|].
  eexists. split; [rewrite <- !app_assoc; reflexivity|].
  unfold crypttab_ops. cbn [app omap list_omap crypttab_op_of fst].
  now rewrite String.eqb_refl.
Qed.

Lemma added_to_fstab_quiet all_lines txt :
  adds is_crypttab_op same_devices no_exit (added_to_fstab world all_lines txt).
Proof. unfold added_to_fstab. adds_auto. Qed.

(** One turn of the loop. *)
Lemma fstab_entry_crypttab use_luks use_lvm all_lines item st lines' st' :
  fstab_entry world use_luks use_lvm all_lines item st = (Ret lines', st') ->
  same_devices (self st) (self st') /\
  exists new,
    trace st' = trace st ++ new /\
    exists crypt_lines,
      crypttab_ops new = flat_map guarded_append crypt_lines /\
      length crypt_lines =
        match fs_devices (self st) !! item.2 with
        | Some myfmt =>
            if negb (PyStr.contains "swap" myfmt)
               && (home_on_luks (self st) use_luks use_lvm item.1
                   || advanced_luks (self st) use_luks item.1 item.2)
            then 1%nat else 0%nat
        | None => 0%nat
        end.
Proof.
  intros H.
  split; [exact (proj1 (fstab_entry_keeps world _ _ _ _ _ _ _ H))|].
  destruct item as [mount_point partition_path]. cbn [fst snd].
  unfold fstab_entry in H. peel H.
  apply ask_str_Ret in H0. destruct H0 as [-> _]. injection H1 as <- <-.
  cbn [self trace] in *.
  destruct (fs_devices (self st) !! partition_path) as [myfmt|].
  2:{ injection H as _ <-. eexists. split; [reflexivity|]. now exists []. }
  destruct (PyStr.contains "swap" myfmt); cbn [negb andb].
  { destruct (added_to_fstab_quiet _ _ _ _ _ H) as (_ & (n & -> & F) & _).
    apply no_crypttab_op in F. cbn [trace].
    eexists. split; [rewrite <- app_assoc; reflexivity|]. exists [].
    rewrite crypttab_ops_app, F. now split. }
  cbv zeta in H. fold crypttab in H.
  destruct (home_on_luks (self st) use_luks use_lvm mount_point); cbn [orb].
  { peel H. rewrite settings_get_eq in H0. injection H0 as <- <-.
    apply append_crypttab_Ret in H1. destruct H1 as (S2 & n2 & T2 & C2).
    destruct (added_to_fstab_quiet _ _ _ _ _ H) as (_ & (n & -> & F) & _).
    apply no_crypttab_op in F. cbn [self trace] in *.
    eexists. split; [rewrite T2, <- !app_assoc; reflexivity|].
    eexists [_]. rewrite !crypttab_ops_app, C2, F. cbn. split; reflexivity. }
  destruct (advanced_luks (self st) use_luks mount_point partition_path).
  { peel H.
    apply append_crypttab_Ret in H0. destruct H0 as (S2 & n2 & T2 & C2).
    destruct (added_to_fstab_quiet _ _ _ _ _ H) as (_ & (n & -> & F) & _).
    apply no_crypttab_op in F. cbn [self trace] in *.
    eexists. split; [rewrite T2, <- !app_assoc; reflexivity|].
    eexists [_]. rewrite !crypttab_ops_app, C2, F. cbn. split; reflexivity. }
  match type of H with
  | ?m ?s = _ =>
      assert (A : adds is_crypttab_op same_devices no_exit m)
  end.
  { unfold added_to_fstab, settings_set, ensure_dir. adds_auto. }
  destruct (A _ _ _ H) as (_ & (n & -> & F) & _).
  apply no_crypttab_op in F. cbn [trace].
  eexists. split; [rewrite <- app_assoc; reflexivity|]. exists [].
  rewrite crypttab_ops_app, F. now split.
Qed.

Lemma fstab_loop_crypttab use_luks use_lvm items : forall all_lines st lines' st',
  fstab_loop world use_luks use_lvm all_lines items st = (Ret lines', st') ->
  same_devices (self st) (self st') /\
  exists new,
    trace st' = trace st ++ new /\
    exists crypt_lines,
      crypttab_ops new = flat_map guarded_append crypt_lines /\
      length crypt_lines =
        length (List.filter
                  (fun item =>
                     match fs_devices (self st) !! item.2 with
                     | Some myfmt =>
                         negb (PyStr.contains "swap" myfmt)
                         && (home_on_luks (self st) use_luks use_lvm item.1
                             || advanced_luks (self st) use_luks item.1 item.2)
                     | None => false
                     end) items).
Proof.
  induction items as [|item items IH]; intros all_lines st lines' st' H;
    cbn [fstab_loop] in H.
  - injection H as _ <-. split; [reflexivity|]. exists []. rewrite app_nil_r.
    split; [reflexivity|]. now exists [].
  - peel H. apply fstab_entry_crypttab in H0.
    destruct H0 as (S1 & n1 & T1 & c1 & C1 & L1).
    apply IH in H. destruct H as (S2 & n2 & T2 & c2 & C2 & L2).
    split; [now transitivity (self s)|]. exists (n1 ++ n2).
    split; [rewrite T2, T1, app_assoc; reflexivity|].
    exists (c1 ++ c2). rewrite crypttab_ops_app, C1, C2, flat_map_app.
    split; [reflexivity|].
    destruct S1 as (F1 & _ & M1 & _).
    assert (Eh : forall mp, home_on_luks (self s) use_luks use_lvm mp
                            = home_on_luks (self st) use_luks use_lvm mp)
      by (intros mp; unfold home_on_luks; now rewrite M1).
    assert (Ea : forall mp pp, advanced_luks (self s) use_luks mp pp
                               = advanced_luks (self st) use_luks mp pp)
      by (intros mp pp; unfold advanced_luks; now rewrite M1).
    rewrite length_app, L1, L2. cbn [List.filter].
    rewrite (List.filter_ext _
               (fun item =>
                  match fs_devices (self st) !! item.2 with
                  | Some myfmt =>
                      negb (PyStr.contains "swap" myfmt)
                      && (home_on_luks (self st) use_luks use_lvm item.1
                          || advanced_luks (self st) use_luks item.1 item.2)
                  | None => false
                  end))
      by (intros it; now rewrite F1, Eh, Ea).
    destruct (fs_devices (self st) !! item.2) as [myfmt|]; [|reflexivity].
    match goal with |- context [if ?b then 1%nat else 0%nat] => destruct b end;
      reflexivity.
Qed.

End Crypttab.

(** X15 -- When [auto_fstab] returns, /install/etc/crypttab has received
    one line for each entry written through a LUKS mapping (home of the
    automatic installation, the mapped partitions of the advanced one), and
    only those; it was opened to all (mode 0o666) right before each line
    and closed again (mode 0o600) right after it, so that it is left with
    mode 0o600; and nothing else was done to the file. *)
Theorem crypttab_is_closed_after_each_line
    (world : World) (st st' : St) :
  auto_fstab world st = (Ret tt, st') ->
  exists new crypt_lines,
    trace st' = trace st ++ new /\
    crypttab_ops new = flat_map guarded_append crypt_lines /\
    length crypt_lines = length (List.filter (is_luks_entry (self st)) (mount_devices (self st))).
Proof.
  unfold auto_fstab. intros H. peel H.
  match goal with Hx : fstab_lines _ _ = _ |- _ => unfold fstab_lines in Hx; peel Hx end.
  repeat match goal with
         | Hx : settings_get _ _ = _ |- _ =>
             rewrite settings_get_eq in Hx; injection Hx as <- <-
         | Hx : get_self _ = _ |- _ => injection Hx as <- <-
         end.
  match goal with
  | Hx : fstab_loop _ _ _ _ _ _ = _ |- _ =>
      apply fstab_loop_crypttab in Hx; destruct Hx as (_ & n1 & T1 & cl & C1 & L1)
  end.
  match goal with
  | Hx : added_to_fstab _ _ _ _ = _ |- _ =>
      destruct (added_to_fstab_quiet world _ _ _ _ _ Hx) as (_ & (n2 & T2 & F2) & _)
  end.
  apply no_crypttab_op in F2.
  match goal with
  | Hx : call _ _ _ = _ |- _ => apply call_Ret in Hx; destruct Hx as [a1 ->]
  end.
  rewrite logging_eq in H. injection H as <-. cbn [self trace].
  eexists. exists cl. split; [rewrite T2, T1, <- !app_assoc; reflexivity|].
  split; [|exact L1].
  rewrite !crypttab_ops_app, C1, F2. cbn. now rewrite app_nil_r.
Qed.

Lemma crypttab_is_closed_after_each_line_witness :
  let out := auto_fstab calm_world (fresh luks_volumes_installer) in
  exists new crypt_lines,
    trace out.2 = [] ++ new /\
    crypttab_ops new = flat_map guarded_append crypt_lines /\
    length crypt_lines = 2%nat.
Proof.
  intros out.
  apply (crypttab_is_closed_after_each_line calm_world (fresh luks_volumes_installer)).
  vm_compute. reflexivity.
Defined.

#[local] Instance same_ruuid_preorder : PreOrder same_ruuid.
Proof.
  split.
  - now intros s.
  - intros s1 s2 s3 A B. unfold same_ruuid in *. congruence.
Qed.

Section RootUuid.

Variable world : World.

Lemma fstab_entry_other use_luks use_lvm all_lines mount_point partition_path :
  mount_point <> "/" ->
  adds any_op same_ruuid no_exit
    (fstab_entry world use_luks use_lvm all_lines (mount_point, partition_path)).
Proof.
  intros Hm. apply String.eqb_neq in Hm.
  unfold fstab_entry, added_to_fstab, append_crypttab, settings_set, ensure_dir.
  rewrite Hm. cbn [when]. adds_auto.
  unfold same_ruuid. cbn [settings set_settings]. now rewrite lookup_insert_ne.
Qed.

Lemma fstab_loop_other use_luks use_lvm items : forall all_lines,
  Forall (fun item : string * string => item.1 <> "/") items ->
  adds any_op same_ruuid no_exit (fstab_loop world use_luks use_lvm all_lines items).
Proof.
  induction items as [|[mount_point partition_path] items IH]; intros all_lines Hi;
    cbn [fstab_loop].
  - adds_auto.
  - apply Forall_cons in Hi. destruct Hi as [Hm Hi].
    apply adds_bind; [typeclasses eauto|now apply fstab_entry_other|].
    intros a. now apply IH.
Qed.

Lemma fstab_entry_root use_luks use_lvm all_lines partition_path myfmt st lines' st' :
  fs_devices (self st) !! partition_path = Some myfmt ->
  PyStr.contains "swap" myfmt = false ->
  fstab_entry world use_luks use_lvm all_lines ("/", partition_path) st = (Ret lines', st') ->
  exists uuid new,
    world (trace st) (GetInfoUUID partition_path) = Str uuid /\
    trace st' = trace st ++ (GetInfoUUID partition_path, Str uuid) :: new /\
    settings (self st') !! "ruuid" = Some (PyStr uuid).
Proof.
  intros Hfs Hsw H. unfold fstab_entry in H. peel H.
  match goal with
  | Hx : ask_str _ _ _ = _ |- _ => apply ask_str_Ret in Hx; destruct Hx as [-> Hw]
  end.
  match goal with Hx : get_self _ = _ |- _ => injection Hx as <- <- end.
  cbn [self trace] in H. rewrite Hfs, Hsw in H. cbv zeta in H.
  change (home_on_luks (self st) use_luks use_lvm "/") with false in H.
  assert (Ea : advanced_luks (self st) use_luks "/" partition_path = false).
  { unfold advanced_luks. cbn. now rewrite andb_false_r. }
  rewrite Ea in H. cbn [String.eqb Ascii.eqb Bool.eqb] in H. cbn [when] in H. peel H.
  exists a. 
  match goal with
  | Hx : added_to_fstab _ _ _ _ = _ |- _ =>
      cbv [added_to_fstab logging perform bind ret] in Hx; injection Hx as _ <-
  end.
  match goal with
  | Hx : settings_set "ruuid" _ _ = _ |- _ =>
      cbv [settings_set set_self] in Hx; injection Hx as _ <-
  end.
  cbn [self trace settings set_settings].
  match goal with
  | Hx : ensure_dir _ _ _ = (Ret _, ?s) |- _ =>
      assert (A : adds any_op eq no_exit (ensure_dir world (path_join DEST_DIR "/")))
        by (unfold ensure_dir; adds_auto);
      destruct (A _ _ _ Hx) as (_ & (n1 & T1 & _) & _)
  end.
  match goal with
  | Hx : when _ _ _ = (Ret _, ?s) |- _ =>
      assert (A2 : adds any_op any_self no_exit
                     (when (PyStr.contains "btrfs" (fstab_type myfmt))
                        (settings_set "btrfs" (PyBool true))))
        by (unfold settings_set; adds_auto; typeclasses eauto);
      destruct (A2 _ _ _ Hx) as (_ & (n0 & T0 & _) & _)
  end.
  eexists. split; [exact Hw|]. split.
  - rewrite T1, T0. cbn [trace]. rewrite <- !app_assoc. cbn [app]. reflexivity.
  - apply lookup_insert_eq.
Qed.

End RootUuid.

(** X16 -- [auto_fstab] records the UUID of the root partition for the
    boot loader: when it returns, and the partitions have an entry for "/"
    (the only one, as in a dictionary; here the last one) whose device has a
    file system that is no swap, the setting [ruuid] is the UUID that
    [fs.get_info] reported for that device during the call.  Without an entry
    for "/" the setting is left as it was. *)
Theorem root_uuid_is_recorded
    (world : World) (st st' : St) (items1 items2 : list (string * string))
    (partition_path myfmt : string) :
  mount_devices (self st) = items1 ++ ("/", partition_path) :: items2 ->
  Forall (fun item : string * string => item.1 <> "/") items2 ->
  fs_devices (self st) !! partition_path = Some myfmt ->
  PyStr.contains "swap" myfmt = false ->
  auto_fstab world st = (Ret tt, st') ->
  (exists uuid new,
     trace st' = trace st ++ new /\
     In (GetInfoUUID partition_path, Str uuid) new /\
     settings (self st') !! "ruuid" = Some (PyStr uuid)) /\
  (forall st0 st1,
     Forall (fun item : string * string => item.1 <> "/") (mount_devices (self st0)) ->
     auto_fstab world st0 = (Ret tt, st1) ->
     settings (self st1) !! "ruuid" = settings (self st0) !! "ruuid").
Proof.
  intros Hmd Hi2 Hfs Hsw H. split.
  - unfold auto_fstab in H. peel H.
    match goal with Hx : fstab_lines _ _ = _ |- _ => unfold fstab_lines in Hx; peel Hx end.
    repeat match goal with
           | Hx : settings_get _ _ = _ |- _ =>
               rewrite settings_get_eq in Hx; injection Hx as <- <-
           | Hx : get_self _ = _ |- _ => injection Hx as <- <-
           end.
    match goal with
    | Hx : fstab_loop _ _ _ _ _ _ = _ |- _ =>
        rewrite Hmd in Hx; apply fstab_loop_app in Hx;
        destruct Hx as (mid & s1 & L1 & L2)
    end.
    cbn [fstab_loop] in L2. peel L2.
    destruct (fstab_loop_keeps world _ _ _ _ _ _ _ L1) as ((K1 & _) & (n1 & T1 & _) & _).
    match goal with
    | Hx : fstab_entry _ _ _ _ _ _ = _ |- _ =>
        apply (fstab_entry_root world _ _ _ _ myfmt) in Hx;
        [destruct Hx as (uuid & n2 & Hw & T2 & R2)|now rewrite K1|exact Hsw]
    end.
    destruct (fstab_loop_other world _ _ _ _ Hi2 _ _ _ L2) as (R3 & (n3 & T3 & _) & _).
    match goal with
    | Hx : added_to_fstab _ _ _ _ = _ |- _ =>
        cbv [added_to_fstab logging perform bind ret] in Hx; injection Hx as _ <-
    end.
    match goal with
    | Hx : call _ _ _ = _ |- _ => apply call_Ret in Hx; destruct Hx as [? ->]
    end.
    rewrite logging_eq in H. injection H as <-. cbn [self trace].
    exists uuid. eexists. split; [|split].
    + rewrite T3, T2, T1, <- !app_assoc. cbn [app]. reflexivity.
    + apply in_app_iff. right. now left.
    + unfold same_ruuid in R3. now rewrite R3.
  - clear. intros st0 st1 Hi H. unfold auto_fstab in H. peel H.
    match goal with Hx : fstab_lines _ _ = _ |- _ => unfold fstab_lines in Hx; peel Hx end.
    repeat match goal with
           | Hx : settings_get _ _ = _ |- _ =>
               rewrite settings_get_eq in Hx; injection Hx as <- <-
           | Hx : get_self _ = _ |- _ => injection Hx as <- <-
           end.
    match goal with
    | Hx : fstab_loop _ _ _ _ _ _ = _ |- _ =>
        destruct (fstab_loop_other world _ _ _ _ Hi _ _ _ Hx) as (R3 & _)
    end.
    match goal with
    | Hx : added_to_fstab _ _ _ _ = _ |- _ =>
        cbv [added_to_fstab logging perform bind ret] in Hx; injection Hx as _ <-
    end.
    match goal with
    | Hx : call _ _ _ = _ |- _ => apply call_Ret in Hx; destruct Hx as [? ->]
    end.
    rewrite logging_eq in H. injection H as <-. cbn [self trace]. exact R3.
Qed.

Lemma root_uuid_is_recorded_witness :
  let out := auto_fstab calm_world (fresh scenario_installer) in
  exists uuid new,
    trace out.2 = [] ++ new /\
    In (GetInfoUUID "/dev/sda2", Str uuid) new /\
    settings (self out.2) !! "ruuid" = Some (PyStr uuid).
Proof.
  intros out.
  apply (proj1 (root_uuid_is_recorded calm_world (fresh scenario_installer) out.2
                  [] [("/boot", "/dev/sda1"); ("swap", "/dev/sda3")] "/dev/sda2" "ext4"
                  eq_refl ltac:(repeat constructor; discriminate) eq_refl eq_refl
                  ltac:(vm_compute; reflexivity))).
Defined.

#[local] Instance same_setup_preorder : PreOrder same_setup.
Proof.
  split.
  - now intros s.
  - intros s1 s2 s3 (A1 & A2 & A3 & A4 & A5) (B1 & B2 & B3 & B4 & B5).
    repeat split; congruence.
Qed.

Section Setup.

Variable world : World.

Lemma run_lines_same_setup t lines : forall n,
  adds any_op same_setup (fun _ => True) (run_lines world t n lines).
Proof.
  induction lines as [|line lines IH]; intros n; cbn [run_lines].
  - adds_auto.
  - apply adds_bind; [typeclasses eauto| |intros a; apply IH].
    unfold run_line, update_progress. adds_auto.
Qed.

Lemma fstab_loop_same_setup use_luks use_lvm items : forall all_lines,
  adds any_op same_setup (fun _ => True)
    (fstab_loop world use_luks use_lvm all_lines items).
Proof.
  induction items as [|item items IH]; intros all_lines; cbn [fstab_loop].
  - adds_auto.
  - apply adds_bind; [typeclasses eauto| |intros a; apply IH].
    unfold fstab_entry, added_to_fstab, append_crypttab, settings_set, ensure_dir.
    adds_auto.
Qed.

Lemma run_installation_same_setup :
  adds any_op same_setup (fun _ => True) (run_installation world).
Proof.
  unfold run_installation, prepare, init_target, partition, extern_items, mount_target,
    mount_other, prep_dirs, ensure_dir, warn_failed,
    attempt_stages, on_stage_failure, install_stages, configure_system,
    copy_network_config, copy_network, listdir, enable_services, enable_service,
    auto_fstab, fstab_lines, added_to_fstab,
    install_system, install_system_body, mount_media, check_source_folder,
    to_number, FileCopyThread_init, start_join, FileCopyThread_run, stdout_lines,
    finish, copy_log, finalize_cleanup, source_dirs, umount_source,
    umount_mount_point, umount_or_lazy, chroot_run_umount_special_dirs.
  repeat first [apply run_lines_same_setup | apply fstab_loop_same_setup | adds_op];
    try reflexivity; try exact I; try (now repeat split).
Qed.

End Setup.

(** X17 -- [run_installation] and the stages it runs never assign the
    callback queue, the partition mode, the SSD keys, the attribute
    [dest_dir] (the empty string [__init__] gave it) and the flag of the
    special directories: however the run ends, they are what they were. *)
Theorem run_installation_keeps_its_setup (world : World) (st : St) :
  let s' := self (run_installation world st).2 in
  callback_queue s' = callback_queue (self st) /\ method s' = method (self st) /\
  ssd s' = ssd (self st) /\ dest_dir s' = dest_dir (self st) /\
  special_dirs_mounted s' = special_dirs_mounted (self st).
Proof.
  cbv zeta. destruct (run_installation world st) as [r st'] eqn:E.
  exact (proj1 (run_installation_same_setup world _ _ _ E)).
Qed.

Section TwoJobs.

Variable world : World.

Lemma outputs_app tr1 tr2 : outputs (tr1 ++ tr2) = outputs tr1 ++ outputs tr2.
Proof. apply omap_app. Qed.

Lemma counted_app tr1 tr2 : counted (tr1 ++ tr2) = counted tr1 ++ counted tr2.
Proof. apply omap_app. Qed.

Lemma no_progress_op new :
  Forall (fun x : step => is_progress_op x.1 = false) new ->
  percents new = [] /\ outputs new = [] /\ counted new = [].
Proof.
  induction 1 as [|[o a] new Ho _ (I1 & I2 & I3)]; [easy|].
  change ((o, a) :: new) with ([(o, a)] ++ new).
  rewrite percents_app, outputs_app, counted_app, I1, I2, I3, !app_nil_r.
  cbn [fst] in Ho.
  destruct o; try discriminate Ho; try (now repeat split);
    destruct k; try discriminate Ho; now repeat split.
Qed.

Lemma run_lines_no_output t lines : forall n st r st',
  run_lines world t n lines st = (r, st') ->
  exists new, trace st' = trace st ++ new /\ outputs new = [] /\ counted new = [].
Proof.
  induction lines as [|line lines IH]; intros n st r st' H; cbn [run_lines] in H.
  - injection H as <- <-. exists []. now rewrite app_nil_r.
  - unfold bind in H. destruct (run_line world t n line st) as [r1 st1] eqn:E1.
    assert (T1 : exists new, trace st1 = trace st ++ new /\ outputs new = [] /\ counted new = []).
    { revert E1. unfold run_line.
      destruct (Rsync.first_match line) as [[[x m1] m2]|]; cbv zeta.
      - destruct (_ mod 100 =? 0)%Z.
        + unfold update_progress. destruct (total_files t =? 0)%Z.
          * intros [= <- <-]. exists []. now rewrite app_nil_r.
          * unfold bind at 1. rewrite queue_event_eq. intros [= <- <-]. cbn [trace].
            eexists. split; [reflexivity|]. unfold emit_op.
            now destruct (callback_queue (self st)).
        + intros [= <- <-]. exists []. now rewrite app_nil_r.
      - intros [= <- <-]. exists []. now rewrite app_nil_r. }
    destruct T1 as (n1 & T1 & O1 & K1).
    destruct r1 as [a|e|c].
    + apply IH in H. destruct H as (n2 & T2 & O2 & K2). exists (n1 ++ n2).
      rewrite T2, T1, app_assoc, outputs_app, counted_app, O1, O2, K1, K2. easy.
    + injection H as <- <-. now exists n1.
    + injection H as <- <-. now exists n1.
Qed.

(** The loop of a copy job whose expected total is not zero. *)
Lemma run_lines_spec t lines st :
  total_files t <> 0%Z ->
  exists new,
    run_lines world t 0 lines st
    = (Ret (final_count 0 (offset t) (processed lines)), mkSt (self st) (trace st ++ new)) /\
    percents new = reported (total_files t) (offset t) (processed lines) /\
    outputs new = [] /\ counted new = [].
Proof.
  intros Hnz.
  destruct (run_lines_reports world t lines 0%Z st Hnz) as (n' & new & E & P).
  destruct (run_lines_no_output _ _ _ _ _ _ E) as (n2 & T2 & O2 & K2).
  cbn [trace] in T2. apply app_inv_head in T2. subst n2.
  exists new. rewrite E. split; [|easy].
  now rewrite (run_lines_count world _ _ _ _ _ _ E).
Qed.

(** One copy job, from [start] to [join], after the world has answered
    [a] for the output of rsync. *)
Lemma copy_job_spec t a st t' st' :
  try_except
    (lines <- (fun s => match a with
                        | Lines l => ret l s
                        | Raised e => raise e s
                        | _ => ret [] s
                        end) ;;
     n <- run_lines world t 0 lines ;;
     ret (mkThread (our_current t) (total_files t) n))
    is_Exception (fun _ => perform world PrintTraceback ;; ret t) st
  = (Ret t', st') ->
  total_files t' = total_files t /\
  (total_files t <> 0%Z -> offset t = 0%Z ->
   offset t' = final_count 0 0 (processed (lines_of a))) /\
  exists new,
    trace st' = trace st ++ new /\
    percents new = job_report (total_files t) (offset t) (lines_of a) /\
    outputs new = [] /\ counted new = [].
Proof.
  assert (Hh : forall s,
             (perform world PrintTraceback ;; ret t) s
             = (Ret t, mkSt (self s) (trace s ++ [(PrintTraceback, world (trace s) PrintTraceback)])))
    by reflexivity.
  assert (Hrun : forall lines,
             processed lines = processed (lines_of a) ->
             try_except
               (n <- run_lines world t 0 lines ;;
                ret (mkThread (our_current t) (total_files t) n))
               is_Exception (fun _ => perform world PrintTraceback ;; ret t) st
             = (Ret t', st') ->
             total_files t' = total_files t /\
             (total_files t <> 0%Z -> offset t = 0%Z ->
              offset t' = final_count 0 0 (processed (lines_of a))) /\
             exists new,
               trace st' = trace st ++ new /\
               percents new = job_report (total_files t) (offset t) (lines_of a) /\
               outputs new = [] /\ counted new = []).
  { intros lines Hl. unfold try_except, bind, job_report. rewrite <- Hl.
    destruct (Z.eq_dec (total_files t) 0%Z) as [Hz|Hnz].
    - destruct (run_lines_zero world t lines 0%Z st Hz) as [r3 ->].
      apply Z.eqb_eq in Hz. rewrite Hz.
      destruct r3 as [n|e|c]; cbn [is_Exception]; rewrite ?Hh; intros [= <- <-];
        cbn [total_files self trace]; (split; [reflexivity|]);
        (split; [intros Hx; apply Z.eqb_eq in Hz; contradiction|]).
      + exists []. now rewrite app_nil_r.
      + eexists. split; [reflexivity|]. easy.
    - destruct (run_lines_spec t lines st Hnz) as (new & -> & P & O & K).
      intros [= <- <-]. cbn [total_files offset self trace].
      split; [reflexivity|]. split; [intros _ Hoff; now rewrite Hoff|].
      exists new. apply Z.eqb_neq in Hnz. now rewrite Hnz. }
  destruct a as [| | | |l| |e];
    try (intros H; apply (Hrun []); [reflexivity|];
         revert H; unfold try_except, bind, ret; exact (fun H => H)).
  - intros H. apply (Hrun l); [reflexivity|].
    revert H. unfold try_except, bind, ret. exact (fun H => H).
  - unfold try_except, bind at 1, raise. cbn [is_Exception]. rewrite Hh.
    intros [= <- <-]. cbn [self trace lines_of]. split; [reflexivity|].
    split; [intros _ Hoff; now rewrite Hoff|]. eexists. split; [reflexivity|].
    unfold job_report, reported. cbn. now destruct (total_files t =? 0)%Z.
Qed.

Lemma start_join_spec t st t' st' :
  start_join world t st = (Ret t', st') ->
  total_files t' = total_files t /\
  (total_files t <> 0%Z -> offset t = 0%Z ->
   offset t' = final_count 0 0 (processed (lines_of (world (trace st) RsyncLines)))) /\
  exists new,
    trace st' = trace st ++ new /\
    percents new
    = job_report (total_files t) (offset t) (lines_of (world (trace st) RsyncLines)) /\
    outputs new = [lines_of (world (trace st) RsyncLines)] /\ counted new = [].
Proof.
  intros H.
  set (a := world (trace st) RsyncLines).
  set (st0 := mkSt (self st) (trace st ++ [(RsyncLines, a)])).
  assert (E : start_join world t st
              = try_except
                  (lines <- (fun s => match a with
                                      | Lines l => ret l s
                                      | Raised e => raise e s
                                      | _ => ret [] s
                                      end) ;;
                   n <- run_lines world t 0 lines ;;
                   ret (mkThread (our_current t) (total_files t) n))
                  is_Exception (fun _ => perform world PrintTraceback ;; ret t) st0).
  { unfold start_join, try_except, FileCopyThread_run, stdout_lines, bind at 1 3,
      bind at 1 3, perform. cbn [self trace]. fold a. fold st0.
    now destruct a. }
  rewrite E in H. apply copy_job_spec in H.
  destruct H as (Ht & Ho & new & T & P & O & K).
  split; [exact Ht|]. split; [exact Ho|].
  exists ((RsyncLines, a) :: new). split; [rewrite T; unfold st0; cbn [trace];
                                           now rewrite <- app_assoc|].
  change ((RsyncLines, a) :: new) with ([(RsyncLines, a)] ++ new).
  rewrite percents_app, outputs_app, counted_app, P, O, K. easy.
Qed.

End TwoJobs.

Section Extraction.

Variable world : World.

Lemma seg_trans s1 s2 s3 p1 o1 k1 p2 o2 k2 :
  seg s1 s2 p1 o1 k1 -> seg s2 s3 p2 o2 k2 -> seg s1 s3 (p1 ++ p2) (o1 ++ o2) (k1 ++ k2).
Proof.
  intros (n1 & T1 & P1 & O1 & K1) (n2 & T2 & P2 & O2 & K2). exists (n1 ++ n2).
  rewrite T2, T1, app_assoc, percents_app, outputs_app, counted_app. now subst.
Qed.

Lemma seg_quiet {A} (m : M A) st r st' :
  adds is_progress_op any_self (fun _ => True) m ->
  m st = (r, st') -> seg st st' [] [] [].
Proof.
  intros Hm H. destruct (Hm _ _ _ H) as (_ & (n & T & F) & _).
  apply no_progress_op in F. destruct F as (P & O & K). now exists n.
Qed.

Lemma seg_count image st c st' :
  count_files world image st = (Ret c, st') -> seg st st' [] [] [c].
Proof.
  intros H. apply ask_str_Ret in H. destruct H as [-> _].
  eexists. split; [reflexivity|]. now repeat split.
Qed.

Lemma seg_start_join t st t' st' :
  start_join world t st = (Ret t', st') ->
  seg st st'
    (job_report (total_files t) (offset t) (lines_of (world (trace st) RsyncLines)))
    [lines_of (world (trace st) RsyncLines)] [].
Proof. intros H. apply start_join_spec in H. exact (proj2 (proj2 H)). Qed.

Lemma seg_percent q st u st' :
  queue_event world percent (Ratio q) st = (Ret u, st') -> seg st st' [q] [] [].
Proof.
  rewrite queue_event_eq. intros [= _ <-]. eexists. split; [reflexivity|].
  unfold emit_op. now destruct (callback_queue (self st)).
Qed.

Lemma to_number_Ret s st n st' :
  to_number s st = (Ret n, st') -> n = PyStr.int s /\ st' = st.
Proof.
  unfold to_number, parse_count.
  destruct (negb (String.eqb s "") && all_digits s); now intros [= <- <-].
Qed.

Lemma FileCopyThread_init_Ret c total src dst off st t st' :
  FileCopyThread_init world c total src dst off st = (Ret t, st') ->
  t = mkThread c total off.
Proof. unfold FileCopyThread_init. intros H. peel H. now injection H as <-. Qed.

Lemma install_system_progress st st' :
  install_system world st = (Ret tt, st') ->
  exists new c1 c2 lines1 lines2,
    trace st' = trace st ++ new /\
    counted new = [c1; c2] /\
    outputs new = [lines1; lines2] /\
    percents new = two_jobs_report (PyStr.int c1 + PyStr.int c2) lines1 lines2 ++ [1%Q].
Proof.
  unfold install_system. intros H.
  apply try_except_inv_Ret in H. destruct H as [H|(e & st1 & _ & _ & H)].
  2:{ peel H.
      match goal with
      | Hq : queue_fatal_event _ _ _ = (Ret ?u, _) |- _ =>
          destruct u; now apply queue_fatal_event_no_return in Hq
      end. }
  unfold install_system_body in H. peel H.
  injection H0 as <- <-.
  repeat match goal with
         | Hx : to_number _ _ = _ |- _ => apply to_number_Ret in Hx; destruct Hx as [-> ->]
         end.
  repeat match goal with
         | Hx : FileCopyThread_init _ _ _ _ _ _ _ = (Ret _, ?s) |- _ =>
             pose proof (FileCopyThread_init_Ret _ _ _ _ _ _ _ _ Hx);
             eapply seg_quiet in Hx; [|unfold FileCopyThread_init; adds_auto]
         end.
  subst.
  repeat match goal with
         | Hx : count_files _ _ _ = _ |- _ => apply seg_count in Hx
         | Hx : start_join _ _ _ = _ |- _ =>
             let Hy := fresh "J" in
             pose proof (start_join_spec _ _ _ _ _ Hx) as Hy;
             apply proj2, proj1 in Hy; apply seg_start_join in Hx
         | Hx : queue_event _ percent _ _ = _ |- _ => apply seg_percent in Hx
         | Hx : _ _ = (Ret _, _) |- _ =>
             eapply seg_quiet in Hx; [|unfold mount_media, check_source_folder; adds_auto]
         end.
  cbn [total_files offset] in *.
  repeat match goal with
         | Ha : seg ?a ?b _ _ _, Hb : seg ?b ?c _ _ _ |- _ =>
             pose proof (seg_trans _ _ _ _ _ _ _ _ _ Ha Hb); clear Ha Hb
         end.
  match goal with
  | S : seg st st' _ _ _ |- _ => destruct S as (new & T & P & O & K)
  end.
  rewrite ?app_nil_r, <- ?app_assoc in P, O, K. cbn [app] in P, O, K.
  rewrite ?app_nil_r in P, O, K.
  match type of K with _ = [?c1; ?c2] => exists new, c1, c2 end.
  match type of O with _ = [?l1; ?l2] => exists l1, l2 end.
  split; [exact T|]. split; [exact K|]. split; [exact O|].
  rewrite P. unfold two_jobs_report. rewrite <- app_assoc. f_equal. f_equal.
  unfold job_report.
  match goal with
  | |- context [(?total =? 0)%Z] => destruct (Z.eqb_spec total 0) as [Hz|Hnz]
  end; [reflexivity|].
  match goal with
  | Hj : _ -> _ -> offset a15 = _ |- _ => now rewrite (Hj Hnz eq_refl)
  end.
Qed.

End Extraction.

(** X18 -- The progress of the extraction stage, from its first event to
    its last: a stage that returns has counted the files of the two images
    (the expected total is the sum of the two counts), has run two copy jobs,
    and has reported, in order, the ratios of the first job, counted from 0,
    the ratios of the second job, counted from the count on which the first
    job ended, and at last the ratio 1.  A job reports the counts of its
    progress lines that are multiples of 100, over the expected total, and
    nothing when the expected total is zero. *)
Theorem extraction_progress_spans_both_jobs
    (world : World) (st st' : St) :
  install_system world st = (Ret tt, st') ->
  exists new c1 c2 lines1 lines2,
    trace st' = trace st ++ new /\
    counted new = [c1; c2] /\
    outputs new = [lines1; lines2] /\
    percents new = two_jobs_report (PyStr.int c1 + PyStr.int c2) lines1 lines2 ++ [1%Q].
Proof. apply install_system_progress. Qed.

Lemma extraction_progress_spans_both_jobs_witness :
  let st := mkSt (self (prepare live_world (fresh target_installer)).2) [] in
  let out := install_system live_world st in
  exists new c1 c2 lines1 lines2,
    trace out.2 = [] ++ new /\
    counted new = [c1; c2] /\
    outputs new = [lines1; lines2] /\
    percents new = two_jobs_report (PyStr.int c1 + PyStr.int c2) lines1 lines2 ++ [1%Q].
Proof.
  intros st out.
  apply (extraction_progress_spans_both_jobs live_world st).
  vm_compute. reflexivity.
Defined.

Section AutologinLines.

(** A text without the character [c] is found in [u] followed by [c] where
    it is found in [u]. *)
Lemma prefix_snoc c needle :
  Forall (fun a => a <> c) (list_ascii_of_string needle) ->
  forall u, String.prefix needle (u +:+ String c "") = String.prefix needle u.
Proof.
  induction needle as [|a needle IH]; intros Hn u.
  - now destruct u.
  - cbn [list_ascii_of_string] in Hn. apply Forall_cons in Hn. destruct Hn as [Ha Hn].
    destruct u as [|b u].
    + rewrite append_nil. cbn [String.prefix]. now destruct (ascii_dec a c).
    + rewrite append_cons. cbn [String.prefix]. destruct (ascii_dec a b); [|reflexivity].
      now apply IH.
Qed.

Lemma contains_snoc c needle :
  Forall (fun a => a <> c) (list_ascii_of_string needle) ->
  forall u, PyStr.contains needle (u +:+ String c "") = PyStr.contains needle u.
Proof.
  intros Hn. induction u as [|b u IH].
  - rewrite append_nil. cbn [PyStr.contains].
    rewrite <- (append_nil (String c "")), (prefix_snoc c needle Hn ""). now destruct needle.
  - rewrite append_cons. cbn [PyStr.contains].
    rewrite <- append_cons, (prefix_snoc c needle Hn (String b u)). now rewrite IH.
Qed.

Lemma contains_app lit s : PyStr.contains lit (lit +:+ s) = true.
Proof.
  assert (H : String.prefix lit (lit +:+ s) = true).
  { induction lit as [|a lit IH]; [now destruct s|].
    rewrite append_cons. cbn [String.prefix]. now destruct (ascii_dec a a). }
  destruct (lit +:+ s); cbn [PyStr.contains]; now rewrite H.
Qed.

Ltac no_newline := repeat constructor; discriminate.

Ltac skip_literal :=
  rewrite ?append_cons, ?append_nil; cbn [PyStr.contains String.prefix];
  repeat match goal with
         | |- context [ascii_dec ?a ?b] => destruct (ascii_dec a b); [discriminate|]
         end;
  cbn [orb].

Lemma kdm_line_twice u line :
  PyStr.contains "#AutoLoginEnable=true" u = false ->
  kdm_line u (kdm_line u line) = kdm_line u line.
Proof.
  intros Hu.
  assert (B1 : PyStr.contains "#AutoLoginEnable=true" ("AutoLoginUser=" +:+ u +:+ newline)
               = false).
  { skip_literal. unfold newline. rewrite contains_snoc by no_newline. exact Hu. }
  assert (B2 : PyStr.contains "AutoLoginUser=" ("AutoLoginUser=" +:+ u +:+ newline) = true)
    by apply contains_app.
  assert (A1 : PyStr.contains "#AutoLoginEnable=true" ("AutoLoginEnable=true" +:+ newline)
               = false) by reflexivity.
  assert (A2 : PyStr.contains "AutoLoginUser=" ("AutoLoginEnable=true" +:+ newline) = false)
    by reflexivity.
  unfold kdm_line. cbv zeta.
  destruct (PyStr.contains "#AutoLoginEnable=true" line) eqn:E1;
    [|destruct (PyStr.contains "AutoLoginUser=" line) eqn:E2];
    rewrite ?A1, ?A2, ?B1, ?B2, ?E1, ?E2, ?A2; reflexivity.
Qed.

Lemma lxdm_line_twice u line : lxdm_line u (lxdm_line u line) = lxdm_line u line.
Proof.
  unfold lxdm_line.
  destruct (PyStr.contains "# autologin=dgod" line) eqn:E1.
  - match goal with |- (if ?b then _ else _) = _ => now destruct b end.
  - now rewrite E1.
Qed.

Lemma lightdm_line_twice u line :
  lightdm_line u (lightdm_line u line) = lightdm_line u line.
Proof.
  unfold lightdm_line.
  destruct (PyStr.contains "#autologin-user=" line) eqn:E1.
  - match goal with |- (if ?b then _ else _) = _ => now destruct b end.
  - now rewrite E1.
Qed.

Lemma slim_line_twice u line :
  PyStr.contains "auto_login" u = false ->
  slim_line u (slim_line u line) = slim_line u line.
Proof.
  intros Hu.
  assert (B1 : PyStr.contains "auto_login" ("default_user " +:+ u +:+ newline) = false).
  { skip_literal. unfold newline. rewrite contains_snoc by no_newline. exact Hu. }
  assert (B2 : PyStr.contains "default_user" ("default_user " +:+ u +:+ newline) = true).
  { change ("default_user " +:+ u +:+ newline)
      with ("default_user" +:+ " " +:+ u +:+ newline). apply contains_app. }
  assert (A1 : PyStr.contains "auto_login" ("auto_login yes" +:+ newline) = true)
    by reflexivity.
  assert (A2 : PyStr.contains "default_user" ("auto_login yes" +:+ newline) = false)
    by reflexivity.
  unfold slim_line. cbv zeta.
  destruct (PyStr.contains "auto_login" line) eqn:E1;
    [|destruct (PyStr.contains "default_user" line) eqn:E2];
    rewrite ?A1, ?A2, ?B1, ?B2, ?E1, ?E2, ?A2; reflexivity.
Qed.

End AutologinLines.

Section AutologinFile.

Variable world : World.

Lemma rewrite_loop_spec path (rule : string -> string) text : forall st r st',
  for_each text (fun line => line <- ret (rule line) ;; write world path line) st = (r, st') ->
  self st' = self st /\
  exists new,
    trace st' = trace st ++ new /\
    calls "open" new = [] /\
    written path new `prefix_of` map rule text /\
    (r = Ret tt -> written path new = map rule text) /\
    (never_raises world "write" -> r = Ret tt).
Proof.
  induction text as [|line text IH]; intros st r st' H; cbn [for_each] in H.
  - injection H as <- <-. split; [reflexivity|]. exists []. rewrite app_nil_r.
    cbn. split; [reflexivity|]. split; [reflexivity|]. split; [apply prefix_nil|]. easy.
  - unfold bind at 1 in H. unfold bind at 1 in H. cbn [ret] in H.
    destruct (write world path (rule line) st) as [r1 st1] eqn:E1.
    apply call_step in E1. destruct E1 as [-> R1].
    assert (Hw : written path [(Extern "write" [path; rule line],
                                world (trace st) (Extern "write" [path; rule line]))]
                 = [rule line]).
    { unfold written, calls. cbn. now rewrite String.eqb_refl. }
    cbn [map]. change (?x :: map ?f ?l) with ([x] ++ map f l). rewrite <- Hw.
    destruct r1 as [[]|e|c]; [| |easy].
    + apply IH in H. destruct H as (S2 & n2 & T2 & O2 & P2 & C2 & W2).
      cbn [self trace] in *. split; [exact S2|]. eexists.
      split; [rewrite T2, <- app_assoc; reflexivity|].
      rewrite calls_app, written_app. split; [now rewrite O2|].
      split; [now apply prefix_app|].
      split; [|exact W2]. intros Hr. now rewrite (C2 Hr).
    + injection H as <- <-. cbn [self trace]. split; [reflexivity|]. eexists.
      split; [reflexivity|]. split; [reflexivity|]. split; [now apply prefix_app_r|].
      split; [discriminate|]. intros Hn. now apply Hn in R1.
Qed.

Lemma rewrite_lines_spec path (rule : string -> string) text st r st' :
  (forall tr, world tr (Extern "readlines" [path]) = Lines text) ->
  rewrite_lines world path (fun line => ret (rule line)) st = (r, st') ->
  self st' = self st /\
  exists new,
    trace st' = trace st ++ new /\
    written path new `prefix_of` map rule text /\
    (r = Ret tt -> written path new = map rule text) /\
    (never_raises world "open" -> never_raises world "write" -> r = Ret tt).
Proof.
  intros Hr. unfold rewrite_lines.
  unfold bind at 1, readlines, bind at 1, perform. rewrite Hr. cbn [self trace ret].
  unfold bind at 1.
  match goal with
  | |- context [open_w world ?p ?s] => destruct (open_w world p s) as [r1 st1] eqn:E1
  end.
  apply call_step in E1. destruct E1 as [-> R1]. cbn [self trace] in *.
  destruct r1 as [[]|e|c]; [| |easy].
  - intros H. apply rewrite_loop_spec in H.
    destruct H as (S2 & n2 & T2 & _ & P2 & C2 & W2). cbn [self trace] in *.
    split; [exact S2|]. eexists. split; [rewrite T2, <- !app_assoc; reflexivity|].
    rewrite !written_app.
    split; [exact P2|]. split; [exact C2|]. intros _. exact W2.
  - intros [= <- <-]. cbn [self trace]. split; [reflexivity|]. eexists.
    split; [rewrite <- !app_assoc; reflexivity|].
    split; [apply prefix_nil|]. split; [discriminate|]. intros Hn. now apply Hn in R1.
Qed.

Lemma rewrite_lines_missing path (body : string -> M string) e st r st' :
  (forall tr, world tr (Extern "readlines" [path]) = Raised e) ->
  rewrite_lines world path body st = (r, st') ->
  r = Raise e /\ self st' = self st /\
  exists new, trace st' = trace st ++ new /\ calls "open" new = [] /\ calls "write" new = [].
Proof.
  intros Hr. unfold rewrite_lines.
  unfold bind at 1, readlines, bind at 1, perform. rewrite Hr. cbn [self trace ret raise].
  intros [= <- <-]. cbn [self trace]. split; [reflexivity|]. split; [reflexivity|].
  eexists. split; [reflexivity|]. split; reflexivity.
Qed.

End AutologinFile.

Ltac decide_names :=
  repeat match goal with
         | |- context [String.eqb ?a ?b] =>
             let v := eval vm_compute in (String.eqb a b) in
             change (String.eqb a b) with v
         end;
  cbv iota.

Lemma autologin_line_cases desktop_manager rule :
  autologin_line desktop_manager = Some rule ->
  (desktop_manager = "kdm" /\ rule = kdm_line) \/
  (desktop_manager = "lxdm" /\ rule = lxdm_line) \/
  (desktop_manager = "lightdm" /\ rule = lightdm_line) \/
  (desktop_manager = "slim" /\ rule = slim_line).
Proof.
  unfold autologin_line.
  destruct (String.eqb_spec desktop_manager "kdm"); [intros [= <-]; tauto|].
  destruct (String.eqb_spec desktop_manager "lxdm"); [intros [= <-]; tauto|].
  destruct (String.eqb_spec desktop_manager "lightdm"); [intros [= <-]; tauto|].
  destruct (String.eqb_spec desktop_manager "slim"); [intros [= <-]; tauto|].
  discriminate.
Qed.

Lemma set_autologin_by_line world desktop_manager rule st :
  autologin_line desktop_manager = Some rule ->
  set_autologin world desktop_manager st =
  (queue_event world info
     (Text (desktop_manager +:+ ": Enable automatic login for user "
            +:+ str_of (default PyNone (settings (self st) !! "username")) +:+ ".")) ;;
   rewrite_lines world (path_join (dest_dir (self st)) (autologin_conf desktop_manager))
     (fun line => ret (rule (str_of (default PyNone (settings (self st) !! "username")))
                            line))) st.
Proof.
  intros H. apply autologin_line_cases in H.
  unfold set_autologin. unfold bind at 1. rewrite settings_get_eq. cbv zeta.
  unfold bind at 1 3. rewrite queue_event_eq. unfold bind at 1, get_self. cbn [self trace].
  destruct H as [[-> ->]|[[-> ->]|[[-> ->]|[-> ->]]]]; decide_names;
    unfold bind at 1; rewrite queue_event_eq; reflexivity.
Qed.

(** X12 -- For KDM, LXDM, LightDM and Slim, [set_autologin] opens the display
    manager's configuration for writing and writes back the lines it read, in
    order, one [write] each, every line through the rule of that display
    manager for the user name of the settings; when a [write] fails, what was
    written by then is a prefix of those lines, and when [open] and [write]
    do not raise the call returns.  The installer is left as it is.
    Rewriting what was written changes nothing more, for LXDM and LightDM
    always, for KDM when the user name does not hold [#AutoLoginEnable=true]
    and for Slim when it does not hold [auto_login]. *)
Theorem set_autologin_rewrites_each_line
    (world : World) (desktop_manager : string) (rule : string -> string -> string)
    (text : list string) (st : St) (r : res unit) (st' : St) :
  let username := str_of (default PyNone (settings (self st) !! "username")) in
  let path := path_join (dest_dir (self st)) (autologin_conf desktop_manager) in
  autologin_line desktop_manager = Some rule ->
  (forall tr, world tr (Extern "readlines" [path]) = Lines text) ->
  set_autologin world desktop_manager st = (r, st') ->
  self st' = self st /\
  (exists new,
     trace st' = trace st ++ new /\
     written path new `prefix_of` map (rule username) text /\
     (r = Ret tt -> written path new = map (rule username) text) /\
     (never_raises world "open" -> never_raises world "write" -> r = Ret tt)) /\
  ((desktop_manager = "kdm" -> PyStr.contains "#AutoLoginEnable=true" username = false) ->
   (desktop_manager = "slim" -> PyStr.contains "auto_login" username = false) ->
   map (rule username) (map (rule username) text) = map (rule username) text).
Proof.
  intros username path Hl Hr H.
  rewrite (set_autologin_by_line world desktop_manager rule st Hl) in H.
  unfold bind at 1 in H. rewrite queue_event_eq in H.
  fold username path in H.
  apply (rewrite_lines_spec world path (rule username) text _ _ _ Hr) in H.
  destruct H as (S2 & n2 & T2 & P2 & C2 & W2). cbn [self trace] in *.
  split; [exact S2|]. split.
  - eexists. split; [rewrite T2, <- !app_assoc; reflexivity|].
    rewrite written_app.
    assert (E : forall o a, written path [(emit_op (self st) info o, a)] = []).
    { intros o a. unfold emit_op. now destruct (callback_queue (self st)). }
    rewrite E. cbn [app]. split; [exact P2|]. split; [exact C2|exact W2].
  - intros Hk Hs. rewrite map_map. apply map_ext. intros line.
    apply autologin_line_cases in Hl.
    destruct Hl as [[-> ->]|[[-> ->]|[[-> ->]|[-> ->]]]].
    + apply kdm_line_twice. now apply Hk.
    + apply lxdm_line_twice.
    + apply lightdm_line_twice.
    + apply slim_line_twice. now apply Hs.
Qed.

Lemma set_autologin_rewrites_each_line_witness :
  let out := set_autologin slim_world "slim" (fresh maria_installer) in
  out.1 = Ret tt /\
  written "etc/slim.conf" (trace out.2) =
    ["default_user maria" +:+ newline;
     "auto_login yes" +:+ newline;
     "login_cmd           exec /bin/bash -login /etc/X11/Xsession %session" +:+ newline] /\
  map (slim_line "maria") (map (slim_line "maria") sample_slim_conf)
  = map (slim_line "maria") sample_slim_conf.
Proof.
  intros out.
  destruct (set_autologin_rewrites_each_line slim_world "slim" slim_line sample_slim_conf
              (fresh maria_installer) out.1 out.2
              eq_refl (fun _ => eq_refl) (surjective_pairing _))
    as (_ & (new & T & _ & C & W) & I).
  assert (R : out.1 = Ret tt) by (apply W; intros tr args e; discriminate).
  cbn [fresh trace app] in T. rewrite T. split; [exact R|]. split; [exact (C R)|].
  apply I; [discriminate|reflexivity].
Defined.
